(** * Lab cleaning tracker: dashboards, status updates and rotation summaries

    A shallow embedding of the TypeScript sources
      - [src/pages/AdminDashboard.tsx]   (module [AdminDashboard])
      - [src/pages/WorkerDashboard.tsx]  (module [WorkerDashboard])
      - the second admin dashboard       (module [AdminDashboard2])
      - the second worker dashboard      (module [WorkerDashboard2])
      - the routes of the application    (module [App])
    over a model of the Supabase tables and requests (module [Repo]) and of
    JavaScript dates (module [JSDate]), together with the properties the
    specification states about them.  The stored procedure that generates
    the assignments of a day is not among the sources; module [Generator]
    follows the specification for it. *)

From Stdlib Require Import ZArith Lia Bool List String Ascii Sorting.Sorted.
From stdpp Require Import gmap strings list fin_maps sorting pretty.
Import ListNotations.

Local Open Scope string_scope.
Local Open Scope Z_scope.

(** ** JavaScript dates *)

(** A [Date] is its time value: milliseconds since 1970-01-01T00:00Z.  A
    calendar date string [YYYY-MM-DD] is represented by its day number (days
    since 1970-01-01), so that comparing two such strings is comparing their
    day numbers; a string that is not a date, such as the empty string of a
    cleared date input, is the matter of [DateInput] below.  The local time
    zone is given the way ECMAScript reads it, by [LocalTZA(t, isUTC)]: the
    offset (local minus UTC, in milliseconds) in effect at an instant, and
    the offset with which a local time value is read back as an instant (at
    a clock change, the offset before the change).  An offset alone stands
    for the zone that keeps it all year. *)
Module JSDate.

Definition Date := Z.
Definition IsoDate := Z.

Definition msPerDay : Z := 86400000.

(** Day number of the civil date [y]-[m]-[d] (proleptic Gregorian). *)
Definition isoDate (y m d : Z) : IsoDate :=
  let y' := if m <=? 2 then y - 1 else y in
  let era := y' / 400 in
  let yoe := y' - era * 400 in
  let mp := (m + 9) mod 12 in
  let doy := (153 * mp + 2) / 5 + d - 1 in
  let doe := yoe * 365 + yoe / 4 - yoe / 100 + doy in
  era * 146097 + doe - 719468.

(** Weekday of a day number, 0 = Sunday .. 6 = Saturday
    (1970-01-01 was a Thursday). *)
Definition weekdayOfDay (n : IsoDate) : Z := (n + 4) mod 7.

(** [LocalTZA(t, true)] and [LocalTZA(tlocal, false)]. *)
Record Zone := { offsetAt : Date → Z; offsetOfLocal : Z → Z }.

(** The zone that keeps the offset [tz] all year: no clock change.  Where a
    zone is expected, an offset is read as this zone. *)
Definition fixed (tz : Z) : Zone :=
  {| offsetAt := λ _, tz; offsetOfLocal := λ _, tz |}.

Section Zone.
Variable zone : Zone.

(** [LocalTime(t)] and [UTC(tlocal)]. *)
Definition localTime (d : Date) : Z := d + offsetAt zone d.
Definition utc (l : Z) : Date := l - offsetOfLocal zone l.

(** Calendar day, in local time, on which the instant [d] falls. *)
Definition localDay (d : Date) : IsoDate := localTime d / msPerDay.

(** [d.getDay()] *)
Definition getDay (d : Date) : Z := weekdayOfDay (localDay d).

(** [d.setDate(d.getDate() + k)]: the local calendar day moves by [k], the
    local time of day stays, and the result is read back as an instant. *)
Definition setDatePlus (d : Date) (k : Z) : Date :=
  utc (localTime d + k * msPerDay).

(** [d.setHours(0, 0, 0, 0)]: local midnight of the same local day. *)
Definition setHours0 (d : Date) : Date := utc (localDay d * msPerDay).

(** [new Date("YYYY-MM-DD")]: midnight UTC of that day. *)
Definition parseIso (s : IsoDate) : Date := s * msPerDay.

(** [toISODate(d)] of both [src/pages] files: the local calendar date. *)
Definition toISODate (d : Date) : IsoDate := localDay d.

(** [toISO(d) = d.toISOString().slice(0, 10)]: the UTC calendar date. *)
Definition toISO (d : Date) : IsoDate := d / msPerDay.

(** [startOfWeekMonday] of [src/pages/AdminDashboard.tsx]. *)
Definition startOfWeekMonday (d : Date) : Date :=
  let copy := d in
  let day := getDay copy in
  let diff := (if day =? 0 then -6 else 1) - day in
  let copy := setDatePlus copy diff in
  setHours0 copy.

(** [addDays] of [src/pages/AdminDashboard.tsx]. *)
Definition addDays (d : Date) (days : Z) : Date := setDatePlus d days.

(** [getWeekStart] of the second admin dashboard ("start on Sunday"), on a
    string that is a date. *)
Definition getWeekStart (dateStr : IsoDate) : IsoDate :=
  let d := parseIso dateStr in
  let day := getDay d in
  let d := setDatePlus d (- day) in
  toISO d.

(** [getWeekEnd] of the second admin dashboard. *)
Definition getWeekEnd (weekStartStr : IsoDate) : IsoDate :=
  let d := parseIso weekStartStr in
  let d := setDatePlus d 6 in
  toISO d.

(** The loop of [getWeekDates]: [n] times, the UTC date of [d] is pushed
    and [d] moves one day on. *)
Fixpoint weekDatesFrom (n : nat) (d : Date) : list IsoDate :=
  match n with
  | O => []
  | S n' => toISO d :: weekDatesFrom n' (setDatePlus d 1)
  end.

(** [getWeekDates] of the second admin dashboard. *)
Definition getWeekDates (weekStartStr : IsoDate) : list IsoDate :=
  weekDatesFrom 7 (parseIso weekStartStr).

End Zone.

(** The value of an [<input type="date">]: a date, or the empty string
    when it has been cleared. *)
Inductive DateInput := OnDate (s : IsoDate) | Cleared.

(** What a call returns, or that it threw [RangeError]:
    [new Date("")] is an invalid date and [toISOString] throws on it. *)
Inductive Thrown (A : Type) := Returned (a : A) | RangeError.
Arguments Returned {A} a.
Arguments RangeError {A}.

(** [getWeekStart] on the value of the date input. *)
Definition getWeekStartOf (zone : Zone) (dateStr : DateInput)
  : Thrown IsoDate :=
  match dateStr with
  | OnDate s => Returned (getWeekStart zone s)
  | Cleared => RangeError
  end.

End JSDate.

Coercion JSDate.fixed : Z >-> JSDate.Zone.

(** ** [Array.prototype.sort] with a comparator *)

(** The sort is stable and, for a consistent comparator, its result is the
    stable sorted arrangement; insertion from the right computes it: an
    element goes before the first one it does not compare greater than. *)
Section Sort.
Context {A : Type} (cmp : A → A → Z).

Fixpoint insertSorted (x : A) (l : list A) : list A :=
  match l with
  | [] => [x]
  | y :: l' => if cmp x y <=? 0 then x :: y :: l' else y :: insertSorted x l'
  end.

Definition sortBy (l : list A) : list A := foldr insertSorted [] l.
End Sort.

(** ** The repository (Supabase tables and requests) *)

Module Repo.
Import JSDate.

Inductive Role := admin | worker.
Inductive Status := not_started | in_progress | completed.

Record Room := {
  room_id : Z; room_name : string; is_harvest : bool; room_active : bool }.
Record CleaningLevel := { level_id : Z; level_name : string }.
(** A profile is looked up by the id of the signed-in user of the auth
    service ([.eq('user_id', user.id)]): user ids are its UUIDs. *)
Record Profile := {
  user_id : string; full_name : option string; role : Role; active : bool }.
Record AvailabilityRow := { av_user_id : string; weekday : Z; is_off : bool }.
Record TaskRow := {
  task_id : Z; task_date : IsoDate; task_room_id : Z;
  cleaning_level_id : Z; is_harvest_shift : bool }.
Record AssignmentRow := {
  asg_id : Z; asg_task_id : Z; asg_user_id : string; asg_status : Status;
  started_at : option string; completed_at : option string }.

Record DB := {
  rooms : list Room;
  cleaning_levels : list CleaningLevel;
  profiles : list Profile;
  worker_availability : list AvailabilityRow;
  tasks : list TaskRow;
  task_assignments : list AssignmentRow }.

#[global] Instance Status_eq_dec : EqDecision Status.
Proof. solve_decision. Defined.
#[global] Instance Role_eq_dec : EqDecision Role.
Proof. solve_decision. Defined.

(** A request answers [{ data, error }]. *)
Inductive Response (A : Type) := Data (data : A) | Failure (message : string).
Arguments Data {A} data.
Arguments Failure {A} message.

(** The world a handler runs in: the tables, and for each request still to
    come whether the service will report an error for it. *)
Record World := { db : DB; faults : list (option string) }.

Definition M (A : Type) : Type := World → A * World.

#[global] Instance M_ret : MRet M := λ A a w, (a, w).
#[global] Instance M_bind : MBind M :=
  λ A B f m w, let '(a, w') := m w in f a w'.

Definition request {A} (f : DB → A * DB) : M (Response A) := λ w,
  match faults w with
  | Some msg :: fs => (Failure msg, {| db := db w; faults := fs |})
  | None :: fs =>
      let '(a, d') := f (db w) in (Data a, {| db := d'; faults := fs |})
  | [] => let '(a, d') := f (db w) in (Data a, {| db := d'; faults := [] |})
  end.

(** [select]: reads and leaves the tables as they are. *)
Definition query {A} (f : DB → A) : M (Response A) :=
  request (λ d, (f d, d)).

(** [update], [upsert], [delete], [rpc]: rewrite the tables. *)
Definition mutate (f : DB → DB) : M (Response unit) :=
  request (λ d, (tt, f d)).

(** The columns an [update] sets. *)
Record AssignmentPatch := {
  set_status : option Status;
  set_started_at : option string;
  set_completed_at : option string }.

Definition patchAssignment (p : AssignmentPatch) (a : AssignmentRow)
  : AssignmentRow :=
  {| asg_id := asg_id a; asg_task_id := asg_task_id a;
     asg_user_id := asg_user_id a;
     asg_status := default (asg_status a) (set_status p);
     started_at :=
       match set_started_at p with Some t => Some t | None => started_at a end;
     completed_at :=
       match set_completed_at p with
       | Some t => Some t | None => completed_at a end |}.

Definition withAssignments (l : list AssignmentRow) (d : DB) : DB :=
  {| rooms := rooms d; cleaning_levels := cleaning_levels d;
     profiles := profiles d; worker_availability := worker_availability d;
     tasks := tasks d; task_assignments := l |}.

Definition withAvailability (l : list AvailabilityRow) (d : DB) : DB :=
  {| rooms := rooms d; cleaning_levels := cleaning_levels d;
     profiles := profiles d; worker_availability := l;
     tasks := tasks d; task_assignments := task_assignments d |}.

(** [from("task_assignments").update(patch).eq("id", id)] *)
Definition updateAssignmentWhereId (p : AssignmentPatch) (id : Z) (d : DB) : DB :=
  withAssignments
    (map (λ a, if decide (asg_id a = id) then patchAssignment p a else a)
         (task_assignments d)) d.

(** [rpc(fn, args)]: runs a stored procedure, which either raises or
    commits its writes. *)
Definition rpc (f : DB → (string + unit) * DB) : M (Response unit) := λ w,
  let run fs :=
    match f (db w) with
    | (inl message, d') => (Failure message, {| db := d'; faults := fs |})
    | (inr _, d') => (Data tt, {| db := d'; faults := fs |})
    end in
  match faults w with
  | Some msg :: fs => (Failure msg, {| db := db w; faults := fs |})
  | None :: fs => run fs
  | [] => run []
  end.

Definition sameDay (userId : string) (wd : Z) (r : AvailabilityRow) : bool :=
  bool_decide (av_user_id r = userId) && bool_decide (weekday r = wd).

(** [upsert(row, { onConflict: "user_id,weekday" })] *)
Definition upsertAvailability (row : AvailabilityRow) (d : DB) : DB :=
  let l := worker_availability d in
  withAvailability
    (if existsb (sameDay (av_user_id row) (weekday row)) l
     then map (λ r, if sameDay (av_user_id row) (weekday row) r
                    then row else r) l
     else l ++ [row]) d.

(** [delete().eq("user_id", userId).eq("weekday", weekday)] *)
Definition deleteAvailability (userId : string) (wd : Z) (d : DB) : DB :=
  withAvailability
    (List.filter (λ r, negb (sameDay userId wd r)) (worker_availability d)) d.

End Repo.

(** ** [src/pages/WorkerDashboard.tsx] *)

Module WorkerDashboard.
Import JSDate Repo.

Record TaskInfo := {
  ti_id : Z; ti_task_date : IsoDate; ti_is_harvest_shift : bool;
  ti_room : option string; ti_cleaning_level : option string }.

Record WorkerAssignment := {
  assignment_id : Z;
  status : Status;
  wa_started_at : option string;
  wa_completed_at : option string;
  task : option TaskInfo }.

Record State := { rows : list WorkerAssignment; toast : option string }.

(** The type of [setStatus]'s parameter [next]:
    ["in_progress" | "completed"]. *)
Inductive Next := InProgress | Completed.

Definition statusOf (next : Next) : Status :=
  match next with InProgress => in_progress | Completed => completed end.

(** [patch] as [setStatus] builds it. *)
Definition patchOf (now : string) (next : Next) : AssignmentPatch :=
  {| set_status := Some (statusOf next);
     set_started_at := match next with InProgress => Some now | _ => None end;
     set_completed_at := match next with Completed => Some now | _ => None end |}.

(** The object the [setRows] callback builds for the matching row. *)
Definition applyNext (now : string) (next : Next) (r : WorkerAssignment)
  : WorkerAssignment :=
  {| assignment_id := assignment_id r;
     status := statusOf next;
     wa_started_at :=
       match next with InProgress => Some now | _ => wa_started_at r end;
     wa_completed_at :=
       match next with Completed => Some now | _ => wa_completed_at r end;
     task := task r |}.

(** [setStatus(assignmentId, next)]; [now] is [new Date().toISOString()]. *)
Definition setStatus (now : string) (assignmentId : Z) (next : Next)
    (st : State) : M State :=
  let patch := patchOf now next in
  res ← mutate (updateAssignmentWhereId patch assignmentId);
  match res with
  | Failure message => mret {| rows := rows st; toast := Some message |}
  | Data _ =>
      mret {| rows :=
                map (λ r, if decide (assignment_id r = assignmentId)
                          then applyNext now next r else r) (rows st);
              toast := Some (match next with
                             | Completed => "Marked complete"
                             | InProgress => "Started" end) |}
  end.

(** The two buttons of a row, and when each is enabled
    ([disabled={status !== "not_started"}] for Start,
     [disabled={status === "completed"}] for Complete). *)
Definition enabled (next : Next) (r : WorkerAssignment) : bool :=
  match next with
  | InProgress => bool_decide (status r = not_started)
  | Completed => negb (bool_decide (status r = completed))
  end.

(** Clicking a button of row [r]: nothing happens when it is disabled. *)
Definition click (now : string) (next : Next) (r : WorkerAssignment)
    (st : State) : M State :=
  if enabled next r then setStatus now (assignment_id r) next st else mret st.


(** The request of [loadAssignments]: the assignments of the user by id,
    each with its task embedded; the filter on the task's date leaves the
    task [null] when it is of another date. *)
Definition embedTaskOn (date : IsoDate) (d : DB) (a : AssignmentRow)
  : option TaskInfo :=
  t ← List.find (λ t, bool_decide (task_id t = asg_task_id a)) (tasks d);
  if bool_decide (task_date t = date)
  then Some {| ti_id := task_id t; ti_task_date := task_date t;
               ti_is_harvest_shift := is_harvest_shift t;
               ti_room := room_name <$>
                 List.find (λ r, bool_decide (room_id r = task_room_id t))
                           (rooms d);
               ti_cleaning_level := level_name <$>
                 List.find (λ l, bool_decide (level_id l = cleaning_level_id t))
                           (cleaning_levels d) |}
  else None.

Definition toRow (date : IsoDate) (d : DB) (a : AssignmentRow)
  : WorkerAssignment :=
  {| assignment_id := asg_id a; status := asg_status a;
     wa_started_at := started_at a; wa_completed_at := completed_at a;
     task := embedTaskOn date d a |}.

Definition selectAssignmentsOf (userId : string) (date : IsoDate) (d : DB)
  : list WorkerAssignment :=
  map (toRow date d)
      (sortBy (λ a b, asg_id a - asg_id b)
              (List.filter (λ a, bool_decide (asg_user_id a = userId))
                           (task_assignments d))).

(** [loadAssignments(date)]; [user] is the id of the signed-in user that
    [supabase.auth.getUser()] answers, if any. *)
Definition loadAssignments (user : option string) (date : IsoDate)
    (st : State) : M State :=
  match user with
  | None => mret {| rows := []; toast := toast st |}
  | Some userId =>
      res ← query (selectAssignmentsOf userId date);
      match res with
      | Failure message => mret {| rows := rows st; toast := Some message |}
      | Data data => mret {| rows := data; toast := toast st |}
      end
  end.

End WorkerDashboard.

(** ** The second worker dashboard *)

Module WorkerDashboard2.
Import JSDate Repo.

Record WorkerTask := {
  assignment_id : Z; wt_task_id : Z; wt_task_date : IsoDate;
  wt_room_name : string; wt_cleaning_level : string;
  wt_is_harvest_shared : bool; status : Status }.

Record State := { tasks : list WorkerTask; message : option string }.

(** A row of the request of [loadTasks]: an assignment with its task, the
    task with its room name and level code, each [null] when missing. *)
Record EmbeddedTask := {
  et_id : Z; et_task_date : IsoDate; et_is_harvest_shared : bool;
  et_room : option string; et_level : option string }.
Record OwnRow := { or_id : Z; or_status : Status; or_tasks : option EmbeddedTask }.

Definition embedOwnTask (d : DB) (a : AssignmentRow) : option EmbeddedTask :=
  t ← List.find (λ t, bool_decide (task_id t = asg_task_id a)) (Repo.tasks d);
  Some {| et_id := task_id t; et_task_date := task_date t;
          et_is_harvest_shared := is_harvest_shift t;
          et_room := room_name <$>
            List.find (λ r, bool_decide (room_id r = task_room_id t)) (rooms d);
          et_level := level_name <$>
            List.find (λ l, bool_decide (level_id l = cleaning_level_id t))
                      (cleaning_levels d) |}.

Definition selectOwn (userId : string) (d : DB) : list OwnRow :=
  map (λ a, {| or_id := asg_id a; or_status := asg_status a;
               or_tasks := embedOwnTask d a |})
      (sortBy (λ a b, asg_id a - asg_id b)
              (List.filter (λ a, bool_decide (asg_user_id a = userId))
                           (task_assignments d))).

(** The object built for a row; reading [name] or [code] of a missing room
    or level throws. *)
Definition toWorkerTask (row : OwnRow) : option WorkerTask :=
  t ← or_tasks row;
  room ← et_room t;
  level ← et_level t;
  Some {| assignment_id := or_id row; wt_task_id := et_id t;
          wt_task_date := et_task_date t; wt_room_name := room;
          wt_cleaning_level := level;
          wt_is_harvest_shared := et_is_harvest_shared t;
          status := or_status row |}.

(** [loadTasks(forDate)] for the worker [userId]. *)
Definition loadTasks (userId : string) (forDate : IsoDate) (st : State)
  : M State :=
  res ← query (selectOwn userId);
  match res with
  | Failure _ =>
      mret {| tasks := tasks st; message := Some "Error loading your tasks" |}
  | Data data =>
      let filtered :=
        List.filter (λ row, bool_decide (et_task_date <$> or_tasks row
                                         = Some forDate)) data in
      match mapM toWorkerTask filtered with
      | Some mapped => mret {| tasks := mapped; message := None |}
      | None => mret {| tasks := tasks st; message := None |}
      end
  end.

(** [updateStatus(assignmentId, newStatus)], with [date] the date shown. *)
Definition updateStatus (userId : string) (date : IsoDate)
    (assignmentId : Z) (newStatus : Status) (st : State) : M State :=
  res ← mutate (updateAssignmentWhereId
                  {| set_status := Some newStatus;
                     set_started_at := None;
                     set_completed_at := None |} assignmentId);
  match res with
  | Failure _ =>
      mret {| tasks := tasks st; message := Some "Error updating status" |}
  | Data _ =>
      loadTasks userId date
        {| tasks := tasks st; message := Some "Status updated" |}
  end.

End WorkerDashboard2.

(** ** Insertion-ordered maps

    A JavaScript [Map], or an object used as a dictionary whose keys are
    not array indices: iteration follows first insertion; writing an
    existing key keeps its place. *)
Module JSMap.
Section Defs.
Context {K V : Type} `{EqDecision K}.

Fixpoint get (k : K) (m : list (K * V)) : option V :=
  match m with
  | [] => None
  | (k', v) :: m' => if decide (k = k') then Some v else get k m'
  end.

Fixpoint set (k : K) (v : V) (m : list (K * V)) : list (K * V) :=
  match m with
  | [] => [(k, v)]
  | (k', v') :: m' =>
      if decide (k = k') then (k, v) :: m' else (k', v') :: set k v m'
  end.

Definition values (m : list (K * V)) : list V := map snd m.
Definition keys (m : list (K * V)) : list K := map fst m.
End Defs.
End JSMap.

(** A plain object [{}] used as a dictionary differs from a [Map] in two
    ways.  It inherits the properties of [Object.prototype]: for these
    names [obj[name]] is a value (a function, or the prototype itself)
    although the object has no entry of its own. *)
Definition inheritedNames : list string :=
  ["constructor"; "__defineGetter__"; "__defineSetter__"; "hasOwnProperty";
   "__lookupGetter__"; "__lookupSetter__"; "isPrototypeOf";
   "propertyIsEnumerable"; "toString"; "valueOf"; "__proto__";
   "toLocaleString"].

Definition inherited (name : string) : bool :=
  bool_decide (name ∈ inheritedNames).

(** And [Object.entries] lists first the entries whose key is an array
    index (the decimal writing of a number up to 4294967294), by ascending
    index, then the others in the order of their creation. *)
Fixpoint digitsValue (acc : N) (s : string) : option N :=
  match s with
  | EmptyString => Some acc
  | String c s' =>
      let n := N_of_ascii c in
      if (48 <=? n)%N && (n <=? 57)%N
      then digitsValue (10 * acc + (n - 48))%N s'
      else None
  end.

Definition arrayIndex (s : string) : option N :=
  match s with
  | EmptyString => None
  | String c s' =>
      if bool_decide (c = "0"%char) && negb (bool_decide (s' = EmptyString))
      then None
      else n ← digitsValue 0 s;
           if (n <=? 4294967294)%N then Some n else None
  end.

Definition entries {V} (obj : list (string * V)) : list (string * V) :=
  let indexOf (e : string * V) := default 0%N (arrayIndex e.1) in
  (sortBy (λ a b, Z.of_N (indexOf a) - Z.of_N (indexOf b))
          (List.filter (λ e, bool_decide (is_Some (arrayIndex e.1))) obj)
   ++ List.filter (λ e, negb (bool_decide (is_Some (arrayIndex e.1)))) obj)%list.

(** [s.localeCompare(t)] is left abstract; the default comparison of
    [Array.prototype.sort()] orders strings by their code units. *)
Definition codeUnitCompare (a b : string) : Z :=
  match String.compare a b with Lt => -1 | Eq => 0 | Gt => 1 end.

(** [l.length === 0] *)
Definition isEmpty {A} (l : list A) : bool :=
  match l with [] => true | _ => false end.

(** [a || b] on numbers. *)
Definition orElse (a b : Z) : Z := if a =? 0 then b else a.

(** ** [src/pages/AdminDashboard.tsx] *)

Module AdminDashboard.
Import JSDate Repo.

Record TaskDisplay := {
  td_task_id : Z; td_room_id : Z; td_room_name : string;
  td_cleaning_level_id : Z; td_cleaning_level_name : string;
  td_is_harvest_shift : bool; assigned_to_names : list string }.

(** *** Days off *)

(** The loop of [loadDaysOff] over the rows of [worker_availability]. *)
Definition addDayOff (map : gmap string (gset Z)) (row : AvailabilityRow)
  : gmap string (gset Z) :=
  if negb (is_off row) then map
  else <[av_user_id row :=
           default ∅ (map !! av_user_id row) ∪ {[weekday row]}]> map.

Definition daysOffOfRows (rows : list AvailabilityRow) : gmap string (gset Z) :=
  foldl addDayOff ∅ rows.

(** [loadDaysOff]: [Data map] is [setDaysOffMap(map)], [Failure] the
    thrown error. *)
Definition loadDaysOff : M (Response (gmap string (gset Z))) :=
  res ← query worker_availability;
  match res with
  | Failure message => mret (Failure message)
  | Data rows => mret (Data (daysOffOfRows rows))
  end.

(** The checkbox of worker [userId] for weekday [idx]:
    [(daysOffMap[userId] ?? new Set()).has(idx)]. *)
Definition checked (daysOffMap : gmap string (gset Z)) (userId : string)
    (idx : Z) : bool :=
  bool_decide (idx ∈ default ∅ (daysOffMap !! userId)).

(** [toggleWorkerOffDay(userId, weekday, isOff)]: the new [daysOffMap]
    and the toast. *)
Definition toggleWorkerOffDay (userId : string) (wd : Z) (isOff : bool)
    (daysOffMap : gmap string (gset Z))
  : M (gmap string (gset Z) * string) :=
  res ← (if isOff
         then mutate (upsertAvailability
                        {| av_user_id := userId; weekday := wd; is_off := true |})
         else mutate (deleteAvailability userId wd));
  match res with
  | Failure message => mret (daysOffMap, message)
  | Data _ =>
      let copy := daysOffMap in
      let set := default ∅ (copy !! userId) in
      let copy :=
        <[userId := if isOff then set ∪ {[wd]} else set ∖ {[wd]}]> copy in
      mret (copy, "Worker days off updated")
  end.

(** *** Tasks of the selected day *)

Definition selectTasksOn (date : IsoDate) (d : DB) : list TaskRow :=
  sortBy (λ a b, task_room_id a - task_room_id b)
         (List.filter (λ t, bool_decide (task_date t = date)) (tasks d)).

Definition selectAssignmentsIn (taskIds : list Z) (d : DB)
  : list (Z * string) :=
  map (λ a, (asg_task_id a, asg_user_id a))
      (List.filter (λ a, bool_decide (asg_task_id a ∈ taskIds))
                   (task_assignments d)).

(** [profiles ... .in("user_id", userIds)] folded into [profileMap]. *)
Definition selectProfileNames (userIds : list string) (d : DB)
  : gmap string string :=
  foldl (λ m p, <[user_id p := default "Unknown" (full_name p)]> m) ∅
        (List.filter (λ p, bool_decide (user_id p ∈ userIds)) (profiles d)).

(** The row shown for a task, from the rooms and levels the page holds. *)
Definition toDisplay (rooms : list Room) (levels : list CleaningLevel)
    (profileMap : gmap string string) (assignments : list (Z * string))
    (t : TaskRow) : TaskDisplay :=
  let roomMap : gmap Z Room := foldl (λ m r, <[room_id r := r]> m) ∅ rooms in
  let levelMap : gmap Z CleaningLevel :=
    foldl (λ m l, <[level_id l := l]> m) ∅ levels in
  let byTask :=
    map (λ a, default "Unknown" (profileMap !! a.2))
        (List.filter (λ a, bool_decide (a.1 = task_id t)) assignments) in
  {| td_task_id := task_id t;
     td_room_id := task_room_id t;
     td_room_name :=
       default ("Room " +:+ pretty (task_room_id t))
               (room_name <$> roomMap !! task_room_id t);
     td_cleaning_level_id := cleaning_level_id t;
     td_cleaning_level_name :=
       default "L1" (level_name <$> levelMap !! cleaning_level_id t);
     td_is_harvest_shift := is_harvest_shift t;
     assigned_to_names := sortBy codeUnitCompare byTask |}.

(** [loadTasksForDate(date)]: [Data display] is [setTasks(display)],
    [Failure] the thrown error. *)
Definition loadTasksForDate (rooms : list Room) (levels : list CleaningLevel)
    (date : IsoDate) : M (Response (list TaskDisplay)) :=
  tasksRes ← query (selectTasksOn date);
  match tasksRes with
  | Failure message => mret (Failure message)
  | Data baseTasks =>
      let taskIds := map task_id baseTasks in
      assRes ← (if isEmpty taskIds then mret (Data [])
                else query (selectAssignmentsIn taskIds));
      match assRes with
      | Failure message => mret (Failure message)
      | Data assignments =>
          let userIds := remove_dups (map snd assignments) in
          profRes ← (if isEmpty userIds then mret (Data ∅)
                     else query (selectProfileNames userIds));
          match profRes with
          | Failure message => mret (Failure message)
          | Data profileMap =>
              mret (Data (map (toDisplay rooms levels profileMap assignments)
                              baseTasks))
          end
      end
  end.

(** [handleGenerateAssignments]: the new [tasks] and the toast;
    [generate_daily_assignments] is the stored procedure. *)
Definition handleGenerateAssignments
    (generate_daily_assignments : IsoDate → DB → (string + unit) * DB)
    (rooms : list Room) (levels : list CleaningLevel)
    (selectedDate : IsoDate) (tasks : list TaskDisplay)
  : M (list TaskDisplay * string) :=
  res ← rpc (generate_daily_assignments selectedDate);
  match res with
  | Failure message => mret (tasks, message)
  | Data _ =>
      loaded ← loadTasksForDate rooms levels selectedDate;
      match loaded with
      | Failure message => mret (tasks, message)
      | Data display => mret (display, "Assignments generated")
      end
  end.

(** *** Summary of the selected day *)

Record SummaryEntry := { se_count : nat; se_rooms : list string }.
Record SummaryRow := { sr_name : string; sr_count : nat; sr_rooms : list string }.

(** One turn of the inner loop of [workerSummary] on the plain object
    [map].  For a name every object inherits, [map[n]] is not [undefined]:
    no entry is made, a count is stored on the inherited value, which has
    no [rooms], and [map[n].rooms.push] throws TypeError ([None]). *)
Definition countName (room : string) (map : list (string * SummaryEntry))
    (n : string) : option (list (string * SummaryEntry)) :=
  match JSMap.get n map with
  | Some e =>
      Some (JSMap.set n {| se_count := se_count e + 1;
                           se_rooms := se_rooms e ++ [room] |} map)
  | None =>
      if inherited n then None
      else Some (JSMap.set n {| se_count := 0 + 1;
                                se_rooms := [] ++ [room] |} map)
  end.

Section Locale.
Variable localeCompare : string → string → Z.

(** [workerSummary]: the rows, or [None] when computing them throws. *)
Definition workerSummary (tasks : list TaskDisplay)
  : option (list SummaryRow) :=
  map ← foldl (λ acc t,
                 foldl (λ acc n, acc ≫= λ map, countName (td_room_name t) map n)
                       acc (assigned_to_names t))
              (Some []) tasks;
  Some (sortBy (λ a b, orElse (Z.of_nat (sr_count b) - Z.of_nat (sr_count a))
                              (localeCompare (sr_name a) (sr_name b)))
               (List.map (λ '(name, v), {| sr_name := name;
                                           sr_count := se_count v;
                                           sr_rooms := se_rooms v |})
                         (entries map))).

(** *** Weekly rotation *)

(** A row of the weekly request: an assignment with its task embedded;
    the task is [null] when it falls outside the requested dates. *)
Record WeekTask := { wt_task_date : IsoDate; wt_room : option string }.
Record WeekRow := { wr_id : Z; wr_user_id : string; wr_task : option WeekTask }.

Definition embedTask (lo hi : IsoDate) (d : DB) (a : AssignmentRow)
  : option WeekTask :=
  t ← List.find (λ t, bool_decide (task_id t = asg_task_id a)) (tasks d);
  if (lo <=? task_date t) && (task_date t <=? hi)
  then Some {| wt_task_date := task_date t;
               wt_room := room_name <$>
                 List.find (λ r, bool_decide (room_id r = task_room_id t))
                           (rooms d) |}
  else None.

Definition selectWeek (lo hi : IsoDate) (d : DB) : list WeekRow :=
  map (λ a, {| wr_id := asg_id a; wr_user_id := asg_user_id a;
               wr_task := embedTask lo hi d a |}) (task_assignments d).

Record RotationRow := {
  rr_date : IsoDate; rr_worker : string; rr_rooms : list string;
  rr_total : nat }.

(** One turn of the aggregation loop.  The key of [bucket] is
    [`${date}__${worker}`]; dates being ten characters wide, two keys
    are equal exactly when date and worker are.  The keys of [bucket]
    start with a date and those of [profileMap] are user ids, the UUIDs of
    the auth service: none is a name that objects inherit, and the two
    plain objects behave as maps. *)
Definition addToBucket (profileMap : gmap string string)
    (bucket : list (IsoDate * string * RotationRow)) (row : WeekRow)
  : list (IsoDate * string * RotationRow) :=
  match wr_task row with
  | None => bucket
  | Some t =>
      let date := wt_task_date t in
      let roomName := default "Unknown room" (wt_room t) in
      let worker := default "Unknown" (profileMap !! wr_user_id row) in
      let key := (date, worker) in
      let b := default {| rr_date := date; rr_worker := worker;
                          rr_rooms := []; rr_total := 0 |}
                       (JSMap.get key bucket) in
      JSMap.set key {| rr_date := rr_date b; rr_worker := rr_worker b;
                       rr_rooms := rr_rooms b ++ [roomName];
                       rr_total := rr_total b + 1 |} bucket
  end.

Definition rotationOut (profileMap : gmap string string)
    (data : list WeekRow) : list RotationRow :=
  let bucket := foldl (addToBucket profileMap) [] data in
  sortBy (λ a b, orElse (rr_date a - rr_date b)
                        (localeCompare (rr_worker a) (rr_worker b)))
         (map (λ r, {| rr_date := rr_date r; rr_worker := rr_worker r;
                       rr_rooms := sortBy codeUnitCompare (rr_rooms r);
                       rr_total := rr_total r |})
              (JSMap.values bucket)).

Variable tz : JSDate.Zone.

(** The dates [loadWeeklyRotation] asks for. *)
Definition rotationRange (rotationWeekStart : IsoDate) : IsoDate * IsoDate :=
  let start := parseIso rotationWeekStart in
  let end_ := addDays tz start 6 in
  (toISODate tz start, toISODate tz end_).

(** [loadWeeklyRotation] on a date: the new [rotationRows] and the toast.
    (The effect calls it on a date only: it returns first on the empty
    string of a cleared input.) *)
Definition loadWeeklyRotation (rotationWeekStart : IsoDate)
    (rotationRows : list RotationRow)
  : M (list RotationRow * option string) :=
  let '(startStr, endStr) := rotationRange rotationWeekStart in
  assRes ← query (selectWeek startStr endStr);
  match assRes with
  | Failure message => mret (rotationRows, Some message)
  | Data data =>
      let userIds := remove_dups (map wr_user_id data) in
      if isEmpty userIds
      then mret (rotationOut ∅ data, None)
      else
        pr ← query (selectProfileNames userIds);
        match pr with
        | Failure message => mret (rotationRows, Some message)
        | Data profileMap => mret (rotationOut profileMap data, None)
        end
  end.
End Locale.

(** *** Basics and levels *)

(** [loadBasics]: the three requests are sent together; the first error, in
    the order rooms, levels, workers, is thrown.  [Data] carries what
    [setRooms], [setLevels] and [setWorkers] receive. *)
Definition selectActiveRooms (d : DB) : list Room :=
  sortBy (λ a b, room_id a - room_id b) (List.filter room_active (rooms d)).

Definition selectLevels (d : DB) : list CleaningLevel :=
  sortBy (λ a b, level_id a - level_id b) (cleaning_levels d).

Definition loadBasics (collate : option string → option string → Z)
  : M (Response (list Room * list CleaningLevel * list Profile)) :=
  roomsRes ← query selectActiveRooms;
  levelsRes ← query selectLevels;
  workersRes ← query (λ d, sortBy (λ a b, collate (full_name a) (full_name b))
                             (List.filter (λ p, bool_decide (role p = worker))
                                          (profiles d)));
  match roomsRes, levelsRes, workersRes with
  | Failure message, _, _ => mret (Failure message)
  | _, Failure message, _ => mret (Failure message)
  | _, _, Failure message => mret (Failure message)
  | Data rs, Data ls, Data ws => mret (Data (rs, ls, ws))
  end.

(** [from("tasks").update({ cleaning_level_id }).eq("id", taskId)] *)
Definition updateTaskLevelWhereId (newLevelId : Z) (taskId : Z) (d : DB) : DB :=
  {| rooms := rooms d; cleaning_levels := cleaning_levels d;
     profiles := profiles d; worker_availability := worker_availability d;
     tasks := map (λ t, if decide (task_id t = taskId)
                        then {| task_id := task_id t; task_date := task_date t;
                                task_room_id := task_room_id t;
                                cleaning_level_id := newLevelId;
                                is_harvest_shift := is_harvest_shift t |}
                        else t) (tasks d);
     task_assignments := task_assignments d |}.

(** The object the [setTasks] callback of [updateTaskLevel] builds for the
    matching row. *)
Definition relevel (levels : list CleaningLevel) (newLevelId : Z)
    (t : TaskDisplay) : TaskDisplay :=
  {| td_task_id := td_task_id t; td_room_id := td_room_id t;
     td_room_name := td_room_name t;
     td_cleaning_level_id := newLevelId;
     td_cleaning_level_name :=
       default (td_cleaning_level_name t)
         (level_name <$>
            List.find (λ l, bool_decide (level_id l = newLevelId)) levels);
     td_is_harvest_shift := td_is_harvest_shift t;
     assigned_to_names := assigned_to_names t |}.

(** [updateTaskLevel(taskId, newLevelId)]: the new [tasks] and the toast. *)
Definition updateTaskLevel (levels : list CleaningLevel) (taskId newLevelId : Z)
    (tasks : list TaskDisplay) : M (list TaskDisplay * string) :=
  res ← mutate (updateTaskLevelWhereId newLevelId taskId);
  match res with
  | Failure message => mret (tasks, message)
  | Data _ =>
      mret (map (λ t, if decide (td_task_id t = taskId)
                      then relevel levels newLevelId t else t) tasks,
            "Level updated")
  end.

End AdminDashboard.

(** [s || d] on a nullable string: [null] and the empty string give [d]. *)
Definition strOr (s : option string) (d : string) : string :=
  match s with
  | Some x => if decide (x = "") then d else x
  | None => d
  end.

(** ** The second admin dashboard *)

Module AdminDashboard2.
Import JSDate Repo.

Record AssignmentSummary := {
  as_assignment_id : Z; as_user_id : string; as_user_name : string;
  as_status : Status }.

Record TaskRow := {
  tr_id : Z; tr_task_date : IsoDate; tr_room_name : string;
  tr_cleaning_level : string; tr_cleaning_level_id : Z;
  tr_is_harvest_shared : bool; assignees : list AssignmentSummary }.

Record DayAvailability := { da_weekday : Z; da_is_off : bool }.

Record WorkerRow := {
  wk_user_id : string; wk_full_name : option string;
  availability : list DayAvailability }.

Record WorkerSummaryRow := {
  ws_user_id : string; ws_full_name : string; task_count : nat;
  ws_rooms : list string }.

Record DayCell := { count : nat; dc_rooms : list string }.

Record WeeklySummaryRow := {
  wsr_user_id : string; wsr_full_name : string; total : nat;
  perDay : gmap IsoDate DayCell }.

(** [rooms.includes(name)] *)
Definition includes (rooms : list string) (name : string) : bool :=
  bool_decide (name ∈ rooms).

(** *** Daily summary *)

(** "start with all workers (so off workers still appear)" *)
Definition startWorkerSummary (workers : list WorkerRow)
  : list (string * WorkerSummaryRow) :=
  foldl (λ m w, JSMap.set (wk_user_id w)
                  {| ws_user_id := wk_user_id w;
                     ws_full_name := strOr (wk_full_name w) "Worker";
                     task_count := 0; ws_rooms := [] |} m) [] workers.

Definition addAssignee (room_name : string)
    (m : list (string * WorkerSummaryRow)) (a : AssignmentSummary)
  : list (string * WorkerSummaryRow) :=
  match JSMap.get (as_user_id a) m with
  | None =>
      JSMap.set (as_user_id a)
        {| ws_user_id := as_user_id a; ws_full_name := as_user_name a;
           task_count := 1; ws_rooms := [room_name] |} m
  | Some existing =>
      JSMap.set (as_user_id a)
        {| ws_user_id := ws_user_id existing;
           ws_full_name := ws_full_name existing;
           task_count := task_count existing + 1;
           ws_rooms := if includes (ws_rooms existing) room_name
                       then ws_rooms existing
                       else ws_rooms existing ++ [room_name] |} m
  end.

(** *** Weekly summary *)

Record WeekRow := {
  wr_id : Z; wr_user_id : string;
  wr_task_date : option IsoDate; wr_room_name : option string }.

(** The request of [loadWeeklySummary], ordered by assignment id.  An
    assignment whose task lies outside the dates comes with [tasks: null]. *)
Definition embedTask (lo hi : IsoDate) (d : DB) (a : AssignmentRow)
  : option Repo.TaskRow :=
  t ← List.find (λ t, bool_decide (task_id t = asg_task_id a)) (tasks d);
  if (lo <=? task_date t) && (task_date t <=? hi) then Some t else None.

Definition selectWeek (lo hi : IsoDate) (d : DB) : list WeekRow :=
  map (λ a, let t := embedTask lo hi d a in
            {| wr_id := asg_id a; wr_user_id := asg_user_id a;
               wr_task_date := task_date <$> t;
               wr_room_name :=
                 t ≫= λ t, room_name <$>
                   List.find (λ r, bool_decide (room_id r = task_room_id t))
                             (rooms d) |})
      (sortBy (λ a b, asg_id a - asg_id b) (task_assignments d)).

(** "start with all workers so zero-load people appear" *)
Definition startWeeklySummary (workers : list WorkerRow)
  : list (string * WeeklySummaryRow) :=
  foldl (λ m w, JSMap.set (wk_user_id w)
                  {| wsr_user_id := wk_user_id w;
                     wsr_full_name := strOr (wk_full_name w) "Worker";
                     total := 0; perDay := ∅ |} m) [] workers.

Definition created (userId : string) : WeeklySummaryRow :=
  {| wsr_user_id := userId; wsr_full_name := userId; total := 0; perDay := ∅ |}.

(** The cell of one day after one more assignment in room [roomName]. *)
Definition bumpCell (roomName : option string) (c : DayCell) : DayCell :=
  {| count := count c + 1;
     dc_rooms :=
       match roomName with
       | Some n => if negb (bool_decide (n = "")) && negb (includes (dc_rooms c) n)
                   then dc_rooms c ++ [n] else dc_rooms c
       | None => dc_rooms c
       end |}.

Definition bumpSummary (taskDate : IsoDate) (roomName : option string)
    (s : WeeklySummaryRow) : WeeklySummaryRow :=
  {| wsr_user_id := wsr_user_id s; wsr_full_name := wsr_full_name s;
     total := total s + 1;
     perDay :=
       <[taskDate := bumpCell roomName
            (default {| count := 0; dc_rooms := [] |} (perDay s !! taskDate))]>
         (perDay s) |}.

(** One turn of the loop over the rows: the summary of the row's user is
    fetched, or created and put at the end of the map; it is then updated
    where it stands. *)
Definition addWeekRow (m : list (string * WeeklySummaryRow)) (row : WeekRow)
  : list (string * WeeklySummaryRow) :=
  match wr_task_date row with
  | None => m
  | Some taskDate =>
      let userId := wr_user_id row in
      let summary := default (created userId) (JSMap.get userId m) in
      JSMap.set userId (bumpSummary taskDate (wr_room_name row) summary) m
  end.

Section Locale.
Variable localeCompare : string → string → Z.

(** [buildWorkerSummary(taskRows)]: the value given to [setWorkerSummary]. *)
Definition buildWorkerSummary (workers : list WorkerRow)
    (taskRows : list TaskRow) : list WorkerSummaryRow :=
  let m := startWorkerSummary workers in
  let m := foldl (λ m task, foldl (addAssignee (tr_room_name task)) m
                                  (assignees task)) m taskRows in
  sortBy (λ a b, localeCompare (ws_full_name a) (ws_full_name b))
         (JSMap.values m).

(** The reduction of [loadWeeklySummary] over the rows it was sent. *)
Definition weeklySummaryOf (workers : list WorkerRow) (data : list WeekRow)
  : list WeeklySummaryRow :=
  let m := foldl addWeekRow (startWeeklySummary workers) data in
  sortBy (λ a b, localeCompare (wsr_full_name a) (wsr_full_name b))
         (JSMap.values m).

Variable tz : JSDate.Zone.

(** [loadWeeklySummary(anchorDate)]: the value given to
    [setWeeklySummary], and whether an error was logged. *)
Definition loadWeeklySummary (workers : list WorkerRow) (anchorDate : IsoDate)
  : M (list WeeklySummaryRow * bool) :=
  if isEmpty workers then mret ([], false)
  else
    let weekStart := getWeekStart tz anchorDate in
    let weekEnd := getWeekEnd tz weekStart in
    res ← query (selectWeek weekStart weekEnd);
    match res with
    | Failure _ => mret ([], true)
    | Data data => mret (weeklySummaryOf workers data, false)
    end.

(** [loadWeeklySummary] on the value of the date input.  On the empty
    string of a cleared input [getWeekStart] throws before any request is
    sent, unless no worker is loaded. *)
Definition loadWeeklySummaryOf (workers : list WorkerRow)
    (anchorDate : DateInput)
  : M (Thrown (list WeeklySummaryRow * bool)) :=
  if isEmpty workers then mret (Returned ([], false))
  else
    match getWeekStartOf tz anchorDate, anchorDate with
    | Returned _, OnDate s =>
        r ← loadWeeklySummary workers s; mret (Returned r)
    | _, _ => mret RangeError
    end.

(** *** Tasks of the day *)

Record PageState := {
  ps_tasks : list TaskRow;
  ps_workerSummary : list WorkerSummaryRow;
  ps_weeklySummary : list WeeklySummaryRow;
  ps_message : option string }.

(** A row of the first request of [loadTasks]: a task with its room name
    and level code, each [null] when missing. *)
Record DayTask := {
  dt_id : Z; dt_task_date : IsoDate; dt_cleaning_level_id : Z;
  dt_is_harvest_shared : bool; dt_room : option string;
  dt_level : option string }.

Definition selectDayTasks (forDate : IsoDate) (d : DB) : list DayTask :=
  map (λ t, {| dt_id := task_id t; dt_task_date := task_date t;
               dt_cleaning_level_id := cleaning_level_id t;
               dt_is_harvest_shared := is_harvest_shift t;
               dt_room := room_name <$>
                 List.find (λ r, bool_decide (room_id r = task_room_id t))
                           (rooms d);
               dt_level := level_name <$>
                 List.find (λ l, bool_decide (level_id l = cleaning_level_id t))
                           (cleaning_levels d) |})
      (sortBy (λ a b, task_id a - task_id b)
              (List.filter (λ t, bool_decide (task_date t = forDate)) (tasks d))).

Definition selectDayAssignments (taskIds : list Z) (d : DB)
  : list AssignmentRow :=
  sortBy (λ a b, asg_id a - asg_id b)
         (List.filter (λ a, bool_decide (asg_task_id a ∈ taskIds))
                      (task_assignments d)).

(** The task row built for a row of the request; reading [name] or [code]
    of a missing room or level throws. *)
Definition toBaseTask (row : DayTask) : option TaskRow :=
  room ← dt_room row;
  level ← dt_level row;
  Some {| tr_id := dt_id row; tr_task_date := dt_task_date row;
          tr_room_name := room; tr_cleaning_level := level;
          tr_cleaning_level_id := dt_cleaning_level_id row;
          tr_is_harvest_shared := dt_is_harvest_shared row;
          assignees := [] |}.

Definition withAssignees (workers : list WorkerRow)
    (assigns : list AssignmentRow) (t : TaskRow) : TaskRow :=
  let nameByUserId : gmap string string :=
    foldl (λ m w, <[wk_user_id w := strOr (wk_full_name w) "Worker"]> m)
          ∅ workers in
  {| tr_id := tr_id t; tr_task_date := tr_task_date t;
     tr_room_name := tr_room_name t;
     tr_cleaning_level := tr_cleaning_level t;
     tr_cleaning_level_id := tr_cleaning_level_id t;
     tr_is_harvest_shared := tr_is_harvest_shared t;
     assignees :=
       map (λ a, {| as_assignment_id := asg_id a;
                    as_user_id := asg_user_id a;
                    as_user_name :=
                      strOr (nameByUserId !! asg_user_id a) (asg_user_id a);
                    as_status := asg_status a |})
           (List.filter (λ a, bool_decide (asg_task_id a = tr_id t)) assigns) |}.

(** [loadTasks(forDate)]: the state of the page after it, and whether it
    threw before setting the tasks. *)
Definition loadTasks (workers : list WorkerRow) (forDate : IsoDate)
    (st : PageState) : M (PageState * bool) :=
  let shown tasks :=
    {| ps_tasks := tasks;
       ps_workerSummary := buildWorkerSummary workers tasks;
       ps_weeklySummary := ps_weeklySummary st; ps_message := None |} in
  res ← query (selectDayTasks forDate);
  match res with
  | Failure _ =>
      mret ({| ps_tasks := []; ps_workerSummary := [];
               ps_weeklySummary := ps_weeklySummary st;
               ps_message := Some "Error loading tasks" |}, false)
  | Data data =>
      match mapM toBaseTask data with
      | None =>
          mret ({| ps_tasks := ps_tasks st;
                   ps_workerSummary := ps_workerSummary st;
                   ps_weeklySummary := ps_weeklySummary st;
                   ps_message := None |}, true)
      | Some baseTasks =>
          let taskIds := map tr_id baseTasks in
          if isEmpty taskIds then mret (shown baseTasks, false)
          else
            assigns ← query (selectDayAssignments taskIds);
            match assigns with
            | Failure _ => mret (shown baseTasks, false)
            | Data assigns =>
                mret (shown (map (withAssignees workers assigns) baseTasks),
                      false)
            end
      end
  end.

(** [handleGenerate]: the state of the page after it;
    [generate_daily_assignments] is the stored procedure. *)
Definition handleGenerate
    (generate_daily_assignments : IsoDate → DB → (string + unit) * DB)
    (workers : list WorkerRow) (date : IsoDate) (st : PageState)
  : M PageState :=
  res ← rpc (generate_daily_assignments date);
  match res with
  | Failure _ =>
      mret {| ps_tasks := ps_tasks st;
              ps_workerSummary := ps_workerSummary st;
              ps_weeklySummary := ps_weeklySummary st;
              ps_message := Some "Error generating assignments" |}
  | Data _ =>
      '(st1, threw) ← loadTasks workers date
                        {| ps_tasks := ps_tasks st;
                           ps_workerSummary := ps_workerSummary st;
                           ps_weeklySummary := ps_weeklySummary st;
                           ps_message := Some "Assignments generated!" |};
      if (threw : bool) then mret st1
      else
        '(weekly, _) ← loadWeeklySummary workers date;
        mret {| ps_tasks := ps_tasks st1;
                ps_workerSummary := ps_workerSummary st1;
                ps_weeklySummary := weekly;
                ps_message := ps_message st1 |}
  end.

(** *** Days off *)

Variable collate : option string → option string → Z.

(** The request of [loadWorkersAvailability]: active workers ordered by
    name, each with its [worker_availability] rows embedded. *)
Definition selectWorkers (d : DB) : list (Profile * list AvailabilityRow) :=
  map (λ p, (p, List.filter (λ r, bool_decide (av_user_id r = user_id p))
                            (worker_availability d)))
      (sortBy (λ a b, collate (full_name a) (full_name b))
              (List.filter (λ p, bool_decide (role p = worker) && active p)
                           (profiles d))).

Definition weekdays : list Z := [0; 1; 2; 3; 4; 5; 6].

Definition fullWeek (existing : list DayAvailability) : list DayAvailability :=
  map (λ idx, default {| da_weekday := idx; da_is_off := false |}
                (List.find (λ d, bool_decide (da_weekday d = idx)) existing))
      weekdays.

Definition toWorkerRow (row : Profile * list AvailabilityRow) : WorkerRow :=
  let existing :=
    map (λ d, {| da_weekday := weekday d; da_is_off := is_off d |}) row.2 in
  {| wk_user_id := user_id row.1; wk_full_name := full_name row.1;
     availability := fullWeek existing |}.

(** [loadWorkersAvailability]: [Data mapped] is [setWorkers(mapped)]. *)
Definition loadWorkersAvailability : M (Response (list WorkerRow)) :=
  res ← query selectWorkers;
  match res with
  | Failure _ => mret (Failure "Error loading worker availability")
  | Data data => mret (Data (map toWorkerRow data))
  end.

(** [toggleDayOff(userId, weekday, newIsOff)]: the new [workers] and the
    message. *)
Definition toggleDayOff (userId : string) (wd : Z) (newIsOff : bool)
    (workers : list WorkerRow) : M (list WorkerRow * string) :=
  res ← mutate (upsertAvailability
                  {| av_user_id := userId; weekday := wd; is_off := newIsOff |});
  match res with
  | Failure _ => mret (workers, "Error saving days off")
  | Data _ =>
      mret (map (λ w, if decide (wk_user_id w = userId)
                      then {| wk_user_id := wk_user_id w;
                              wk_full_name := wk_full_name w;
                              availability :=
                                map (λ d, if decide (da_weekday d = wd)
                                          then {| da_weekday := da_weekday d;
                                                  da_is_off := newIsOff |}
                                          else d) (availability w) |}
                      else w) workers,
            "Worker days off updated")
  end.

(** The checkbox of a worker row for weekday [idx]. *)
Definition isOffDay (w : WorkerRow) (idx : Z) : bool :=
  default false
    (da_is_off <$> List.find (λ d, bool_decide (da_weekday d = idx))
                             (availability w)).

End Locale.

(** *** Cleaning levels *)

(** [loadCleaningLevels]: [Data] is [setCleaningLevels(data)], [Failure]
    the message shown.  The levels come ordered by code. *)
Definition loadCleaningLevels : M (Response (list CleaningLevel)) :=
  res ← query (λ d, sortBy (λ a b, codeUnitCompare (level_name a) (level_name b))
                           (cleaning_levels d));
  match res with
  | Failure _ => mret (Failure "Error loading cleaning levels")
  | Data data => mret (Data data)
  end.

(** [updateTaskLevel(taskId, newLevelCode)]: the new [tasks] and the
    message it sets, if any.  Without a level of that code among the loaded
    ones it returns at once. *)
Definition updateTaskLevel (cleaningLevels : list CleaningLevel)
    (taskId : Z) (newLevelCode : string) (tasks : list TaskRow)
  : M (list TaskRow * option string) :=
  match List.find (λ l, bool_decide (level_name l = newLevelCode))
                  cleaningLevels with
  | None => mret (tasks, None)
  | Some level =>
      res ← mutate (AdminDashboard.updateTaskLevelWhereId (level_id level) taskId);
      match res with
      | Failure _ => mret (tasks, Some "Error updating cleaning level")
      | Data _ =>
          mret (map (λ t, if decide (tr_id t = taskId)
                          then {| tr_id := tr_id t;
                                  tr_task_date := tr_task_date t;
                                  tr_room_name := tr_room_name t;
                                  tr_cleaning_level := newLevelCode;
                                  tr_cleaning_level_id := level_id level;
                                  tr_is_harvest_shared := tr_is_harvest_shared t;
                                  assignees := assignees t |}
                          else t) tasks,
                Some "Cleaning level updated")
      end
  end.

(** *** The first load *)

(** The effect run once when the page is mounted: [init], for the [date] of
    the first render.  The four functions it awaits are those of that
    render, in which [workers] is still the initial empty array, whatever
    [loadWorkersAvailability] sets meanwhile.  The result is the state of
    the page, the workers and the levels after it; a row that throws in
    [loadTasks] ends [init] there. *)
Definition init (localeCompare : string → string → Z) (tz : Z)
    (collate : option string → option string → Z) (date : IsoDate)
  : M (PageState * list WorkerRow * list CleaningLevel) :=
  levelsRes ← loadCleaningLevels;
  workersRes ← loadWorkersAvailability collate;
  let cleaningLevels := match levelsRes with Data l => l | Failure _ => [] end in
  let loaded := match workersRes with Data l => l | Failure _ => [] end in
  let st0 :=
    {| ps_tasks := []; ps_workerSummary := []; ps_weeklySummary := [];
       ps_message :=
         match workersRes, levelsRes with
         | Failure message, _ => Some message
         | Data _, Failure message => Some message
         | Data _, Data _ => None
         end |} in
  '(st1, threw) ← loadTasks localeCompare [] date st0;
  if (threw : bool) then mret (st1, loaded, cleaningLevels)
  else
    '(weekly, _) ← loadWeeklySummary localeCompare tz [] date;
    mret ({| ps_tasks := ps_tasks st1;
             ps_workerSummary := ps_workerSummary st1;
             ps_weeklySummary := weekly;
             ps_message := ps_message st1 |}, loaded, cleaningLevels).

End AdminDashboard2.

(** ** The routes of the application *)

Module App.
Import Repo.

Inductive Page := LoginPage | AdminDashboard | WorkerDashboard.

(** The four routes: ["/login"], ["/admin"], ["/worker"] and ["*"]. *)
Inductive Route := RLogin | RAdmin | RWorker | RStar.

(** What a route shows: a page, or [<Navigate to=... replace />]. *)
Inductive Element := Render (page : Page) | Navigate (to : string).

(** The route a [Navigate] target lands on. *)
Definition routeOf (to : string) : Route :=
  if decide (to = "/login") then RLogin
  else if decide (to = "/admin") then RAdmin
  else if decide (to = "/worker") then RWorker
  else RStar.

Definition home (p : Profile) : string :=
  match role p with admin => "/admin" | worker => "/worker" end.

(** The [element] of each route; [isAuthed] is [!!sessionUserId]. *)
Definition element (r : Route) (isAuthed : bool) (profile : option Profile)
  : Element :=
  match r with
  | RLogin =>
      match profile with
      | Some p => if isAuthed then Navigate (home p) else Render LoginPage
      | None => Render LoginPage
      end
  | RAdmin =>
      match profile with
      | Some p => if isAuthed && bool_decide (role p = admin)
                  then Render AdminDashboard else Navigate "/login"
      | None => Navigate "/login"
      end
  | RWorker =>
      match profile with
      | Some p => if isAuthed && bool_decide (role p = worker)
                  then Render WorkerDashboard else Navigate "/login"
      | None => Navigate "/login"
      end
  | RStar =>
      match profile with
      | Some p => if isAuthed then Navigate (home p) else Navigate "/login"
      | None => Navigate "/login"
      end
  end.

(** Following the redirects, at most [fuel] of them. *)
Fixpoint settle (fuel : nat) (r : Route) (isAuthed : bool)
    (profile : option Profile) : option Page :=
  match element r isAuthed profile with
  | Render page => Some page
  | Navigate to =>
      match fuel with
      | O => None
      | S fuel' => settle fuel' (routeOf to) isAuthed profile
      end
  end.

End App.

(** ** The assignment generator

    Both dashboards generate a day's work through
    [supabase.rpc("generate_daily_assignments", { p_date })]; the stored
    procedure itself is not part of the TypeScript sources. *)

Module Generator.
Import JSDate Repo.

(** Modelled from the spec: the error kinds of section 7 (the stored
    procedure that raises them is missing from the sources). *)
Inductive Error :=
| UnknownWorker | UnknownRoom | NoEligibleWorkers | GenerationFailed
| IllegalTransition | InvalidRange | RepositoryUnavailable.

(** Modelled from the spec: what can go wrong with a write to the
    repository (sections 5 and 7): a storage failure or a timeout. *)
Inductive Fault := WriteError | Timeout.

(** Modelled from the spec: a write error is reported as
    [GenerationFailed], a timeout as [RepositoryUnavailable]. *)
Definition errorOf (f : Fault) : Error :=
  match f with WriteError => GenerationFailed | Timeout => RepositoryUnavailable end.

(** Modelled from the spec: [GenerationResult] of section 4.2. *)
Record GenerationResult := { tasksCreated : nat; assignmentsCreated : nat }.

(** Modelled from the spec: the Availability Resolver of section 4.1 (the
    resolver used by the stored procedure is missing from the sources).  The
    row for (worker, weekday) is looked up; the answer is [!isOff], and
    [true] when there is no row. *)
Definition offRule (rules : list AvailabilityRow) (workerId : string) (wd : Z)
  : bool :=
  default false
    (is_off <$> List.find (λ r, bool_decide (av_user_id r = workerId)
                                && bool_decide (weekday r = wd)) rules).

(** Modelled from the spec: [isAvailable(workerId, date)] of section 4.1,
    missing from the sources; an unknown worker signals [UnknownWorker]. *)
Definition isAvailable (d : DB) (workerId : string) (date : IsoDate)
  : Error + bool :=
  if existsb (λ p, bool_decide (user_id p = workerId)) (profiles d)
  then inr (negb (offRule (worker_availability d) workerId (weekdayOfDay date)))
  else inl UnknownWorker.

(** Modelled from the spec: the tables with the rows [createTask] and
    [createAssignment] of section 6 have added. *)
Definition withTasks (ts : list Repo.TaskRow) (asgs : list AssignmentRow)
    (d : DB) : DB :=
  {| rooms := rooms d; cleaning_levels := cleaning_levels d;
     profiles := profiles d; worker_availability := worker_availability d;
     tasks := ts; task_assignments := asgs |}.

(** Modelled from the spec: a room holds a Task for [date] (section 3: at
    most one Task per (roomId, taskDate)). *)
Definition holdsTask (d : DB) (date : IsoDate) (r : Room) : bool :=
  existsb (λ t, bool_decide (task_room_id t = room_id r)
                && bool_decide (task_date t = date)) (tasks d).

(** Modelled from the spec: step 1 of section 4.2, the active rooms not yet
    holding a Task for [date], by room identity ascending. *)
Definition pendingRooms (d : DB) (date : IsoDate) : list Room :=
  sortBy (λ a b, room_id a - room_id b)
         (List.filter (λ r, room_active r && negb (holdsTask d date r)) (rooms d)).

(** Modelled from the spec: the active workers (admins are never
    scheduled). *)
Definition activeWorkers (d : DB) : list Profile :=
  List.filter (λ p, active p && bool_decide (role p = worker)) (profiles d).

(** Modelled from the spec: step 2 of section 4.2, the eligible workers. *)
Definition eligibleWorkers (d : DB) (date : IsoDate) : list Profile :=
  List.filter (λ p, negb (offRule (worker_availability d) (user_id p)
                                  (weekdayOfDay date)))
              (activeWorkers d).

(** Modelled from the spec: the Monday of the ISO week containing [date]. *)
Definition isoWeekStart (date : IsoDate) : IsoDate :=
  date - (weekdayOfDay date + 6) mod 7.

(** Modelled from the spec: step 3 of section 4.2, the number of existing
    Assignments of a worker in the Monday-Sunday span containing [date]. *)
Definition weeklyLoad (d : DB) (date : IsoDate) (workerId : string) : nat :=
  let lo := isoWeekStart date in
  length (List.filter
    (λ a, bool_decide (asg_user_id a = workerId)
          && existsb (λ t, bool_decide (task_id t = asg_task_id a)
                           && (lo <=? task_date t) && (task_date t <=? lo + 6))
                     (tasks d))
    (task_assignments d)).

(** Modelled from the spec: the carry-forward rule of step 4: the level of
    the room's latest earlier Task, L1 when there is none. *)
Definition levelFor (d : DB) (date : IsoDate) (r : Room) : Z :=
  let l1 := default 1 (level_id <$>
              List.find (λ l, bool_decide (level_name l = "L1")) (cleaning_levels d)) in
  let prior := List.filter (λ t, bool_decide (task_room_id t = room_id r)
                                 && (task_date t <? date)) (tasks d) in
  snd (foldl (λ best t, if fst best <=? task_date t
                        then (task_date t, cleaning_level_id t) else best)
             (-1, l1) prior).

(** Modelled from the spec: the identities given to a new Task and a new
    Assignment (the spec leaves them to the repository). *)
Definition nextTaskId (d : DB) : Z :=
  1 + foldr Z.max 0 (map task_id (tasks d)).

(** Modelled from the spec: as [nextTaskId], for Assignments. *)
Definition nextAssignmentId (d : DB) : Z :=
  1 + foldr Z.max 0 (map asg_id (task_assignments d)).

(** Modelled from the spec: the state of one run of section 4.2: the
    working copy of the tables, the in-memory
    load counters, the number of writes sent, and what was created. *)
Record Run := {
  store : DB; loads : gmap string nat; writes : nat;
  made : GenerationResult }.

Section Policy.
(** Modelled from the spec: the tie-break on display names and the
    configured crew sizes, both policy (section 9). *)
Variable localeCompare : string → string → Z.
Variable crewSize : Z → option nat.
(** Modelled from the spec: for each write of a run, whether the
    repository fails on it. *)
Variable fault : nat → option Fault.

(** Modelled from the spec: the display name of a Worker. *)
Definition displayName (p : Profile) : string := strOr (full_name p) "Worker".

(** Modelled from the spec: the in-memory load counter of a worker. *)
Definition loadOf (loads : gmap string nat) (p : Profile) : nat :=
  default 0%nat (loads !! user_id p).

(** Modelled from the spec: the eligible worker with the lowest current
    load, ties broken by display name ascending. *)
Definition better (loads : gmap string nat) (c best : Profile) : bool :=
  (loadOf loads c <? loadOf loads best)%nat
  || ((loadOf loads c =? loadOf loads best)%nat
      && (localeCompare (displayName c) (displayName best) <? 0)).

(** Modelled from the spec: the selection of step 4 among the candidates,
    none when there is no candidate. *)
Definition pickWorker (loads : gmap string nat) (candidates : list Profile)
  : option Profile :=
  match candidates with
  | [] => None
  | c :: cs => Some (foldl (λ best c, if better loads c best then c else best) c cs)
  end.

(** Modelled from the spec: steps 4 and 5, the Assignments of one Task,
    drawing distinct workers and counting each in the load. *)
Fixpoint assignCrew (n : nat) (taskId : Z) (eligible : list Profile)
    (chosen : list string) (run : Run) : Error + Run :=
  match n with
  | O => inr run
  | S n' =>
      match pickWorker (loads run)
              (List.filter (λ p, negb (bool_decide (user_id p ∈ chosen)))
                           eligible) with
      | None => inr run
      | Some w =>
          match fault (writes run) with
          | Some f => inl (errorOf f)
          | None =>
              let d := store run in
              let a := {| asg_id := nextAssignmentId d; asg_task_id := taskId;
                          asg_user_id := user_id w; asg_status := not_started;
                          started_at := None; completed_at := None |} in
              assignCrew n' taskId eligible (user_id w :: chosen)
                {| store := withTasks (tasks d) (task_assignments d ++ [a]) d;
                   loads := <[user_id w := S (loadOf (loads run) w)]> (loads run);
                   writes := S (writes run);
                   made := {| tasksCreated := tasksCreated (made run);
                              assignmentsCreated :=
                                S (assignmentsCreated (made run)) |} |}
          end
      end
  end.

(** Modelled from the spec: step 4 for one pending room. *)
Definition scheduleRoom (date : IsoDate) (eligible : list Profile)
    (r : Room) (run : Run) : Error + Run :=
  match fault (writes run) with
  | Some f => inl (errorOf f)
  | None =>
      let d := store run in
      let t := {| task_id := nextTaskId d; task_date := date;
                  task_room_id := room_id r;
                  cleaning_level_id := levelFor d date r;
                  is_harvest_shift := is_harvest r |} in
      let crew := if is_harvest r then default 1%nat (crewSize (room_id r))
                  else 1%nat in
      assignCrew crew (task_id t) eligible []
        {| store := withTasks (tasks d ++ [t]) (task_assignments d) d;
           loads := loads run; writes := S (writes run);
           made := {| tasksCreated := S (tasksCreated (made run));
                      assignmentsCreated := assignmentsCreated (made run) |} |}
  end.

(** Modelled from the spec: step 4 over the pending rooms, in order; the
    first failure ends the run. *)
Fixpoint scheduleRooms (date : IsoDate) (eligible : list Profile)
    (pending : list Room) (run : Run) : Error + Run :=
  match pending with
  | [] => inr run
  | r :: rest =>
      match scheduleRoom date eligible r run with
      | inl e => inl e
      | inr run' => scheduleRooms date eligible rest run'
      end
  end.

(** Modelled from the spec: [generate(date)] of section 4.2, steps 1 to 5
    in their order.  An empty set of eligible workers fails the run, as
    step 2 and the edge cases have it ("zero eligible workers: fail fast"),
    also where no worker is active or no room is pending, for which the
    sentence on preconditions speaks of a result with zero counts; with an
    eligible worker and no pending room the result has zero counts.  A
    failed run leaves the tables as they were before it. *)
Definition generate (date : IsoDate) (d : DB)
  : (Error + GenerationResult) * DB :=
  let zero := {| tasksCreated := 0; assignmentsCreated := 0 |} in
  let pending := pendingRooms d date in
  let eligible := eligibleWorkers d date in
  if isEmpty eligible then (inl NoEligibleWorkers, d)
  else
    let loads0 : gmap string nat :=
      list_to_map (map (λ p, (user_id p, weeklyLoad d date (user_id p)))
                       eligible) in
    match scheduleRooms date eligible pending
            {| store := d; loads := loads0; writes := 0; made := zero |} with
    | inl e => (inl e, d)
    | inr run => (inr (made run), store run)
    end.

(** Modelled from the spec: the name of an error kind. *)
Definition errorName (e : Error) : string :=
  match e with
  | UnknownWorker => "UnknownWorker" | UnknownRoom => "UnknownRoom"
  | NoEligibleWorkers => "NoEligibleWorkers"
  | GenerationFailed => "GenerationFailed"
  | IllegalTransition => "IllegalTransition" | InvalidRange => "InvalidRange"
  | RepositoryUnavailable => "RepositoryUnavailable"
  end.

(** Modelled from the spec: [generate] as the stored procedure
    [generate_daily_assignments] the dashboards call; an error is raised
    with its name as message. *)
Definition generate_daily_assignments (p_date : IsoDate) (d : DB)
  : (string + unit) * DB :=
  match generate p_date d with
  | (inl e, d') => (inl (errorName e), d')
  | (inr _, d') => (inr tt, d')
  end.

End Policy.
End Generator.

(** ** Vocabulary of the properties *)


(** The next request of a handler is answered with an error. *)
Definition failing (w : Repo.World) : option string :=
  match Repo.faults w with Some msg :: _ => Some msg | _ => None end.

(** A table with one assignment, one worker's rows of a day. *)
Definition dbOfAssignments (l : list Repo.AssignmentRow) : Repo.DB :=
  {| Repo.rooms := []; Repo.cleaning_levels := []; Repo.profiles := [];
     Repo.worker_availability := []; Repo.tasks := [];
     Repo.task_assignments := l |}.

(** The invariant of the availability table: at most one row per
    (worker, weekday), as the conflict target of [upsert] requires. *)
Definition ruleKey (r : Repo.AvailabilityRow) : string * Z :=
  (Repo.av_user_id r, Repo.weekday r).

Definition oneRowPerDay (rules : list Repo.AvailabilityRow) : Prop :=
  NoDup (map ruleKey rules).

(** The worker has a profile. *)
Definition knownWorker (d : Repo.DB) (workerId : string) : Prop :=
  existsb (λ p, bool_decide (Repo.user_id p = workerId)) (Repo.profiles d) = true.

(** The order a comparator stands for: [a] may come before [b]. *)
Definition cmpLe {A} (cmp : A → A → Z) (a b : A) : Prop := cmp a b <= 0.

(** Rows of the weekly request that carry a task of the asked dates, and
    among them those of one worker, and of one worker on one day. *)
Definition dated (row : AdminDashboard2.WeekRow) : bool :=
  match AdminDashboard2.wr_task_date row with Some _ => true | None => false end.

Definition rowOf (u : string) (row : AdminDashboard2.WeekRow) : bool :=
  dated row && bool_decide (AdminDashboard2.wr_user_id row = u).

Definition rowOn (u : string) (date : JSDate.IsoDate)
    (row : AdminDashboard2.WeekRow) : bool :=
  bool_decide (AdminDashboard2.wr_user_id row = u)
  && bool_decide (AdminDashboard2.wr_task_date row = Some date).

(** What the map of [loadWeeklySummary] holds for a worker, and for a
    worker on a day. *)
Definition totalOf (u : string)
    (m : list (string * AdminDashboard2.WeeklySummaryRow)) : nat :=
  default 0%nat (AdminDashboard2.total <$> JSMap.get u m).

Definition cellOf (u : string) (date : JSDate.IsoDate)
    (m : list (string * AdminDashboard2.WeeklySummaryRow))
  : AdminDashboard2.DayCell :=
  default {| AdminDashboard2.count := 0; AdminDashboard2.dc_rooms := [] |}
    (JSMap.get u m ≫= λ e, AdminDashboard2.perDay e !! date).

(** Keys are distinct and each entry carries its key as [user_id]. *)
Definition wellKeyed (m : list (string * AdminDashboard2.WeeklySummaryRow))
  : Prop :=
  NoDup (JSMap.keys m) ∧ Forall (λ p, AdminDashboard2.wsr_user_id p.2 = p.1) m.

(** The cell the page shows for a day: [perDay[d]], zero when absent. *)
Definition cellAt (e : AdminDashboard2.WeeklySummaryRow) (date : JSDate.IsoDate)
  : AdminDashboard2.DayCell :=
  default {| AdminDashboard2.count := 0; AdminDashboard2.dc_rooms := [] |}
    (AdminDashboard2.perDay e !! date).

(** The assignees of the day's tasks, each with the room of its task. *)
Definition assigneesWithRoom (taskRows : list AdminDashboard2.TaskRow)
  : list (string * AdminDashboard2.AssignmentSummary) :=
  taskRows ≫= λ t, map (λ a, (AdminDashboard2.tr_room_name t, a))
                       (AdminDashboard2.assignees t).

Definition countOf (u : string)
    (m : list (string * AdminDashboard2.WorkerSummaryRow)) : nat :=
  default 0%nat (AdminDashboard2.task_count <$> JSMap.get u m).

(** Keys are distinct, each entry carries its key as [user_id], and no
    entry lists a room twice. *)
Definition wellKeyedDay (m : list (string * AdminDashboard2.WorkerSummaryRow))
  : Prop :=
  NoDup (JSMap.keys m)
  ∧ Forall (λ p, AdminDashboard2.ws_user_id p.2 = p.1
                 ∧ NoDup (AdminDashboard2.ws_rooms p.2)) m.

(** One turn of the inner loop of [buildWorkerSummary]. *)
Definition addPair (m : list (string * AdminDashboard2.WorkerSummaryRow))
    (p : string * AdminDashboard2.AssignmentSummary) :=
  AdminDashboard2.addAssignee p.1 m p.2.

(** The group a row of [loadWeeklyRotation] falls in: the date of its task
    and the display name of its worker. *)
Definition groupOf (profileMap : gmap string string)
    (row : AdminDashboard.WeekRow) : option (JSDate.IsoDate * string) :=
  t ← AdminDashboard.wr_task row;
  Some (AdminDashboard.wt_task_date t,
        default "Unknown" (profileMap !! AdminDashboard.wr_user_id row)).

Definition inGroup (profileMap : gmap string string)
    (key : JSDate.IsoDate * string) (row : AdminDashboard.WeekRow) : bool :=
  bool_decide (groupOf profileMap row = Some key).

Definition hasTask (row : AdminDashboard.WeekRow) : bool :=
  match AdminDashboard.wr_task row with Some _ => true | None => false end.

Definition bucketTotal (key : JSDate.IsoDate * string)
    (bucket : list (JSDate.IsoDate * string * AdminDashboard.RotationRow)) : nat :=
  default 0%nat (AdminDashboard.rr_total <$> JSMap.get key bucket).

(** Keys are distinct; each row carries its key, counts at least one
    assignment and lists one room name per assignment. *)
Definition wellKeyedBucket
    (bucket : list (JSDate.IsoDate * string * AdminDashboard.RotationRow))
  : Prop :=
  NoDup (JSMap.keys bucket)
  ∧ Forall (λ p, (AdminDashboard.rr_date p.2, AdminDashboard.rr_worker p.2) = p.1
                 ∧ (1 <= AdminDashboard.rr_total p.2)%nat
                 ∧ length (AdminDashboard.rr_rooms p.2)
                   = AdminDashboard.rr_total p.2) bucket.

(** The room name a row of [loadWeeklyRotation] contributes. *)
Definition roomOf (row : AdminDashboard.WeekRow) : string :=
  default "Unknown room" (AdminDashboard.wr_task row ≫= AdminDashboard.wt_room).

Definition bucketRooms (key : JSDate.IsoDate * string)
    (bucket : list (JSDate.IsoDate * string * AdminDashboard.RotationRow))
  : list string :=
  default [] (AdminDashboard.rr_rooms <$> JSMap.get key bucket).

(** The rooms the daily summary holds for a worker. *)
Definition roomsOf (u : string)
    (m : list (string * AdminDashboard2.WorkerSummaryRow)) : list string :=
  default [] (AdminDashboard2.ws_rooms <$> JSMap.get u m).

(** The rows of a small week for [loadWeeklyRotation]: Ann in Lab B and
    Lab A and Bob in Lab C on Monday 2024-06-03, Bob in a room without a
    name on Tuesday, and an assignment of Ann whose task is outside the
    week. *)
Definition exampleNames : gmap string string :=
  {[ "u1" := "Ann"; "u2" := "Bob" ]}.

Definition exampleRows : list AdminDashboard.WeekRow :=
  let row i u t := {| AdminDashboard.wr_id := i;
                      AdminDashboard.wr_user_id := u;
                      AdminDashboard.wr_task := t |} in
  let on d n := Some {| AdminDashboard.wt_task_date := d;
                        AdminDashboard.wt_room := n |} in
  [row 1 "u1" (on (JSDate.isoDate 2024 6 3) (Some "Lab B"));
   row 2 "u2" (on (JSDate.isoDate 2024 6 3) (Some "Lab C"));
   row 3 "u1" (on (JSDate.isoDate 2024 6 3) (Some "Lab A"));
   row 4 "u2" (on (JSDate.isoDate 2024 6 4) None);
   row 5 "u1" None].

(** The comparator of the rows of [loadWeeklyRotation]. *)
Definition rotationCmp (localeCompare : string → string → Z)
    (a b : AdminDashboard.RotationRow) : Z :=
  orElse (AdminDashboard.rr_date a - AdminDashboard.rr_date b)
         (localeCompare (AdminDashboard.rr_worker a) (AdminDashboard.rr_worker b)).

(** One state of the tables extends another: same rooms, levels, workers
    and rules, and the tasks of the first followed by new ones. *)
Definition extends (d d' : Repo.DB) : Prop :=
  Repo.rooms d' = Repo.rooms d
  ∧ Repo.cleaning_levels d' = Repo.cleaning_levels d
  ∧ Repo.profiles d' = Repo.profiles d
  ∧ Repo.worker_availability d' = Repo.worker_availability d
  ∧ ∃ l, Repo.tasks d' = (Repo.tasks d ++ l)%list.

Definition zeroResult : Generator.GenerationResult :=
  {| Generator.tasksCreated := 0; Generator.assignmentsCreated := 0 |}.

(** The day of the specification's example: rooms R1, R2 (harvest, crew of
    two) and R3, the workers Ann, Bob and Cy, nothing scheduled yet. *)
Definition exampleDay (offDays : list Repo.AvailabilityRow) : Repo.DB :=
  let room i n h := {| Repo.room_id := i; Repo.room_name := n;
                       Repo.is_harvest := h; Repo.room_active := true |} in
  let person u n := {| Repo.user_id := u; Repo.full_name := Some n;
                       Repo.role := Repo.worker; Repo.active := true |} in
  {| Repo.rooms := [room 1 "R1" false; room 2 "R2" true; room 3 "R3" false];
     Repo.cleaning_levels := [{| Repo.level_id := 1; Repo.level_name := "L1" |}];
     Repo.profiles := [person "a" "Ann"; person "b" "Bob"; person "c" "Cy"];
     Repo.worker_availability := offDays;
     Repo.tasks := []; Repo.task_assignments := [] |}.

Definition exampleCrew (roomId : Z) : option nat :=
  if roomId =? 2 then Some 2%nat else None.

Definition noFault (n : nat) : option Generator.Fault := None.

(** A handler that writes nothing: the tables are after it as before. *)
Definition readOnly {A} (m : Repo.M A) : Prop :=
  ∀ w, Repo.db (m w).2 = Repo.db w.

(** An ordering of nullable names for the examples: by code units, [null]
    as the empty name. *)
Definition codeUnitCompare_opt (a b : option string) : Z :=
  codeUnitCompare (default "" a) (default "" b).

(** Reading a local time back as an instant stays on its local day: so it
    is at a fixed offset, and with clock changes that skip or repeat an
    hour inside a day. *)
Definition keepsLocalDay (zone : JSDate.Zone) : Prop :=
  ∀ l, JSDate.localDay zone (JSDate.utc zone l) = l / JSDate.msPerDay.

(** A zone with clock changes: Central European time in 2024, one hour
    ahead of UTC until 31 March 01:00 UTC and from 27 October 01:00 UTC,
    two hours ahead in between.  A local time that occurs twice, or not at
    all, is read with the offset in force before the change. *)
Definition berlin2024 : JSDate.Zone :=
  let hour := 3600000 in
  let spring := JSDate.isoDate 2024 3 31 * JSDate.msPerDay in
  let autumn := JSDate.isoDate 2024 10 27 * JSDate.msPerDay in
  {| JSDate.offsetAt := λ t,
       if t <? spring + hour then hour
       else if t <? autumn + hour then 2 * hour else hour;
     JSDate.offsetOfLocal := λ l,
       if l <? spring + 3 * hour then hour
       else if l <? autumn + 3 * hour then 2 * hour else hour |}.

(** Two rooms, two workers, Bob off on Mondays, and Ann's two tasks of
    Monday 2024-06-03. *)
Definition exampleWeek : Repo.DB :=
  {| Repo.rooms := [{| Repo.room_id := 1; Repo.room_name := "R1";
                  Repo.is_harvest := false; Repo.room_active := true |};
               {| Repo.room_id := 2; Repo.room_name := "R2";
                  Repo.is_harvest := false; Repo.room_active := true |}];
     Repo.cleaning_levels := [{| Repo.level_id := 1; Repo.level_name := "L1" |}];
     Repo.profiles := [{| Repo.user_id := "u1"; Repo.full_name := Some "Ann";
                     Repo.role := Repo.worker; Repo.active := true |};
                  {| Repo.user_id := "u2"; Repo.full_name := Some "Bob";
                     Repo.role := Repo.worker; Repo.active := true |}];
     Repo.worker_availability :=
       [{| Repo.av_user_id := "u2"; Repo.weekday := 1; Repo.is_off := true |}];
     Repo.tasks := [{| Repo.task_id := 1; Repo.task_date := JSDate.isoDate 2024 6 3;
                  Repo.task_room_id := 2; Repo.cleaning_level_id := 1;
                  Repo.is_harvest_shift := false |};
               {| Repo.task_id := 2; Repo.task_date := JSDate.isoDate 2024 6 3;
                  Repo.task_room_id := 1; Repo.cleaning_level_id := 1;
                  Repo.is_harvest_shift := false |}];
     Repo.task_assignments :=
       [{| Repo.asg_id := 1; Repo.asg_task_id := 1; Repo.asg_user_id := "u1";
           Repo.asg_status := Repo.completed;
           Repo.started_at := Some "2024-06-03T08:00:00.000Z";
           Repo.completed_at := Some "2024-06-03T09:00:00.000Z" |};
        {| Repo.asg_id := 2; Repo.asg_task_id := 2; Repo.asg_user_id := "u1";
           Repo.asg_status := Repo.not_started; Repo.started_at := None;
           Repo.completed_at := None |}] |}.

(** The task an assignment refers to, and the assignments of a worker in
    the order of their ids. *)
Definition taskOf (d : Repo.DB) (a : Repo.AssignmentRow) : option Repo.TaskRow :=
  List.find (λ t, bool_decide (Repo.task_id t = Repo.asg_task_id a))
            (Repo.tasks d).

Definition assignmentsOf (u : string) (d : Repo.DB) : list Repo.AssignmentRow :=
  sortBy (λ a b, Repo.asg_id a - Repo.asg_id b)
         (List.filter (λ a, bool_decide (Repo.asg_user_id a = u))
                      (Repo.task_assignments d)).

Definition onDate (date : JSDate.IsoDate) (d : Repo.DB)
    (a : Repo.AssignmentRow) : bool :=
  bool_decide (Repo.task_date <$> taskOf d a = Some date).

(** The names assigned to the day's tasks, each with the room of its
    task, as the loops of [workerSummary] meet them; the order of
    [workerSummary]. *)
Definition namesWithRoom (tasks : list AdminDashboard.TaskDisplay)
  : list (string * string) :=
  tasks ≫= λ t, map (λ n, (AdminDashboard.td_room_name t, n))
                    (AdminDashboard.assigned_to_names t).

(** One turn of that loop for a name the object does not inherit. *)
Definition countOwn (m : list (string * AdminDashboard.SummaryEntry))
    (p : string * string) : list (string * AdminDashboard.SummaryEntry) :=
  let e := default {| AdminDashboard.se_count := 0;
                      AdminDashboard.se_rooms := [] |} (JSMap.get p.2 m) in
  JSMap.set p.2 {| AdminDashboard.se_count := AdminDashboard.se_count e + 1;
                   AdminDashboard.se_rooms :=
                     AdminDashboard.se_rooms e ++ [p.1] |} m.

Definition summaryCmp (localeCompare : string → string → Z)
    (a b : AdminDashboard.SummaryRow) : Z :=
  orElse (Z.of_nat (AdminDashboard.sr_count b)
          - Z.of_nat (AdminDashboard.sr_count a))
         (localeCompare (AdminDashboard.sr_name a) (AdminDashboard.sr_name b)).

(** The rows [loadTasksForDate] builds from the tables when its requests
    succeed. *)
Definition displayOf (rooms : list Repo.Room) (levels : list Repo.CleaningLevel)
    (date : JSDate.IsoDate) (d : Repo.DB) : list AdminDashboard.TaskDisplay :=
  let baseTasks := AdminDashboard.selectTasksOn date d in
  let taskIds := map Repo.task_id baseTasks in
  let assignments :=
    if isEmpty taskIds then [] else AdminDashboard.selectAssignmentsIn taskIds d in
  let userIds := remove_dups (map snd assignments) in
  let profileMap :=
    if isEmpty userIds then ∅ else AdminDashboard.selectProfileNames userIds d in
  map (AdminDashboard.toDisplay rooms levels profileMap assignments) baseTasks.

(** * Properties *)

(** ** Week starts *)

Section WeekStart.
Import JSDate.

Lemma weekdayOfDay_range n : 0 <= weekdayOfDay n < 7.
Proof. unfold weekdayOfDay. apply Z.mod_pos_bound. lia. Qed.

(** In a zone that keeps one offset, [setDate] moves the instant by whole
    days and local midnight is that offset before midnight UTC. *)
Lemma localDay_fixed (tz : Z) d : localDay tz d = (d + tz) / msPerDay.
Proof. reflexivity. Qed.

Lemma setDatePlus_fixed (tz : Z) d k : setDatePlus tz d k = d + k * msPerDay.
Proof. unfold setDatePlus, utc, localTime. cbn. lia. Qed.

Lemma setHours0_fixed (tz : Z) d :
  setHours0 tz d = localDay tz d * msPerDay - tz.
Proof. reflexivity. Qed.

Lemma keepsLocalDay_fixed (tz : Z) : keepsLocalDay tz.
Proof.
  intros l. rewrite localDay_fixed. unfold utc. cbn. f_equal. lia.
Qed.


Section Zones.
Variable zone : Zone.
Hypothesis Hday : keepsLocalDay zone.

Lemma localDay_shift_zone d k :
  localDay zone (setDatePlus zone d k) = localDay zone d + k.
Proof.
  unfold setDatePlus. rewrite Hday. unfold localDay.
  apply Z.div_add. unfold msPerDay. lia.
Qed.

Lemma localDay_setHours0_zone d :
  localDay zone (setHours0 zone d) = localDay zone d.
Proof.
  unfold setHours0. rewrite Hday. apply Z.div_mul. unfold msPerDay. lia.
Qed.

(** [startOfWeekMonday] goes back to the Monday on or before the local day. *)
Lemma startOfWeekMonday_day_zone d :
  toISODate zone (startOfWeekMonday zone d)
  = localDay zone d - (weekdayOfDay (localDay zone d) + 6) mod 7.
Proof.
  unfold toISODate, startOfWeekMonday.
  rewrite localDay_setHours0_zone, localDay_shift_zone. unfold getDay.
  pose proof (weekdayOfDay_range (localDay zone d)) as Hr.
  destruct (Z.eqb_spec (weekdayOfDay (localDay zone d)) 0) as [E | E].
  - rewrite E. change ((0 + 6) mod 7) with 6. lia.
  - assert (Hm : (weekdayOfDay (localDay zone d) + 6) mod 7
                 = weekdayOfDay (localDay zone d) - 1).
    { symmetry. apply (Z.mod_unique _ _ 1); lia. }
    lia.
Qed.

Lemma rotationRange_week_zone s :
  AdminDashboard.rotationRange zone s
  = (localDay zone (parseIso s), localDay zone (parseIso s) + 6).
Proof.
  unfold AdminDashboard.rotationRange, toISODate, addDays.
  by rewrite localDay_shift_zone.
Qed.

End Zones.

Lemma localDay_shift (tz : Z) d k :
  localDay tz (setDatePlus tz d k) = localDay tz d + k.
Proof. apply localDay_shift_zone, keepsLocalDay_fixed. Qed.

Lemma localDay_setHours0 (tz : Z) d :
  localDay tz (setHours0 tz d) = localDay tz d.
Proof. apply localDay_setHours0_zone, keepsLocalDay_fixed. Qed.

Lemma startOfWeekMonday_day (tz : Z) d :
  toISODate tz (startOfWeekMonday tz d)
  = localDay tz d - (weekdayOfDay (localDay tz d) + 6) mod 7.
Proof. apply startOfWeekMonday_day_zone, keepsLocalDay_fixed. Qed.

Lemma back_to_monday n : weekdayOfDay (n - (weekdayOfDay n + 6) mod 7) = 1.
Proof.
  unfold weekdayOfDay.
  pose proof (Z.mod_pos_bound (n + 4) 7 ltac:(lia)) as H1.
  pose proof (Z.mod_pos_bound ((n + 4) mod 7 + 6) 7 ltac:(lia)) as H2.
  pose proof (Z.div_mod (n + 4) 7 ltac:(lia)) as D1.
  pose proof (Z.div_mod ((n + 4) mod 7 + 6) 7 ltac:(lia)) as D2.
  set (q := (n + 4) / 7) in *. set (r := (n + 4) mod 7) in *.
  set (q' := (r + 6) / 7) in *. set (r' := (r + 6) mod 7) in *.
  symmetry. apply (Z.mod_unique _ _ (q + q' - 1)); lia.
Qed.

Lemma back_to_sunday n : weekdayOfDay (n - weekdayOfDay n) = 0.
Proof.
  unfold weekdayOfDay.
  pose proof (Z.mod_pos_bound (n + 4) 7 ltac:(lia)) as H1.
  pose proof (Z.div_mod (n + 4) 7 ltac:(lia)) as D1.
  symmetry. apply (Z.mod_unique _ _ ((n + 4) / 7)); lia.
Qed.

(** Midnight UTC of a date falls on that same local date at a fixed offset
    at or ahead of UTC, and on the day before at one behind UTC. *)
Lemma localDay_parseIso_ahead (tz : Z) s :
  0 <= tz < msPerDay → localDay tz (parseIso s) = s.
Proof.
  intros Htz. rewrite localDay_fixed. unfold parseIso. symmetry.
  apply (Z.div_unique _ _ s tz); unfold msPerDay in *; lia.
Qed.

Lemma localDay_parseIso_behind (tz : Z) s :
  - msPerDay <= tz < 0 → localDay tz (parseIso s) = s - 1.
Proof.
  intros Htz. rewrite localDay_fixed. unfold parseIso. symmetry.
  apply (Z.div_unique _ _ (s - 1) (tz + msPerDay)); unfold msPerDay in *; lia.
Qed.

Lemma rotationRange_week (tz : Z) s :
  AdminDashboard.rotationRange tz s
  = (localDay tz (parseIso s), localDay tz (parseIso s) + 6).
Proof. apply rotationRange_week_zone, keepsLocalDay_fixed. Qed.

Lemma getWeekEnd_plus6 (tz : Z) s : getWeekEnd tz s = s + 6.
Proof.
  unfold getWeekEnd, toISO. rewrite setDatePlus_fixed. unfold parseIso.
  replace (s * msPerDay + 6 * msPerDay) with ((s + 6) * msPerDay) by lia.
  apply Z.div_mul. unfold msPerDay. lia.
Qed.

(** At a fixed offset at or ahead of UTC [getWeekStart] goes back to the
    Sunday of the date. *)
Lemma getWeekStart_ahead (tz : Z) s :
  0 <= tz < msPerDay → getWeekStart tz s = s - weekdayOfDay s.
Proof.
  intros Htz. unfold getWeekStart, getDay, toISO. rewrite setDatePlus_fixed.
  rewrite (localDay_parseIso_ahead tz s Htz). unfold parseIso.
  replace (s * msPerDay + - weekdayOfDay s * msPerDay)
    with ((s - weekdayOfDay s) * msPerDay) by lia.
  apply Z.div_mul. unfold msPerDay. lia.
Qed.

(** At a fixed offset behind UTC [getWeekStart] reads the date one day
    early and lands on the Monday of the date. *)
Lemma getWeekStart_behind (tz : Z) s :
  - msPerDay <= tz < 0 →
  getWeekStart tz s = s - (weekdayOfDay s + 6) mod 7.
Proof.
  intros Htz. unfold getWeekStart, getDay, toISO. rewrite setDatePlus_fixed.
  rewrite (localDay_parseIso_behind tz s Htz). unfold parseIso.
  assert (Hw : weekdayOfDay (s - 1) = (weekdayOfDay s + 6) mod 7).
  { unfold weekdayOfDay.
    pose proof (Z.mod_pos_bound (s + 4) 7 ltac:(lia)) as H1.
    pose proof (Z.mod_pos_bound ((s + 4) mod 7 + 6) 7 ltac:(lia)) as H2.
    pose proof (Z.div_mod (s + 4) 7 ltac:(lia)) as D1.
    pose proof (Z.div_mod ((s + 4) mod 7 + 6) 7 ltac:(lia)) as D2.
    symmetry.
    apply (Z.mod_unique _ _ ((s + 4) / 7 + ((s + 4) mod 7 + 6) / 7 - 1)); lia. }
  rewrite Hw.
  replace (s * msPerDay + - ((weekdayOfDay s + 6) mod 7) * msPerDay)
    with ((s - (weekdayOfDay s + 6) mod 7) * msPerDay) by lia.
  apply Z.div_mul. unfold msPerDay. lia.
Qed.

End WeekStart.




(** That Monday is 25 March, before the clock change. *)
Example startOfWeekMonday_across_clock_change :
  let d := JSDate.parseIso (JSDate.isoDate 2024 3 31) + 36000000 in
  JSDate.toISODate berlin2024 d = JSDate.isoDate 2024 3 31
  ∧ JSDate.toISODate berlin2024 (JSDate.startOfWeekMonday berlin2024 d)
    = JSDate.isoDate 2024 3 25
  ∧ AdminDashboard.rotationRange berlin2024 (JSDate.isoDate 2024 3 25)
    = (JSDate.isoDate 2024 3 25, JSDate.isoDate 2024 3 31).
Proof. vm_compute. repeat split. Qed.

(** ** Status updates *)

Section Requests.
Import Repo.

Lemma query_run {A} (f : DB → A) w :
  query f w
  = (match failing w with Some msg => Failure msg | None => Data (f (db w)) end,
     {| db := db w; faults := tail (faults w) |}).
Proof.
  unfold query, request, failing.
  destruct (faults w) as [|[msg|] fs]; reflexivity.
Qed.

End Requests.

Section StatusUpdates.
Import Repo WorkerDashboard.


Lemma setStatus_success now id next st w :
  failing w = None →
  setStatus now id next st w
  = ({| rows := map (λ r, if decide (assignment_id r = id)
                          then applyNext now next r else r) (rows st);
        toast := Some (match next with
                       | Completed => "Marked complete"
                       | InProgress => "Started" end) |},
     {| db := updateAssignmentWhereId (patchOf now next) id (db w);
        faults := tail (faults w) |}).
Proof.
  unfold failing, setStatus, mbind, M_bind, mutate, request.
  destruct (faults w) as [|[m|] fs]; intros H; try discriminate; reflexivity.
Qed.






End StatusUpdates.

Section StatusClaims.
Import Repo WorkerDashboard.






End StatusClaims.

(** ** Days off *)

Section DaysOff.
Import JSDate Repo AdminDashboard.

(** What [loadDaysOff] has gathered after some rows, starting from [m]. *)
Lemma foldl_addDayOff_elem rows : ∀ (m : gmap string (gset Z)) u wd,
  wd ∈ default ∅ (foldl addDayOff m rows !! u)
  ↔ wd ∈ default ∅ (m !! u)
    ∨ ∃ r, r ∈ rows ∧ is_off r = true ∧ av_user_id r = u ∧ weekday r = wd.
Proof.
  induction rows as [|row rows IH]; intros m u wd; simpl.
  - split; [auto|]. intros [H|(r & Hr & _)]; [exact H|]. inversion Hr.
  - rewrite IH. unfold addDayOff.
    assert (Hcons : (∃ r, r ∈ row :: rows ∧ is_off r = true
                          ∧ av_user_id r = u ∧ weekday r = wd)
                    ↔ (is_off row = true ∧ av_user_id row = u ∧ weekday row = wd)
                      ∨ ∃ r, r ∈ rows ∧ is_off r = true
                             ∧ av_user_id r = u ∧ weekday r = wd).
    { split.
      - intros (r & Hr & H). apply elem_of_cons in Hr as [Hr|Hr].
        + subst r. by left.
        + right. by exists r.
      - intros [H|(r & Hr & H)].
        + exists row. split; [left|exact H].
        + exists r. split; [by right|exact H]. }
    rewrite Hcons. clear Hcons.
    destruct (is_off row) eqn:Eoff; simpl.
    + destruct (decide (av_user_id row = u)) as [Heq|Hne].
      * rewrite Heq, lookup_insert_eq. simpl.
        rewrite elem_of_union, elem_of_singleton. intuition (eauto; congruence).
      * rewrite lookup_insert_ne by exact Hne. intuition (eauto; congruence).
    + intuition (eauto; congruence).
Qed.

Lemma foldl_addDayOff_key rows : ∀ (m : gmap string (gset Z)) u,
  is_Some (foldl addDayOff m rows !! u)
  ↔ is_Some (m !! u) ∨ ∃ r, r ∈ rows ∧ is_off r = true ∧ av_user_id r = u.
Proof.
  induction rows as [|row rows IH]; intros m u; simpl.
  - split; [auto|]. intros [H|(r & Hr & _)]; [exact H|]. inversion Hr.
  - rewrite IH. unfold addDayOff.
    assert (Hcons : (∃ r, r ∈ row :: rows ∧ is_off r = true ∧ av_user_id r = u)
                    ↔ (is_off row = true ∧ av_user_id row = u)
                      ∨ ∃ r, r ∈ rows ∧ is_off r = true ∧ av_user_id r = u).
    { split.
      - intros (r & Hr & H). apply elem_of_cons in Hr as [Hr|Hr].
        + subst r. by left.
        + right. by exists r.
      - intros [H|(r & Hr & H)].
        + exists row. split; [left|exact H].
        + exists r. split; [by right|exact H]. }
    rewrite Hcons. clear Hcons.
    destruct (is_off row) eqn:Eoff; simpl.
    + destruct (decide (av_user_id row = u)) as [Heq|Hne].
      * rewrite Heq, lookup_insert_eq. split; [intros _|intros _; left; eauto].
        right. left. by rewrite <- Heq.
      * rewrite lookup_insert_ne by exact Hne. intuition (eauto; congruence).
    + intuition (eauto; congruence).
Qed.

(** A weekday is in the loaded set of a worker exactly when the table has
    an off row for that worker and weekday. *)
Lemma daysOffOfRows_elem rows u wd :
  wd ∈ default ∅ (daysOffOfRows rows !! u)
  ↔ ∃ r, r ∈ rows ∧ is_off r = true ∧ av_user_id r = u ∧ weekday r = wd.
Proof.
  unfold daysOffOfRows. rewrite foldl_addDayOff_elem, lookup_empty. simpl.
  split; [intros [H|H]; [set_solver|exact H]|by right].
Qed.

Lemma daysOffOfRows_key rows u :
  is_Some (daysOffOfRows rows !! u)
  ↔ ∃ r, r ∈ rows ∧ is_off r = true ∧ av_user_id r = u.
Proof.
  unfold daysOffOfRows. rewrite foldl_addDayOff_key, lookup_empty.
  split; [intros [H|H]; [by destruct H|exact H]|by right].
Qed.

Lemma checked_iff rows u wd :
  checked (daysOffOfRows rows) u wd = true
  ↔ ∃ r, r ∈ rows ∧ is_off r = true ∧ av_user_id r = u ∧ weekday r = wd.
Proof.
  unfold checked. rewrite bool_decide_eq_true. apply daysOffOfRows_elem.
Qed.

(** Two tables with the same off rows load the same map. *)
Lemma daysOffOfRows_ext rows1 rows2 :
  (∀ r, is_off r = true → (r ∈ rows1 ↔ r ∈ rows2)) →
  daysOffOfRows rows1 = daysOffOfRows rows2.
Proof.
  intros H. apply map_eq. intros u.
  assert (Hk : is_Some (daysOffOfRows rows1 !! u)
               ↔ is_Some (daysOffOfRows rows2 !! u)).
  { rewrite !daysOffOfRows_key. split; intros (r & Hr & Ho & Hu); exists r;
      (split; [by apply (H r Ho)|done]). }
  assert (He : ∀ wd, wd ∈ default ∅ (daysOffOfRows rows1 !! u)
                     ↔ wd ∈ default ∅ (daysOffOfRows rows2 !! u)).
  { intros wd. rewrite !daysOffOfRows_elem.
    split; intros (r & Hr & Ho & Hu); exists r;
      (split; [by apply (H r Ho)|done]). }
  destruct (daysOffOfRows rows1 !! u) as [s1|] eqn:E1,
           (daysOffOfRows rows2 !! u) as [s2|] eqn:E2; simpl in *.
  - f_equal. apply set_eq. exact He.
  - destruct Hk as [Hk _]. destruct Hk; [eauto|discriminate].
  - destruct Hk as [_ Hk]. destruct Hk; [eauto|discriminate].
  - reflexivity.
Qed.

End DaysOff.

Section Toggles.
Import JSDate Repo AdminDashboard.

Lemma sameDay_iff u wd r :
  sameDay u wd r = true ↔ av_user_id r = u ∧ weekday r = wd.
Proof.
  unfold sameDay. rewrite andb_true_iff, !bool_decide_eq_true. reflexivity.
Qed.

Lemma sameDay_key u wd r : sameDay u wd r = true ↔ ruleKey r = (u, wd).
Proof.
  rewrite sameDay_iff. unfold ruleKey. split.
  - intros [-> ->]. reflexivity.
  - intros H. injection H as -> ->. done.
Qed.

Lemma find_sameDay_elem u wd rules r :
  List.find (sameDay u wd) rules = Some r → r ∈ rules ∧ sameDay u wd r = true.
Proof.
  induction rules as [|x rules IH]; simpl; [discriminate|].
  destruct (sameDay u wd x) eqn:E.
  - intros H. injection H as <-. split; [left|exact E].
  - intros H. destruct (IH H) as [Hin Hs]. split; [by right|exact Hs].
Qed.

Lemma find_sameDay_none u wd rules :
  List.find (sameDay u wd) rules = None ↔ existsb (sameDay u wd) rules = false.
Proof.
  induction rules as [|x rules IH]; simpl; [done|].
  destruct (sameDay u wd x); simpl; [split; discriminate|exact IH].
Qed.

(** With one row per (worker, weekday), [find] meets the only such row. *)
Lemma find_sameDay_unique u wd rules r :
  oneRowPerDay rules → r ∈ rules → sameDay u wd r = true →
  List.find (sameDay u wd) rules = Some r.
Proof.
  unfold oneRowPerDay.
  induction rules as [|x rules IH]; simpl; intros Hnd Hin Hs.
  - inversion Hin.
  - apply NoDup_cons in Hnd as [Hx Hnd].
    destruct (sameDay u wd x) eqn:E.
    + apply elem_of_cons in Hin as [->|Hin]; [reflexivity|].
      exfalso. apply Hx. apply sameDay_key in E, Hs. rewrite E, <- Hs.
      apply list_elem_of_fmap. by exists r.
    + apply elem_of_cons in Hin as [->|Hin]; [congruence|].
      by apply IH.
Qed.

Lemma offRule_find rules u wd :
  Generator.offRule rules u wd
  = default false (is_off <$> List.find (sameDay u wd) rules).
Proof. reflexivity. Qed.

Lemma offRule_true_elem rules u wd :
  Generator.offRule rules u wd = true →
  ∃ r, r ∈ rules ∧ is_off r = true ∧ av_user_id r = u ∧ weekday r = wd.
Proof.
  rewrite offRule_find.
  destruct (List.find (sameDay u wd) rules) as [r|] eqn:E; simpl; [|discriminate].
  intros Hoff. apply find_sameDay_elem in E as [Hin Hs].
  apply sameDay_iff in Hs as [Hu Hw]. by exists r.
Qed.

Lemma offRule_true_iff rules u wd :
  oneRowPerDay rules →
  Generator.offRule rules u wd = true
  ↔ ∃ r, r ∈ rules ∧ is_off r = true ∧ av_user_id r = u ∧ weekday r = wd.
Proof.
  intros Hnd. split; [apply offRule_true_elem|].
  intros (r & Hin & Hoff & Hu & Hw).
  rewrite offRule_find.
  rewrite (find_sameDay_unique u wd rules r Hnd Hin); [exact Hoff|].
  by apply sameDay_iff.
Qed.

(** After [upsert] the row of the day is the row that was sent. *)
Lemma find_after_upsert row d :
  List.find (sameDay (av_user_id row) (weekday row))
            (worker_availability (upsertAvailability row d)) = Some row.
Proof.
  unfold upsertAvailability. simpl.
  set (P := sameDay (av_user_id row) (weekday row)).
  assert (HP : P row = true) by (by apply sameDay_iff).
  induction (worker_availability d) as [|x l IH]; simpl.
  - by rewrite HP.
  - destruct (P x) eqn:E; simpl.
    + by rewrite HP.
    + destruct (existsb P l) eqn:Ex; simpl; rewrite ?E; exact IH.
Qed.

Lemma find_after_delete u wd d :
  List.find (sameDay u wd) (worker_availability (deleteAvailability u wd d))
  = None.
Proof.
  unfold deleteAvailability. simpl.
  induction (worker_availability d) as [|x l IH]; simpl; [done|].
  destruct (sameDay u wd x) eqn:E; simpl; [exact IH|]. by rewrite E.
Qed.

Lemma upsert_keeps_one_row row d :
  oneRowPerDay (worker_availability d) →
  oneRowPerDay (worker_availability (upsertAvailability row d)).
Proof.
  unfold oneRowPerDay, upsertAvailability. simpl.
  set (P := sameDay (av_user_id row) (weekday row)).
  intros Hnd. destruct (existsb P (worker_availability d)) eqn:Ex.
  - replace (map ruleKey (map (λ r, if P r then row else r) (worker_availability d)))
      with (map ruleKey (worker_availability d)); [exact Hnd|].
    clear. induction (worker_availability d) as [|x l IH]; simpl; [done|].
    rewrite <- IH. f_equal. destruct (P x) eqn:E; [|done].
    apply sameDay_key in E. by rewrite E.
  - rewrite map_app. simpl. apply NoDup_app. split; [exact Hnd|].
    split; [|apply NoDup_singleton].
    intros k Hk Hk'. apply list_elem_of_singleton in Hk'. subst k.
    apply list_elem_of_fmap in Hk as (r & Hr & Hin).
    assert (P r = true) by (apply sameDay_key; by rewrite <- Hr).
    assert (existsb P (worker_availability d) = true); [|congruence].
    apply existsb_exists. exists r. split; [by apply list_elem_of_In|done].
Qed.

Lemma delete_keeps_one_row u wd d :
  oneRowPerDay (worker_availability d) →
  oneRowPerDay (worker_availability (deleteAvailability u wd d)).
Proof.
  unfold oneRowPerDay, deleteAvailability. simpl.
  induction (worker_availability d) as [|x l IH]; simpl; [done|].
  intros Hnd. apply NoDup_cons in Hnd as [Hx Hnd].
  destruct (sameDay u wd x); simpl; [by apply IH|].
  apply NoDup_cons. split; [|by apply IH].
  intros Hin. apply Hx. apply list_elem_of_fmap in Hin as (r & Hr & Hin).
  apply list_elem_of_fmap. exists r. split; [done|].
  apply list_elem_of_In. apply list_elem_of_In in Hin.
  apply filter_In in Hin. tauto.
Qed.

(** The off rows left by an [upsert] of [is_off = false] are those left by
    deleting the row. *)
Lemma upsert_false_off_rows u wd d r :
  is_off r = true →
  r ∈ worker_availability
        (upsertAvailability {| av_user_id := u; weekday := wd; is_off := false |} d)
  ↔ r ∈ worker_availability (deleteAvailability u wd d).
Proof.
  intros Hoff. unfold upsertAvailability, deleteAvailability. simpl.
  set (row := {| av_user_id := u; weekday := wd; is_off := false |}).
  assert (Hdel : r ∈ List.filter (λ r, negb (sameDay u wd r)) (worker_availability d)
                 ↔ r ∈ worker_availability d ∧ sameDay u wd r = false).
  { rewrite list_elem_of_In, filter_In, <- list_elem_of_In, negb_true_iff. done. }
  rewrite Hdel. clear Hdel.
  destruct (existsb (sameDay u wd) (worker_availability d)) eqn:Ex.
  - rewrite list_elem_of_fmap. split.
    + intros (x & Hx & Hin). destruct (sameDay u wd x) eqn:E.
      * subst r. discriminate.
      * subst r. done.
    + intros [Hin E]. exists r. by rewrite E.
  - rewrite elem_of_app, list_elem_of_singleton. split.
    + intros [Hin| ->]; [|discriminate]. split; [done|].
      destruct (sameDay u wd r) eqn:E; [|done].
      assert (existsb (sameDay u wd) (worker_availability d) = true); [|congruence].
      apply existsb_exists. exists r. split; [by apply list_elem_of_In|done].
    + intros [Hin _]. by left.
Qed.

Lemma loadDaysOff_run w :
  loadDaysOff w
  = (match failing w with
     | Some msg => Failure msg
     | None => Data (daysOffOfRows (worker_availability (db w)))
     end, {| db := db w; faults := tail (faults w) |}).
Proof.
  unfold loadDaysOff, mbind, M_bind. unfold query, request, failing.
  by destruct (faults w) as [|[msg|] fs].
Qed.

(** C10: the map built by [loadDaysOff] is computed from the rows of the
    table and depends on the off rows only.  Two tables with the same rows of [is_off = true] give the same map; a
    row of [is_off = false] anywhere in the table changes nothing; and the
    table left by the second dashboard's toggle, which upserts
    [is_off = false], loads as the table left by deleting the row. *)
Theorem daysOff_depend_on_off_rows :
  (∀ w, failing w = None →
     (loadDaysOff w).1 = Data (daysOffOfRows (worker_availability (db w))))
  ∧ (∀ rows1 rows2,
     (∀ r, is_off r = true → (r ∈ rows1 ↔ r ∈ rows2)) →
     daysOffOfRows rows1 = daysOffOfRows rows2)
  ∧ (∀ l1 r l2, is_off r = false →
       daysOffOfRows (l1 ++ r :: l2) = daysOffOfRows (l1 ++ l2))
  ∧ (∀ u wd d,
       daysOffOfRows
         (worker_availability
            (upsertAvailability
               {| av_user_id := u; weekday := wd; is_off := false |} d))
       = daysOffOfRows (worker_availability (deleteAvailability u wd d))).
Proof.
  split; [intros w Hf; by rewrite loadDaysOff_run, Hf|].
  split; [exact daysOffOfRows_ext|]. split.
  - intros l1 r l2 Hoff. apply daysOffOfRows_ext. intros x Hx.
    rewrite !elem_of_app, elem_of_cons. split; [|tauto].
    intros [H|[ ->|H]]; [tauto|congruence|tauto].
  - intros u wd d. apply daysOffOfRows_ext. intros r Hr.
    by apply upsert_false_off_rows.
Qed.

End Toggles.

Section Availability.
Import JSDate Repo AdminDashboard.

Lemma toggleWorkerOffDay_success u wd isOff (m : gmap string (gset Z)) w :
  failing w = None →
  toggleWorkerOffDay u wd isOff m w
  = ((<[u := if isOff then default ∅ (m !! u) ∪ {[wd]}
             else default ∅ (m !! u) ∖ {[wd]}]> m,
      "Worker days off updated"),
     {| db := if isOff
              then upsertAvailability
                     {| av_user_id := u; weekday := wd; is_off := true |} (db w)
              else deleteAvailability u wd (db w);
        faults := tail (faults w) |}).
Proof.
  unfold failing, toggleWorkerOffDay, mbind, M_bind, mutate, request.
  destruct isOff; destruct (faults w) as [|[msg|] fs]; intros H;
    try discriminate; reflexivity.
Qed.

Lemma toggleDayOff_success u wd newIsOff workers w :
  failing w = None →
  db (AdminDashboard2.toggleDayOff u wd newIsOff workers w).2
  = upsertAvailability
      {| av_user_id := u; weekday := wd; is_off := newIsOff |} (db w).
Proof.
  unfold failing, AdminDashboard2.toggleDayOff, mbind, M_bind, mutate, request.
  destruct (faults w) as [|[msg|] fs]; intros H; try discriminate; reflexivity.
Qed.

Lemma isAvailable_known d u date :
  knownWorker d u →
  Generator.isAvailable d u date
  = inr (negb (Generator.offRule (worker_availability d) u (weekdayOfDay date))).
Proof. unfold knownWorker, Generator.isAvailable. by intros ->. Qed.

Lemma offRule_after_upsert u wd b d :
  Generator.offRule
    (worker_availability
       (upsertAvailability {| av_user_id := u; weekday := wd; is_off := b |} d))
    u wd = b.
Proof.
  rewrite offRule_find.
  pose proof (find_after_upsert
                {| av_user_id := u; weekday := wd; is_off := b |} d) as H.
  cbn [av_user_id weekday] in H. rewrite H. reflexivity.
Qed.

Lemma offRule_after_delete u wd d :
  Generator.offRule (worker_availability (deleteAvailability u wd d)) u wd = false.
Proof. rewrite offRule_find, find_after_delete. reflexivity. Qed.

(** The week of a worker built by [loadWorkersAvailability] shows, for each
    of its seven days, what the rule row of that day says. *)
Lemma find_fullWeek existing idx :
  idx ∈ AdminDashboard2.weekdays →
  List.find (λ d, bool_decide (AdminDashboard2.da_weekday d = idx))
            (AdminDashboard2.fullWeek existing)
  = Some (default {| AdminDashboard2.da_weekday := idx;
                     AdminDashboard2.da_is_off := false |}
            (List.find (λ d, bool_decide (AdminDashboard2.da_weekday d = idx))
                       existing)).
Proof.
  unfold AdminDashboard2.fullWeek.
  set (f := λ i, default _ _).
  assert (Hf : ∀ i, AdminDashboard2.da_weekday (f i) = i).
  { intros i. unfold f.
    destruct (List.find _ existing) as [x|] eqn:E; simpl; [|done].
    apply find_some in E as [_ E]. by apply bool_decide_eq_true in E. }
  induction AdminDashboard2.weekdays as [|i l IH]; intros Hin; [inversion Hin|].
  simpl. rewrite Hf. destruct (bool_decide_reflect (i = idx)) as [->|Hne].
  - reflexivity.
  - apply IH. apply elem_of_cons in Hin as [Hin|Hin]; [congruence|done].
Qed.

Lemma isOffDay_toWorkerRow p rules idx :
  idx ∈ AdminDashboard2.weekdays →
  AdminDashboard2.isOffDay
    (AdminDashboard2.toWorkerRow
       (p, List.filter (λ r, bool_decide (av_user_id r = user_id p)) rules)) idx
  = Generator.offRule rules (user_id p) idx.
Proof.
  intros Hin. unfold AdminDashboard2.isOffDay, AdminDashboard2.toWorkerRow.
  cbn [AdminDashboard2.availability snd fst].
  rewrite (find_fullWeek _ idx Hin). rewrite offRule_find.
  induction rules as [|r rules IH]; simpl; [done|].
  unfold sameDay at 1.
  destruct (bool_decide_reflect (av_user_id r = user_id p)) as [Hu|Hu]; simpl.
  - destruct (bool_decide_reflect (weekday r = idx)) as [Hw|Hw]; simpl; [done|].
    exact IH.
  - exact IH.
Qed.

(** C3: for a worker with a profile and a table with at most one row per
    (worker, weekday), [isAvailable(worker, date)] answers false exactly
    when the table has a row of that worker and of the weekday of the date
    with [is_off = true]; without any row for that day it answers true.
    Both dashboards show the same: the checkbox of the day is checked
    exactly when the worker is not available.  After a successful toggle to
    [isOff] (either dashboard) the answer is [not isOff] at once, in the
    table and in the state of the page, and the table still has at most one
    row per (worker, weekday); so ticking the box of an available worker, or
    clearing the box of a worker who is off, flips the answer. *)
Theorem isAvailable_iff_off_row d u date :
  knownWorker d u → oneRowPerDay (worker_availability d) →
  let wd := weekdayOfDay date in
  (Generator.isAvailable d u date = inr false
   ↔ ∃ r, r ∈ worker_availability d
          ∧ is_off r = true ∧ av_user_id r = u ∧ weekday r = wd)
  ∧ ((∀ r, r ∈ worker_availability d → ruleKey r ≠ (u, wd)) →
     Generator.isAvailable d u date = inr true)
  ∧ Generator.isAvailable d u date
    = inr (negb (checked (daysOffOfRows (worker_availability d)) u wd))
  ∧ (∀ p, user_id p = u → wd ∈ AdminDashboard2.weekdays →
       Generator.isAvailable d u date
       = inr (negb (AdminDashboard2.isOffDay
                      (AdminDashboard2.toWorkerRow
                         (p, List.filter
                               (λ r, bool_decide (av_user_id r = user_id p))
                               (worker_availability d))) wd)))
  ∧ (∀ w m isOff, db w = d → failing w = None →
       let out := toggleWorkerOffDay u wd isOff m w in
       Generator.isAvailable (db out.2) u date = inr (negb isOff)
       ∧ checked out.1.1 u wd = isOff
       ∧ oneRowPerDay (worker_availability (db out.2)))
  ∧ (∀ w workers newIsOff, db w = d → failing w = None →
       let out := AdminDashboard2.toggleDayOff u wd newIsOff workers w in
       Generator.isAvailable (db out.2) u date = inr (negb newIsOff)
       ∧ oneRowPerDay (worker_availability (db out.2)))
  ∧ (∀ w m workers b, db w = d → failing w = None →
       Generator.isAvailable d u date = inr b →
       Generator.isAvailable (db (toggleWorkerOffDay u wd b m w).2) u date
       = inr (negb b)
       ∧ Generator.isAvailable
           (db (AdminDashboard2.toggleDayOff u wd b workers w).2) u date
         = inr (negb b)).
Proof.
  intros Hk Hone wd.
  pose proof (isAvailable_known d u date Hk) as Hav. fold wd in Hav.
  pose proof (offRule_true_iff (worker_availability d) u wd Hone) as Hiff.
  assert (Hchk : checked (daysOffOfRows (worker_availability d)) u wd
                 = Generator.offRule (worker_availability d) u wd).
  { apply eq_true_iff_eq. rewrite checked_iff. symmetry. exact Hiff. }
  assert (Htoggle : ∀ w m isOff, db w = d → failing w = None →
            Generator.isAvailable (db (toggleWorkerOffDay u wd isOff m w).2) u date
            = inr (negb isOff)).
  { intros w m isOff Hd Hf.
    rewrite (toggleWorkerOffDay_success _ _ _ _ _ Hf). simpl. rewrite Hd.
    rewrite isAvailable_known by (by destruct isOff). fold wd.
    destruct isOff; [by rewrite offRule_after_upsert|by rewrite offRule_after_delete]. }
  assert (Htoggle2 : ∀ w workers isOff, db w = d → failing w = None →
            Generator.isAvailable
              (db (AdminDashboard2.toggleDayOff u wd isOff workers w).2) u date
            = inr (negb isOff)).
  { intros w workers isOff Hd Hf.
    rewrite (toggleDayOff_success _ _ _ _ _ Hf), Hd.
    rewrite isAvailable_known by exact Hk. fold wd.
    by rewrite offRule_after_upsert. }
  split; [|split; [|split; [|split; [|split; [|split]]]]].
  - rewrite Hav, <- Hiff.
    destruct (Generator.offRule _ u wd); simpl; split; congruence.
  - intros Hnone. rewrite Hav. f_equal.
    destruct (Generator.offRule _ u wd) eqn:E; [|done].
    apply (offRule_true_iff _ _ _ Hone) in E as (r & Hin & _ & Hu & Hw).
    exfalso. apply (Hnone r Hin). unfold ruleKey. by rewrite Hu, Hw.
  - by rewrite Hav, Hchk.
  - intros p Hp Hwd. rewrite Hav, isOffDay_toWorkerRow by exact Hwd.
    by rewrite Hp.
  - intros w m isOff Hd Hf out. subst out.
    rewrite (toggleWorkerOffDay_success _ _ _ _ _ Hf). simpl. rewrite Hd.
    destruct isOff.
    + split; [|split].
      * rewrite isAvailable_known by exact Hk. fold wd.
        by rewrite offRule_after_upsert.
      * unfold checked. rewrite lookup_insert_eq. simpl.
        apply bool_decide_eq_true, elem_of_union. right.
        by apply elem_of_singleton.
      * by apply upsert_keeps_one_row.
    + split; [|split].
      * rewrite isAvailable_known by exact Hk. fold wd.
        by rewrite offRule_after_delete.
      * unfold checked. rewrite lookup_insert_eq. simpl.
        apply bool_decide_eq_false. intros [_ H]%elem_of_difference.
        apply H. by apply elem_of_singleton.
      * by apply delete_keeps_one_row.
  - intros w workers newIsOff Hd Hf out. subst out.
    rewrite (toggleDayOff_success _ _ _ _ _ Hf), Hd. split.
    + rewrite isAvailable_known by exact Hk. fold wd.
      by rewrite offRule_after_upsert.
    + by apply upsert_keeps_one_row.
  - intros w m workers b Hd Hf _. split; [by apply Htoggle|by apply Htoggle2].
Qed.

End Availability.

Lemma isAvailable_iff_off_row_witness :
  let d := {| Repo.rooms := []; Repo.cleaning_levels := [];
              Repo.profiles :=
                [{| Repo.user_id := "D"; Repo.full_name := Some "Dana";
                    Repo.role := Repo.worker; Repo.active := true |}];
              Repo.worker_availability :=
                [{| Repo.av_user_id := "D"; Repo.weekday := 1;
                    Repo.is_off := true |}];
              Repo.tasks := []; Repo.task_assignments := [] |} in
  Generator.isAvailable d "D" (JSDate.isoDate 2024 6 3) = inr false.
Proof.
  intros d.
  assert (Hk : knownWorker d "D") by reflexivity.
  assert (Hone : oneRowPerDay (Repo.worker_availability d))
    by (unfold oneRowPerDay; simpl; apply NoDup_singleton).
  destruct (isAvailable_iff_off_row d "D" (JSDate.isoDate 2024 6 3) Hk Hone)
    as [[_ H] _].
  apply H.
  exists {| Repo.av_user_id := "D"; Repo.weekday := 1; Repo.is_off := true |}.
  repeat split. simpl. left.
Defined.

(** ** Sorting and insertion-ordered maps *)

Section SortFacts.
Context {A : Type} (cmp : A → A → Z).

Lemma insertSorted_perm x l : insertSorted cmp x l ≡ₚ x :: l.
Proof.
  induction l as [|y l IH]; simpl; [done|].
  destruct (cmp x y <=? 0); [done|].
  rewrite IH. apply Permutation_swap.
Qed.

Lemma sortBy_perm l : sortBy cmp l ≡ₚ l.
Proof.
  induction l as [|x l IH]; simpl; [done|].
  fold (sortBy cmp l). rewrite insertSorted_perm. by rewrite IH.
Qed.

Lemma sortBy_elem x l : x ∈ sortBy cmp l ↔ x ∈ l.
Proof. by rewrite sortBy_perm. Qed.

Hypothesis cmp_total : ∀ a b, cmp a b <= 0 ∨ cmp b a <= 0.

Lemma insertSorted_hd x a l :
  cmpLe cmp a x → HdRel (cmpLe cmp) a l → HdRel (cmpLe cmp) a (insertSorted cmp x l).
Proof.
  intros Hax Hl. destruct l as [|y l]; simpl; [by constructor|].
  destruct (cmp x y <=? 0); constructor; [done|by inversion Hl].
Qed.

Lemma insertSorted_sorted x l :
  Sorted (cmpLe cmp) l → Sorted (cmpLe cmp) (insertSorted cmp x l).
Proof.
  induction l as [|y l IH]; simpl; intros Hs.
  - repeat constructor.
  - destruct (Z.leb_spec (cmp x y) 0) as [Hle|Hgt].
    + constructor; [done|]. by constructor.
    + inversion Hs as [|? ? Hs' Hhd]; subst.
      constructor; [by apply IH|].
      apply insertSorted_hd; [|done].
      destruct (cmp_total y x) as [H|H]; [done|]. unfold cmpLe in *. lia.
Qed.

Lemma sortBy_sorted l : Sorted (cmpLe cmp) (sortBy cmp l).
Proof.
  induction l as [|x l IH]; simpl; [constructor|].
  by apply insertSorted_sorted.
Qed.

End SortFacts.

Section MapFacts.
Context {K V : Type} `{EqDecision K}.
Implicit Types (m : list (K * V)) (k : K) (v : V).

Lemma get_set_eq k v m : JSMap.get k (JSMap.set k v m) = Some v.
Proof.
  induction m as [|[k' v'] m IH]; simpl.
  - by rewrite decide_True.
  - destruct (decide (k = k')) as [->|Hne]; simpl.
    + by rewrite decide_True.
    + by rewrite decide_False.
Qed.

Lemma get_set_ne k k' v m :
  k ≠ k' → JSMap.get k' (JSMap.set k v m) = JSMap.get k' m.
Proof.
  intros Hne. induction m as [|[k0 v0] m IH]; simpl.
  - by rewrite decide_False.
  - destruct (decide (k = k0)) as [->|Hne0]; simpl.
    + by rewrite !decide_False.
    + destruct (decide (k' = k0)); [done|exact IH].
Qed.

Lemma get_elem k v m : JSMap.get k m = Some v → (k, v) ∈ m.
Proof.
  induction m as [|[k' v'] m IH]; simpl; [discriminate|].
  destruct (decide (k = k')) as [->|Hne].
  - intros H. injection H as ->. left.
  - intros H. right. by apply IH.
Qed.

Lemma get_None_keys k m : JSMap.get k m = None ↔ k ∉ JSMap.keys m.
Proof.
  induction m as [|[k' v'] m IH]; simpl.
  - split; [intros _ H; inversion H|done].
  - rewrite not_elem_of_cons. destruct (decide (k = k')) as [->|Hne].
    + split; [discriminate|]. intros [H _]. done.
    + rewrite IH. tauto.
Qed.

Lemma elem_get k v m : NoDup (JSMap.keys m) → (k, v) ∈ m → JSMap.get k m = Some v.
Proof.
  induction m as [|[k' v'] m IH]; simpl; intros Hnd Hin; [inversion Hin|].
  apply NoDup_cons in Hnd as [Hk Hnd].
  apply elem_of_cons in Hin as [Heq|Hin].
  - injection Heq as -> ->. by rewrite decide_True.
  - destruct (decide (k = k')) as [->|Hne]; [|by apply IH].
    exfalso. apply Hk. apply list_elem_of_fmap. by exists (k', v).
Qed.

Lemma keys_set k v m :
  JSMap.keys (JSMap.set k v m)
  = match JSMap.get k m with
    | Some _ => JSMap.keys m
    | None => (JSMap.keys m ++ [k])%list
    end.
Proof.
  induction m as [|[k' v'] m IH]; simpl; [done|].
  destruct (decide (k = k')) as [->|Hne]; simpl; [done|].
  rewrite IH. by destruct (JSMap.get k m).
Qed.

Lemma keys_set_NoDup k v m :
  NoDup (JSMap.keys m) → NoDup (JSMap.keys (JSMap.set k v m)).
Proof.
  intros Hnd. rewrite keys_set. destruct (JSMap.get k m) eqn:E; [done|].
  apply NoDup_app. split; [done|]. split; [|apply NoDup_singleton].
  intros x Hx Hx'. apply list_elem_of_singleton in Hx'. subst x.
  by apply get_None_keys in E.
Qed.

Lemma elem_keys_set k k' v m :
  k' ∈ JSMap.keys (JSMap.set k v m) ↔ k' = k ∨ k' ∈ JSMap.keys m.
Proof.
  rewrite keys_set. destruct (JSMap.get k m) eqn:E.
  - split; [tauto|]. intros [->|H]; [|done].
    apply get_elem in E. apply list_elem_of_fmap. by exists (k, v0).
  - rewrite elem_of_app, list_elem_of_singleton. tauto.
Qed.

(** Writing a key changes the sum of a measure by the difference between
    the new value and the one it replaces. *)
Lemma sum_set (f : V → nat) k v m :
  (sum_list (f <$> JSMap.values (JSMap.set k v m))
   + default 0 (f <$> JSMap.get k m)
   = sum_list (f <$> JSMap.values m) + f v)%nat.
Proof.
  unfold JSMap.values.
  induction m as [|[k' v'] m IH]; simpl; [lia|].
  destruct (decide (k = k')) as [->|Hne]; simpl; unfold fmap in *; lia.
Qed.

(** What a key holds after a write, through a predicate on entries. *)
Lemma Forall_set (P : K * V → Prop) k v m :
  P (k, v) → Forall P m → Forall P (JSMap.set k v m).
Proof.
  intros Hkv. induction m as [|[k' v'] m IH]; simpl; intros Hm.
  - by constructor.
  - apply Forall_cons in Hm as [H Hm].
    destruct (decide (k = k')); constructor; auto.
Qed.

End MapFacts.

(** ** The weekly summary of the second dashboard *)

Section WeeklySummary.
Import JSDate Repo AdminDashboard2.
Implicit Types (m : list (string * WeeklySummaryRow)) (row : WeekRow).

Lemma startWeeklySummary_spec workers :
  wellKeyed (startWeeklySummary workers)
  ∧ Forall (λ p, total p.2 = 0%nat ∧ perDay p.2 = ∅) (startWeeklySummary workers)
  ∧ ∀ w, w ∈ workers → wk_user_id w ∈ JSMap.keys (startWeeklySummary workers).
Proof.
  unfold startWeeklySummary.
  set (step := λ m w, JSMap.set (wk_user_id w) _ m).
  assert (H : ∀ ws m,
    wellKeyed m → Forall (λ p, total p.2 = 0%nat ∧ perDay p.2 = ∅) m →
    wellKeyed (foldl step m ws)
    ∧ Forall (λ p, total p.2 = 0%nat ∧ perDay p.2 = ∅) (foldl step m ws)
    ∧ ∀ k, (k ∈ JSMap.keys m ∨ ∃ w, w ∈ ws ∧ wk_user_id w = k) →
           k ∈ JSMap.keys (foldl step m ws)).
  { induction ws as [|w ws IH]; intros m [Hnd Hk] Hz; simpl.
    - split; [done|]. split; [done|].
      intros k [H|(w & Hw & _)]; [done|inversion Hw].
    - destruct (IH (step m w)) as (H1 & H2 & H3).
      + split; [by apply keys_set_NoDup|]. by apply Forall_set.
      + by apply Forall_set.
      + split; [done|]. split; [done|].
        intros k [H|(w' & Hw' & Hk')]; apply H3.
        * left. apply elem_keys_set. by right.
        * apply elem_of_cons in Hw' as [->|Hw'].
          -- left. apply elem_keys_set. by left.
          -- right. by exists w'. }
  destruct (H workers []) as (H1 & H2 & H3).
  - split; [constructor|constructor].
  - constructor.
  - split; [done|]. split; [done|].
    intros w Hw. apply H3. right. by exists w.
Qed.

Lemma addWeekRow_wellKeyed m row : wellKeyed m → wellKeyed (addWeekRow m row).
Proof.
  intros [Hnd Hk]. unfold addWeekRow.
  destruct (wr_task_date row) as [date|]; [|done].
  split; [by apply keys_set_NoDup|].
  apply Forall_set; [|done]. simpl.
  destruct (JSMap.get (wr_user_id row) m) as [e|] eqn:E; simpl; [|done].
  apply get_elem in E. rewrite Forall_forall in Hk. apply (Hk _ E).
Qed.

Lemma addWeekRow_keys m row k :
  k ∈ JSMap.keys m → k ∈ JSMap.keys (addWeekRow m row).
Proof.
  intros H. unfold addWeekRow.
  destruct (wr_task_date row); [|done]. apply elem_keys_set. by right.
Qed.

Lemma foldl_addWeekRow_wellKeyed data : ∀ m,
  wellKeyed m → wellKeyed (foldl addWeekRow m data).
Proof.
  induction data as [|row data IH]; intros m H; simpl; [done|].
  by apply IH, addWeekRow_wellKeyed.
Qed.

Lemma foldl_addWeekRow_keys data : ∀ m k,
  k ∈ JSMap.keys m → k ∈ JSMap.keys (foldl addWeekRow m data).
Proof.
  induction data as [|row data IH]; intros m k H; simpl; [done|].
  by apply IH, addWeekRow_keys.
Qed.

(** One turn of the loop, seen from a worker and from a worker's day. *)
Lemma totalOf_addWeekRow u m row :
  totalOf u (addWeekRow m row)
  = (totalOf u m + if rowOf u row then 1 else 0)%nat.
Proof.
  unfold totalOf, addWeekRow, rowOf, dated.
  destruct (wr_task_date row) as [date|]; simpl; [|lia].
  destruct (bool_decide_reflect (wr_user_id row = u)) as [Heq|Hne].
  - rewrite Heq, get_set_eq. simpl.
    destruct (JSMap.get u m); simpl; lia.
  - rewrite get_set_ne by done. lia.
Qed.

Lemma cellOf_addWeekRow u date m row :
  cellOf u date (addWeekRow m row)
  = if rowOn u date row then bumpCell (wr_room_name row) (cellOf u date m)
    else cellOf u date m.
Proof.
  unfold cellOf, addWeekRow, rowOn.
  destruct (wr_task_date row) as [d|]; simpl.
  - destruct (bool_decide_reflect (wr_user_id row = u)) as [Heq|Hne]; simpl.
    + rewrite Heq, get_set_eq. simpl.
      destruct (bool_decide_reflect (Some d = Some date)) as [Hd|Hd].
      * injection Hd as Hd. rewrite Hd, lookup_insert_eq. simpl.
        destruct (JSMap.get u m) as [e|]; simpl; [done|].
        by rewrite lookup_empty.
      * rewrite lookup_insert_ne by congruence.
        destruct (JSMap.get u m) as [e|]; simpl; [done|].
        by rewrite lookup_empty.
    + by rewrite get_set_ne.
  - rewrite andb_false_r. done.
Qed.

Lemma totalOf_foldl u data : ∀ m,
  totalOf u (foldl addWeekRow m data)
  = (totalOf u m + length (List.filter (rowOf u) data))%nat.
Proof.
  induction data as [|row data IH]; intros m; simpl; [lia|].
  rewrite IH, totalOf_addWeekRow.
  destruct (rowOf u row); simpl; lia.
Qed.

Lemma sum_total_addWeekRow m row :
  sum_list (total <$> JSMap.values (addWeekRow m row))
  = (sum_list (total <$> JSMap.values m) + if dated row then 1 else 0)%nat.
Proof.
  unfold addWeekRow, dated.
  destruct (wr_task_date row) as [date|]; [|lia].
  pose proof (sum_set total (wr_user_id row)
    (bumpSummary date (wr_room_name row)
       (default (created (wr_user_id row)) (JSMap.get (wr_user_id row) m))) m) as H.
  destruct (JSMap.get (wr_user_id row) m) as [e|]; simpl in *; lia.
Qed.

Lemma sum_total_foldl data : ∀ m,
  sum_list (total <$> JSMap.values (foldl addWeekRow m data))
  = (sum_list (total <$> JSMap.values m) + length (List.filter dated data))%nat.
Proof.
  induction data as [|row data IH]; intros m; simpl; [lia|].
  rewrite IH, sum_total_addWeekRow.
  destruct (dated row); simpl; lia.
Qed.

Lemma bumpCell_count r c : count (bumpCell r c) = (count c + 1)%nat.
Proof. reflexivity. Qed.

Lemma bumpCell_rooms r c n :
  n ∈ dc_rooms (bumpCell r c) ↔ n ∈ dc_rooms c ∨ (r = Some n ∧ n ≠ "").
Proof.
  unfold bumpCell, includes. simpl. destruct r as [x|].
  - destruct (bool_decide_reflect (x = "")) as [Hx|Hx]; simpl.
    + split; [by left|]. intros [H|[[= ->] H]]; done.
    + destruct (bool_decide_reflect (x ∈ dc_rooms c)) as [Hin|Hin]; simpl.
      * split; [by left|]. intros [H|[[= ->] H]]; done.
      * rewrite elem_of_app, list_elem_of_singleton. split.
        -- intros [H| ->]; [by left|by right].
        -- intros [H|[[= ->] H]]; [by left|by right].
  - split; [by left|]. intros [H|[H _]]; done.
Qed.

Lemma bumpCell_NoDup r c : NoDup (dc_rooms c) → NoDup (dc_rooms (bumpCell r c)).
Proof.
  intros Hnd. unfold bumpCell, includes. simpl. destruct r as [x|]; [|done].
  destruct (bool_decide_reflect (x = "")); simpl; [done|].
  destruct (bool_decide_reflect (x ∈ dc_rooms c)) as [Hin|Hin]; simpl; [done|].
  apply NoDup_app. split; [done|]. split; [|apply NoDup_singleton].
  intros y Hy Hy'. apply list_elem_of_singleton in Hy'. by subst y.
Qed.

Lemma cellOf_foldl_count u date data : ∀ m,
  count (cellOf u date (foldl addWeekRow m data))
  = (count (cellOf u date m) + length (List.filter (rowOn u date) data))%nat.
Proof.
  induction data as [|row data IH]; intros m; simpl; [lia|].
  rewrite IH, cellOf_addWeekRow.
  destruct (rowOn u date row); simpl; lia.
Qed.

Lemma cellOf_foldl_NoDup u date data : ∀ m,
  NoDup (dc_rooms (cellOf u date m)) →
  NoDup (dc_rooms (cellOf u date (foldl addWeekRow m data))).
Proof.
  induction data as [|row data IH]; intros m H; simpl; [done|].
  apply IH. rewrite cellOf_addWeekRow.
  destruct (rowOn u date row); [by apply bumpCell_NoDup|done].
Qed.

Lemma cellOf_foldl_rooms u date n data : ∀ m,
  n ∈ dc_rooms (cellOf u date (foldl addWeekRow m data))
  ↔ n ∈ dc_rooms (cellOf u date m)
    ∨ (n ≠ "" ∧ ∃ row, row ∈ data ∧ rowOn u date row = true
                       ∧ wr_room_name row = Some n).
Proof.
  induction data as [|row data IH]; intros m; simpl.
  - split; [by left|]. intros [H|(_ & row & Hr & _)]; [done|inversion Hr].
  - rewrite IH, cellOf_addWeekRow. clear IH.
    destruct (rowOn u date row) eqn:E.
    + rewrite bumpCell_rooms. split.
      * intros [[H|[Hr Hn]]|(Hn & r & Hin & H)].
        -- by left.
        -- right. split; [done|]. exists row. split; [left|done].
        -- right. split; [done|]. exists r. split; [by right|done].
      * intros [H|(Hn & r & Hin & Hon & Hr)]; [by left; left|].
        apply elem_of_cons in Hin as [->|Hin]; [left; right; done|].
        right. split; [done|]. by exists r.
    + split.
      * intros [H|(Hn & r & Hin & H)]; [by left|].
        right. split; [done|]. exists r. split; [by right|done].
      * intros [H|(Hn & r & Hin & Hon & Hr)]; [by left|].
        apply elem_of_cons in Hin as [->|Hin]; [congruence|].
        right. split; [done|]. by exists r.
Qed.

(** The start of the loop: every worker at zero. *)
Lemma totalOf_start u workers : totalOf u (startWeeklySummary workers) = 0%nat.
Proof.
  destruct (startWeeklySummary_spec workers) as (_ & Hz & _).
  unfold totalOf.
  destruct (JSMap.get u (startWeeklySummary workers)) as [e|] eqn:E; [|done].
  apply get_elem in E. rewrite Forall_forall in Hz. by destruct (Hz _ E).
Qed.

Lemma cellOf_start u date workers :
  cellOf u date (startWeeklySummary workers)
  = {| count := 0; dc_rooms := [] |}.
Proof.
  destruct (startWeeklySummary_spec workers) as (_ & Hz & _).
  unfold cellOf.
  destruct (JSMap.get u (startWeeklySummary workers)) as [e|] eqn:E; [|done].
  apply get_elem in E. rewrite Forall_forall in Hz.
  destruct (Hz _ E) as [_ Hp]. simpl in *. by rewrite Hp, lookup_empty.
Qed.

Section Sorted.
Variable localeCompare : string → string → Z.

(** An entry of the result is what the map holds under its own user id. *)
Lemma weeklySummaryOf_entry workers data e :
  e ∈ weeklySummaryOf localeCompare workers data →
  JSMap.get (wsr_user_id e)
            (foldl addWeekRow (startWeeklySummary workers) data) = Some e.
Proof.
  unfold weeklySummaryOf. rewrite sortBy_elem. unfold JSMap.values.
  intros Hin%list_elem_of_fmap. destruct Hin as ([k e'] & -> & Hin). simpl.
  destruct (startWeeklySummary_spec workers) as (Hwk & _ & _).
  apply (foldl_addWeekRow_wellKeyed data) in Hwk as [Hnd Hk].
  rewrite Forall_forall in Hk. pose proof (Hk _ Hin) as Hid. simpl in Hid.
  rewrite Hid. by apply elem_get.
Qed.

Lemma weeklySummaryOf_workers workers data w :
  w ∈ workers →
  ∃ e, e ∈ weeklySummaryOf localeCompare workers data
       ∧ wsr_user_id e = wk_user_id w.
Proof.
  intros Hw.
  destruct (startWeeklySummary_spec workers) as (Hwk & _ & Hkeys).
  pose proof (foldl_addWeekRow_keys data _ _ (Hkeys w Hw)) as Hin.
  apply (foldl_addWeekRow_wellKeyed data) in Hwk as [Hnd Hk].
  unfold JSMap.keys in Hin. apply list_elem_of_fmap in Hin as ([k e] & Hke & Hin).
  simpl in Hke. subst k. exists e. split.
  - unfold weeklySummaryOf. rewrite sortBy_elem. unfold JSMap.values.
    apply list_elem_of_fmap. by exists (wk_user_id w, e).
  - rewrite Forall_forall in Hk. apply (Hk _ Hin).
Qed.

Lemma weeklySummaryOf_total workers data e :
  e ∈ weeklySummaryOf localeCompare workers data →
  total e = length (List.filter (rowOf (wsr_user_id e)) data).
Proof.
  intros He. apply weeklySummaryOf_entry in He.
  pose proof (totalOf_foldl (wsr_user_id e) data (startWeeklySummary workers)) as H.
  rewrite totalOf_start in H. unfold totalOf in H. rewrite He in H. exact H.
Qed.

Lemma weeklySummaryOf_cell workers data e date :
  e ∈ weeklySummaryOf localeCompare workers data →
  cellAt e date
  = cellOf (wsr_user_id e) date
      (foldl addWeekRow (startWeeklySummary workers) data).
Proof.
  intros He. apply weeklySummaryOf_entry in He.
  unfold cellAt, cellOf. by rewrite He.
Qed.

Lemma weeklySummaryOf_sum workers data :
  sum_list (total <$> weeklySummaryOf localeCompare workers data)
  = length (List.filter dated data).
Proof.
  unfold weeklySummaryOf. rewrite sortBy_perm, sum_total_foldl.
  assert (Hz : sum_list (total <$> JSMap.values (startWeeklySummary workers)) = 0%nat).
  { destruct (startWeeklySummary_spec workers) as (_ & Hz & _).
    induction Hz as [|[k e] m [Ht _] _ IH]; simpl; [done|].
    simpl in Ht. unfold fmap in *. lia. }
  lia.
Qed.

End Sorted.
End WeeklySummary.

(** ** The daily summary of the second dashboard *)

Section DailySummary.
Import JSDate Repo AdminDashboard2.
Implicit Types (m : list (string * WorkerSummaryRow)).

Lemma foldl_tasks_flat taskRows : ∀ m,
  foldl (λ m task, foldl (addAssignee (tr_room_name task)) m (assignees task))
        m taskRows
  = foldl addPair m (assigneesWithRoom taskRows).
Proof.
  unfold assigneesWithRoom.
  induction taskRows as [|t ts IH]; intros m; simpl; [done|].
  rewrite foldl_app, IH. f_equal.
  generalize m. induction (assignees t) as [|a l IHl]; intros m'; simpl; [done|].
  by rewrite IHl.
Qed.

Lemma startWorkerSummary_spec workers :
  wellKeyedDay (startWorkerSummary workers)
  ∧ Forall (λ p, task_count p.2 = 0%nat) (startWorkerSummary workers)
  ∧ ∀ w, w ∈ workers → wk_user_id w ∈ JSMap.keys (startWorkerSummary workers).
Proof.
  unfold startWorkerSummary.
  set (step := λ m w, JSMap.set (wk_user_id w) _ m).
  assert (H : ∀ ws m,
    wellKeyedDay m → Forall (λ p, task_count p.2 = 0%nat) m →
    wellKeyedDay (foldl step m ws)
    ∧ Forall (λ p, task_count p.2 = 0%nat) (foldl step m ws)
    ∧ ∀ k, (k ∈ JSMap.keys m ∨ ∃ w, w ∈ ws ∧ wk_user_id w = k) →
           k ∈ JSMap.keys (foldl step m ws)).
  { induction ws as [|w ws IH]; intros m [Hnd Hk] Hz; simpl.
    - split; [done|]. split; [done|].
      intros k [H|(w & Hw & _)]; [done|inversion Hw].
    - destruct (IH (step m w)) as (H1 & H2 & H3).
      + split; [by apply keys_set_NoDup|].
        apply Forall_set; [|done]. simpl. split; [done|constructor].
      + by apply Forall_set.
      + split; [done|]. split; [done|].
        intros k [H|(w' & Hw' & Hk')]; apply H3.
        * left. apply elem_keys_set. by right.
        * apply elem_of_cons in Hw' as [->|Hw'].
          -- left. apply elem_keys_set. by left.
          -- right. by exists w'. }
  destruct (H workers []) as (H1 & H2 & H3).
  - split; [constructor|constructor].
  - constructor.
  - split; [done|]. split; [done|].
    intros w Hw. apply H3. right. by exists w.
Qed.

Lemma addPair_wellKeyed m p : wellKeyedDay m → wellKeyedDay (addPair m p).
Proof.
  intros [Hnd Hk]. unfold addPair, addAssignee.
  destruct (JSMap.get (as_user_id p.2) m) as [e|] eqn:E.
  - split; [by apply keys_set_NoDup|]. apply Forall_set; [|done]. simpl.
    apply get_elem in E. rewrite Forall_forall in Hk.
    destruct (Hk _ E) as [Hid Hr]. simpl in *. split; [done|].
    unfold includes.
    destruct (bool_decide_reflect (p.1 ∈ ws_rooms e)) as [Hin|Hin]; [done|].
    apply NoDup_app. split; [done|]. split; [|apply NoDup_singleton].
    intros y Hy Hy'. apply list_elem_of_singleton in Hy'. by subst y.
  - split; [by apply keys_set_NoDup|]. apply Forall_set; [|done]. simpl.
    split; [done|apply NoDup_singleton].
Qed.

Lemma addPair_keys m p k : k ∈ JSMap.keys m → k ∈ JSMap.keys (addPair m p).
Proof.
  intros H. unfold addPair, addAssignee.
  destruct (JSMap.get (as_user_id p.2) m); apply elem_keys_set; by right.
Qed.

Lemma countOf_addPair u m p :
  countOf u (addPair m p)
  = (countOf u m + if bool_decide (as_user_id p.2 = u) then 1 else 0)%nat.
Proof.
  unfold countOf, addPair, addAssignee.
  destruct (bool_decide_reflect (as_user_id p.2 = u)) as [Heq|Hne].
  - rewrite Heq. destruct (JSMap.get u m) as [e|] eqn:E;
      rewrite get_set_eq; simpl; lia.
  - destruct (JSMap.get (as_user_id p.2) m) as [e|];
      rewrite get_set_ne by done; lia.
Qed.

Lemma sum_count_addPair m p :
  sum_list (task_count <$> JSMap.values (addPair m p))
  = (sum_list (task_count <$> JSMap.values m) + 1)%nat.
Proof.
  unfold addPair, addAssignee.
  destruct (JSMap.get (as_user_id p.2) m) as [e|] eqn:E.
  - pose proof (sum_set task_count (as_user_id p.2)
      {| ws_user_id := ws_user_id e; ws_full_name := ws_full_name e;
         task_count := task_count e + 1;
         ws_rooms := if includes (ws_rooms e) p.1 then ws_rooms e
                     else ws_rooms e ++ [p.1] |} m) as H.
    rewrite E in H. simpl in H. lia.
  - pose proof (sum_set task_count (as_user_id p.2)
      {| ws_user_id := as_user_id p.2; ws_full_name := as_user_name p.2;
         task_count := 1; ws_rooms := [p.1] |} m) as H.
    rewrite E in H. simpl in H. lia.
Qed.

Lemma roomsOf_addPair u m p n :
  n ∈ roomsOf u (addPair m p)
  ↔ n ∈ roomsOf u m ∨ (as_user_id p.2 = u ∧ p.1 = n).
Proof.
  unfold roomsOf, addPair, addAssignee.
  destruct (decide (as_user_id p.2 = u)) as [Heq|Hne].
  - rewrite Heq. destruct (JSMap.get u m) as [e|] eqn:E;
      rewrite get_set_eq; simpl.
    + unfold includes.
      destruct (bool_decide_reflect (p.1 ∈ ws_rooms e)) as [Hin|Hin].
      * split; [by left|]. intros [H|[_ <-]]; done.
      * rewrite elem_of_app, list_elem_of_singleton. intuition congruence.
    + rewrite list_elem_of_singleton, elem_of_nil. intuition congruence.
  - destruct (JSMap.get (as_user_id p.2) m) as [e|];
      rewrite get_set_ne by done; intuition congruence.
Qed.

Lemma foldl_addPair_rooms u n ps : ∀ m,
  n ∈ roomsOf u (foldl addPair m ps)
  ↔ n ∈ roomsOf u m ∨ ∃ p, p ∈ ps ∧ as_user_id p.2 = u ∧ p.1 = n.
Proof.
  induction ps as [|p ps IH]; intros m; simpl.
  - split; [by left|]. intros [H|(p & Hp & _)]; [done|inversion Hp].
  - rewrite IH, roomsOf_addPair. split.
    + intros [[H|H]|(q & Hq & H)]; [by left| |].
      * right. exists p. split; [by left|done].
      * right. exists q. split; [by right|done].
    + intros [H|(q & Hq & H)]; [by left; left|].
      apply elem_of_cons in Hq as [-> |Hq]; [by left; right|].
      right. by exists q.
Qed.

Lemma startWorkerSummary_rooms workers :
  Forall (λ p, ws_rooms p.2 = []) (startWorkerSummary workers).
Proof.
  unfold startWorkerSummary.
  set (step := λ m w, JSMap.set (wk_user_id w) _ m).
  assert (H : ∀ ws m, Forall (λ p, ws_rooms p.2 = []) m →
                      Forall (λ p, ws_rooms p.2 = []) (foldl step m ws)).
  { induction ws as [|w ws IH]; intros m Hm; simpl; [done|].
    apply IH. by apply Forall_set. }
  apply H. constructor.
Qed.

Lemma foldl_addPair_spec ps : ∀ m,
  wellKeyedDay m →
  wellKeyedDay (foldl addPair m ps)
  ∧ (∀ k, k ∈ JSMap.keys m → k ∈ JSMap.keys (foldl addPair m ps))
  ∧ (∀ u, countOf u (foldl addPair m ps)
          = (countOf u m
             + length (List.filter (λ p, bool_decide (as_user_id p.2 = u)) ps))%nat)
  ∧ sum_list (task_count <$> JSMap.values (foldl addPair m ps))
    = (sum_list (task_count <$> JSMap.values m) + length ps)%nat.
Proof.
  induction ps as [|p ps IH]; intros m Hm; simpl.
  - repeat split; try done; try apply Hm; intros; lia.
  - destruct (IH (addPair m p) (addPair_wellKeyed m p Hm)) as (H1 & H2 & H3 & H4).
    split; [done|]. split; [|split].
    + intros k Hk. by apply H2, addPair_keys.
    + intros u. rewrite H3, countOf_addPair.
      destruct (bool_decide (as_user_id p.2 = u)); simpl; lia.
    + rewrite H4, sum_count_addPair. lia.
Qed.

End DailySummary.

(** ** The weekly rotation of [src/pages/AdminDashboard.tsx] *)

Section Rotation.
Import JSDate Repo AdminDashboard.
Implicit Types (bucket : list (IsoDate * string * RotationRow)).

Lemma codeUnitCompare_total a b :
  codeUnitCompare a b <= 0 ∨ codeUnitCompare b a <= 0.
Proof.
  unfold codeUnitCompare. rewrite (String.compare_antisym a b).
  destruct (String.compare b a); simpl; lia.
Qed.

Lemma rotationCmp_total localeCompare :
  (∀ a b, localeCompare a b <= 0 ∨ localeCompare b a <= 0) →
  ∀ a b, rotationCmp localeCompare a b <= 0 ∨ rotationCmp localeCompare b a <= 0.
Proof.
  intros Htot a b. unfold rotationCmp, orElse.
  destruct (Z.eqb_spec (rr_date a - rr_date b) 0) as [E|E];
    destruct (Z.eqb_spec (rr_date b - rr_date a) 0) as [E'|E']; try lia.
  apply Htot.
Qed.

Variable profileMap : gmap string string.

Lemma addToBucket_wellKeyed bucket row :
  wellKeyedBucket bucket → wellKeyedBucket (addToBucket profileMap bucket row).
Proof.
  intros [Hnd Hk]. unfold addToBucket.
  destruct (wr_task row) as [t|]; [|done].
  split; [by apply keys_set_NoDup|]. apply Forall_set; [|done]. simpl.
  destruct (JSMap.get _ bucket) as [b|] eqn:E; simpl.
  - apply get_elem in E. rewrite Forall_forall in Hk.
    destruct (Hk _ E) as (H1 & H2 & H3). simpl in *.
    split; [done|]. split; [lia|]. rewrite length_app. simpl. lia.
  - split; [done|]. split; [lia|done].
Qed.

Lemma bucketTotal_addToBucket key bucket row :
  bucketTotal key (addToBucket profileMap bucket row)
  = (bucketTotal key bucket + if inGroup profileMap key row then 1 else 0)%nat.
Proof.
  unfold bucketTotal, addToBucket, inGroup, groupOf.
  destruct (wr_task row) as [t|]; simpl; [|lia].
  set (k := (wt_task_date t, default "Unknown" (profileMap !! wr_user_id row))).
  destruct (bool_decide_reflect (Some k = Some key)) as [Heq|Hne].
  - injection Heq as Heq. rewrite Heq, get_set_eq. simpl.
    destruct (JSMap.get key bucket); simpl; lia.
  - rewrite get_set_ne by congruence. lia.
Qed.

Lemma sum_total_addToBucket bucket row :
  sum_list (rr_total <$> JSMap.values (addToBucket profileMap bucket row))
  = (sum_list (rr_total <$> JSMap.values bucket)
     + if hasTask row then 1 else 0)%nat.
Proof.
  unfold addToBucket, hasTask.
  destruct (wr_task row) as [t|]; [|lia].
  set (k := (wt_task_date t, default "Unknown" (profileMap !! wr_user_id row))).
  match goal with |- context [JSMap.set k ?v bucket] =>
    pose proof (sum_set rr_total k v bucket) as H end.
  destruct (JSMap.get k bucket) as [b|]; simpl in *; lia.
Qed.

Lemma bucketRooms_addToBucket key bucket row :
  bucketRooms key (addToBucket profileMap bucket row)
  = (bucketRooms key bucket
     ++ if inGroup profileMap key row then [roomOf row] else [])%list.
Proof.
  unfold bucketRooms, addToBucket, inGroup, groupOf, roomOf.
  destruct (wr_task row) as [t|]; simpl; [|by rewrite app_nil_r].
  set (k := (wt_task_date t, default "Unknown" (profileMap !! wr_user_id row))).
  destruct (bool_decide_reflect (Some k = Some key)) as [Heq|Hne].
  - injection Heq as Heq. rewrite Heq, get_set_eq. simpl.
    by destruct (JSMap.get key bucket).
  - rewrite get_set_ne by congruence. by rewrite app_nil_r.
Qed.

(** The rooms of a group are those of its rows, in the order of the
    rows. *)
Lemma foldl_addToBucket_rooms key data : ∀ bucket,
  bucketRooms key (foldl (addToBucket profileMap) bucket data)
  = (bucketRooms key bucket
     ++ map roomOf (List.filter (inGroup profileMap key) data))%list.
Proof.
  induction data as [|row data IH]; intros bucket; simpl.
  - by rewrite app_nil_r.
  - rewrite IH, bucketRooms_addToBucket.
    destruct (inGroup profileMap key row); simpl.
    + by rewrite <- app_assoc.
    + by rewrite app_nil_r.
Qed.

Lemma foldl_addToBucket_spec data : ∀ bucket,
  wellKeyedBucket bucket →
  wellKeyedBucket (foldl (addToBucket profileMap) bucket data)
  ∧ (∀ key, bucketTotal key (foldl (addToBucket profileMap) bucket data)
            = (bucketTotal key bucket
               + length (List.filter (inGroup profileMap key) data))%nat)
  ∧ sum_list (rr_total <$> JSMap.values (foldl (addToBucket profileMap) bucket data))
    = (sum_list (rr_total <$> JSMap.values bucket)
       + length (List.filter hasTask data))%nat.
Proof.
  induction data as [|row data IH]; intros bucket Hb; simpl.
  - split; [done|]. split; intros; lia.
  - destruct (IH _ (addToBucket_wellKeyed bucket row Hb)) as (H1 & H2 & H3).
    split; [done|]. split.
    + intros key. rewrite H2, bucketTotal_addToBucket.
      destruct (inGroup profileMap key row); simpl; lia.
    + rewrite H3, sum_total_addToBucket. destruct (hasTask row); simpl; lia.
Qed.

End Rotation.

Lemma wellKeyedBucket_nil : wellKeyedBucket [].
Proof. split; constructor. Qed.

Section RotationOut.
Import JSDate Repo AdminDashboard.
Variable localeCompare : string → string → Z.
Variable profileMap : gmap string string.

Lemma rotationOut_unfold data :
  rotationOut localeCompare profileMap data
  = sortBy (rotationCmp localeCompare)
      (map (λ r, {| rr_date := rr_date r; rr_worker := rr_worker r;
                    rr_rooms := sortBy codeUnitCompare (rr_rooms r);
                    rr_total := rr_total r |})
           (JSMap.values (foldl (addToBucket profileMap) [] data))).
Proof. reflexivity. Qed.

Lemma rotationOut_rows data r :
  r ∈ rotationOut localeCompare profileMap data →
  (1 <= rr_total r)%nat
  ∧ length (rr_rooms r) = rr_total r
  ∧ Sorted (cmpLe codeUnitCompare) (rr_rooms r)
  ∧ rr_total r
    = length (List.filter (inGroup profileMap (rr_date r, rr_worker r)) data).
Proof.
  rewrite rotationOut_unfold, sortBy_elem. unfold JSMap.values.
  rewrite list_elem_of_fmap. intros (r0 & -> & Hin).
  apply list_elem_of_fmap in Hin as ([k r1] & -> & Hin). simpl.
  destruct (foldl_addToBucket_spec profileMap data [] wellKeyedBucket_nil)
    as ([Hnd Hk] & Htot & _).
  rewrite Forall_forall in Hk. destruct (Hk _ Hin) as (Hkey & Hone & Hlen).
  simpl in *. split; [done|]. split; [|split].
  - by rewrite sortBy_perm.
  - apply sortBy_sorted, codeUnitCompare_total.
  - rewrite Hkey. specialize (Htot k). unfold bucketTotal in Htot.
    rewrite (elem_get _ _ _ Hnd Hin) in Htot. simpl in Htot. exact Htot.
Qed.

(** A row lists the rooms of the rows of its group, sorted. *)
Lemma rotationOut_rooms data r :
  r ∈ rotationOut localeCompare profileMap data →
  rr_rooms r
  = sortBy codeUnitCompare
      (map roomOf (List.filter (inGroup profileMap (rr_date r, rr_worker r))
                               data)).
Proof.
  rewrite rotationOut_unfold, sortBy_elem. unfold JSMap.values.
  rewrite list_elem_of_fmap. intros (r0 & -> & Hin).
  apply list_elem_of_fmap in Hin as ([k r1] & -> & Hin). simpl.
  destruct (foldl_addToBucket_spec profileMap data [] wellKeyedBucket_nil)
    as ([Hnd Hk] & _ & _).
  rewrite Forall_forall in Hk. destruct (Hk _ Hin) as (Hkey & _ & _).
  simpl in Hkey. rewrite Hkey.
  pose proof (foldl_addToBucket_rooms profileMap k data []) as Hrooms.
  unfold bucketRooms in Hrooms.
  rewrite (elem_get _ _ _ Hnd Hin) in Hrooms. simpl in Hrooms.
  by rewrite Hrooms.
Qed.

(** One row for each group that has a row of the week. *)
Lemma rotationOut_groups data :
  NoDup (map (λ r, (rr_date r, rr_worker r))
             (rotationOut localeCompare profileMap data))
  ∧ ∀ row key, row ∈ data → groupOf profileMap row = Some key →
      ∃ r, r ∈ rotationOut localeCompare profileMap data
           ∧ (rr_date r, rr_worker r) = key.
Proof.
  rewrite rotationOut_unfold.
  destruct (foldl_addToBucket_spec profileMap data [] wellKeyedBucket_nil)
    as ([Hnd Hk] & Htot & _).
  set (bucket := foldl (addToBucket profileMap) [] data) in *.
  rewrite Forall_forall in Hk.
  split.
  - rewrite sortBy_perm. unfold JSMap.values. rewrite !map_map.
    assert (Hkeys : map (λ p : IsoDate * string * RotationRow,
                           (rr_date p.2, rr_worker p.2)) bucket
                    = JSMap.keys bucket).
    { unfold JSMap.keys. apply map_ext_in. intros p Hp.
      apply list_elem_of_In, Hk in Hp. by destruct Hp. }
    simpl. by rewrite Hkeys.
  - intros row key Hrow Hgroup.
    specialize (Htot key). unfold bucketTotal in Htot.
    assert (Hpos : (1 <= length (List.filter (inGroup profileMap key) data))%nat).
    { assert (Hin : row ∈ List.filter (inGroup profileMap key) data).
      { apply list_elem_of_In, filter_In. split; [by apply list_elem_of_In|].
        unfold inGroup. by apply bool_decide_eq_true_2. }
      destruct (List.filter _ data); [inversion Hin|simpl; lia]. }
    destruct (JSMap.get key bucket) as [r0|] eqn:E; simpl in Htot; [|lia].
    apply get_elem in E. destruct (Hk _ E) as (Hkey & _). simpl in Hkey.
    eexists. split.
    + rewrite sortBy_elem. unfold JSMap.values.
      apply list_elem_of_fmap. eexists. split; [reflexivity|].
      apply list_elem_of_fmap. exists (key, r0). split; [reflexivity|done].
    + exact Hkey.
Qed.

Lemma rotationOut_sum data :
  sum_list (rr_total <$> rotationOut localeCompare profileMap data)
  = length (List.filter hasTask data).
Proof.
  rewrite rotationOut_unfold, sortBy_perm.
  destruct (foldl_addToBucket_spec profileMap data [] wellKeyedBucket_nil)
    as (_ & _ & Hsum).
  simpl in Hsum. rewrite <- Hsum. f_equal.
  rewrite <- list_fmap_compose. reflexivity.
Qed.

Lemma rotationOut_sorted data :
  (∀ a b, localeCompare a b <= 0 ∨ localeCompare b a <= 0) →
  Sorted (cmpLe (rotationCmp localeCompare))
         (rotationOut localeCompare profileMap data).
Proof.
  intros Htot. rewrite rotationOut_unfold.
  apply sortBy_sorted, rotationCmp_total, Htot.
Qed.

End RotationOut.

Section SummaryClaims.
Import JSDate Repo.

Lemma loadWeeklySummary_run lc tz workers anchor w :
  AdminDashboard2.loadWeeklySummary lc tz workers anchor w
  = match workers with
    | [] => (([], false), w)
    | _ :: _ =>
        match failing w with
        | Some _ => (([], true), {| db := db w; faults := tail (faults w) |})
        | None =>
            ((AdminDashboard2.weeklySummaryOf lc workers
                (AdminDashboard2.selectWeek (getWeekStart tz anchor)
                   (getWeekEnd tz (getWeekStart tz anchor)) (db w)), false),
             {| db := db w; faults := tail (faults w) |})
        end
    end.
Proof.
  unfold AdminDashboard2.loadWeeklySummary, failing.
  destruct workers as [|w0 ws]; [reflexivity|]. simpl.
  unfold mbind, M_bind, query, request.
  destruct (faults w) as [|[msg|] fs]; reflexivity.
Qed.

(** C4, as stated, fails on the weekly rotation of
    [src/pages/AdminDashboard.tsx]: with the workers Ann and Bob and one
    assignment, Ann's, in the week of 2024-06-03, the rotation has a single
    row, Ann's; Bob, who has nothing that week, is not in it. *)
Lemma rotation_omits_idle_worker :
  let d := {| rooms := [{| room_id := 1; room_name := "R1";
                           is_harvest := false; room_active := true |}];
              cleaning_levels := [{| level_id := 1; level_name := "L1" |}];
              profiles := [{| user_id := "u1"; full_name := Some "Ann";
                              role := worker; active := true |};
                           {| user_id := "u2"; full_name := Some "Bob";
                              role := worker; active := true |}];
              worker_availability := [];
              tasks := [{| task_id := 1; task_date := isoDate 2024 6 3;
                           task_room_id := 1; cleaning_level_id := 1;
                           is_harvest_shift := false |}];
              task_assignments :=
                [{| asg_id := 1; asg_task_id := 1; asg_user_id := "u1";
                    asg_status := not_started; started_at := None;
                    completed_at := None |}] |} in
  let out := AdminDashboard.loadWeeklyRotation codeUnitCompare 0
               (isoDate 2024 6 3) [] {| db := d; faults := [] |} in
  out.1 = ([{| AdminDashboard.rr_date := isoDate 2024 6 3;
               AdminDashboard.rr_worker := "Ann";
               AdminDashboard.rr_rooms := ["R1"];
               AdminDashboard.rr_total := 1 |}], None)
  ∧ ¬ ∃ r, r ∈ out.1.1 ∧ AdminDashboard.rr_worker r = "Bob".
Proof.
  vm_compute. split; [reflexivity|].
  intros (r & Hin & Hr). apply list_elem_of_singleton in Hin. subst r.
  discriminate.
Qed.

End SummaryClaims.

Section DailySummaryOut.
Import JSDate Repo AdminDashboard2.
Variable localeCompare : string → string → Z.

Lemma buildWorkerSummary_unfold workers taskRows :
  buildWorkerSummary localeCompare workers taskRows
  = sortBy (λ a b, localeCompare (ws_full_name a) (ws_full_name b))
      (JSMap.values (foldl addPair (startWorkerSummary workers)
                           (assigneesWithRoom taskRows))).
Proof. unfold buildWorkerSummary. by rewrite foldl_tasks_flat. Qed.

Lemma buildWorkerSummary_spec workers taskRows :
  let out := buildWorkerSummary localeCompare workers taskRows in
  (∀ w, w ∈ workers → ∃ e, e ∈ out ∧ ws_user_id e = wk_user_id w)
  ∧ (∀ e, e ∈ out →
       task_count e
       = length (List.filter (λ p, bool_decide (as_user_id p.2 = ws_user_id e))
                             (assigneesWithRoom taskRows))
       ∧ NoDup (ws_rooms e))
  ∧ sum_list (task_count <$> out) = length (assigneesWithRoom taskRows).
Proof.
  intros out. subst out. rewrite buildWorkerSummary_unfold.
  destruct (startWorkerSummary_spec workers) as (Hwk & Hz & Hkeys).
  destruct (foldl_addPair_spec (assigneesWithRoom taskRows) _ Hwk)
    as ([Hnd Hk] & Hmono & Hcount & Hsum).
  set (m := foldl addPair _ _) in *.
  rewrite Forall_forall in Hk.
  split; [|split].
  - intros w Hw. pose proof (Hmono _ (Hkeys w Hw)) as Hin.
    unfold JSMap.keys in Hin.
    apply list_elem_of_fmap in Hin as ([k e] & Hke & Hin). simpl in Hke. subst k.
    exists e. split.
    + rewrite sortBy_elem. unfold JSMap.values.
      apply list_elem_of_fmap. by exists (wk_user_id w, e).
    + by destruct (Hk _ Hin).
  - intros e. rewrite sortBy_elem. unfold JSMap.values.
    intros Hin%list_elem_of_fmap. destruct Hin as ([k e'] & -> & Hin). simpl.
    destruct (Hk _ Hin) as [Hid Hrooms]. simpl in *. split; [|done].
    specialize (Hcount k). unfold countOf in Hcount.
    rewrite (elem_get _ _ _ Hnd Hin) in Hcount. simpl in Hcount.
    rewrite Hid, Hcount.
    assert (Hz0 : default 0%nat (task_count <$> JSMap.get k (startWorkerSummary workers))
                  = 0%nat).
    { destruct (JSMap.get k (startWorkerSummary workers)) as [e0|] eqn:E; [|done].
      apply get_elem in E. rewrite Forall_forall in Hz. apply (Hz _ E). }
    rewrite Hz0. done.
  - rewrite sortBy_perm, Hsum.
    assert (Hz0 : sum_list (task_count <$> JSMap.values (startWorkerSummary workers))
                  = 0%nat).
    { clear -Hz. induction Hz as [|[k e] l Ht _ IH]; simpl; [done|].
      simpl in Ht. unfold fmap in *. lia. }
    lia.
Qed.

(** A row lists the rooms of the tasks its worker is assigned to. *)
Lemma buildWorkerSummary_rooms workers taskRows e n :
  e ∈ buildWorkerSummary localeCompare workers taskRows →
  n ∈ ws_rooms e
  ↔ ∃ p, p ∈ assigneesWithRoom taskRows
         ∧ as_user_id p.2 = ws_user_id e ∧ p.1 = n.
Proof.
  rewrite buildWorkerSummary_unfold, sortBy_elem. unfold JSMap.values.
  intros Hin%list_elem_of_fmap. destruct Hin as ([k e'] & -> & Hin). simpl.
  destruct (startWorkerSummary_spec workers) as (Hwk & _ & _).
  destruct (foldl_addPair_spec (assigneesWithRoom taskRows) _ Hwk)
    as ([Hnd Hk] & _).
  rewrite Forall_forall in Hk. destruct (Hk _ Hin) as [Hid _]. simpl in Hid.
  pose proof (foldl_addPair_rooms k n (assigneesWithRoom taskRows)
                (startWorkerSummary workers)) as H.
  unfold roomsOf at 1 in H. rewrite (elem_get _ _ _ Hnd Hin) in H.
  simpl in H. rewrite H, Hid.
  assert (H0 : roomsOf k (startWorkerSummary workers) = []).
  { unfold roomsOf.
    destruct (JSMap.get k (startWorkerSummary workers)) as [e0|] eqn:E; [|done].
    apply get_elem in E. pose proof (startWorkerSummary_rooms workers) as Hr.
    rewrite Forall_forall in Hr. apply (Hr _ E). }
  rewrite H0, elem_of_nil. split; [by intros [[]|H']|by right].
Qed.

Lemma buildWorkerSummary_sorted workers taskRows :
  (∀ a b, localeCompare a b <= 0 ∨ localeCompare b a <= 0) →
  Sorted (λ a b, localeCompare (ws_full_name a) (ws_full_name b) <= 0)
         (buildWorkerSummary localeCompare workers taskRows).
Proof.
  intros Htot. rewrite buildWorkerSummary_unfold.
  apply (sortBy_sorted (λ a b, localeCompare (ws_full_name a) (ws_full_name b))).
  intros a b. apply Htot.
Qed.

Lemma weeklySummaryOf_sorted workers data :
  (∀ a b, localeCompare a b <= 0 ∨ localeCompare b a <= 0) →
  Sorted (λ a b, localeCompare (wsr_full_name a) (wsr_full_name b) <= 0)
         (weeklySummaryOf localeCompare workers data).
Proof.
  intros Htot. unfold weeklySummaryOf.
  apply (sortBy_sorted (λ a b, localeCompare (wsr_full_name a) (wsr_full_name b))).
  intros a b. apply Htot.
Qed.

End DailySummaryOut.

Section LoadedWorkers.
Import JSDate Repo.

(** Each worker row loaded by [loadWorkersAvailability] is built from an
    active worker's profile and the rule rows of that worker. *)
Lemma loadWorkersAvailability_rows collate w row :
  failing w = None →
  (∃ l, (AdminDashboard2.loadWorkersAvailability collate w).1 = Data l
        ∧ (row ∈ l ↔
           ∃ p, p ∈ profiles (db w) ∧ role p = worker ∧ active p = true
                ∧ row = AdminDashboard2.toWorkerRow
                          (p, List.filter
                                (λ r, bool_decide (av_user_id r = user_id p))
                                (worker_availability (db w))))).
Proof.
  intros Hf. unfold AdminDashboard2.loadWorkersAvailability, mbind, M_bind.
  rewrite query_run, Hf. eexists. split; [reflexivity|].
  unfold AdminDashboard2.selectWorkers.
  rewrite list_elem_of_fmap. split.
  - intros (x & -> & Hx). apply list_elem_of_fmap in Hx as (p & -> & Hp).
    apply sortBy_elem in Hp.
    apply list_elem_of_In, filter_In in Hp as [Hin Hp].
    apply andb_true_iff in Hp as [Hr Ha]. apply bool_decide_eq_true in Hr.
    exists p. split; [by apply list_elem_of_In|done].
  - intros (p & Hin & Hr & Ha & ->). eexists. split; [reflexivity|].
    apply list_elem_of_fmap. exists p. split; [done|].
    apply sortBy_elem, list_elem_of_In, filter_In.
    split; [by apply list_elem_of_In|].
    apply andb_true_iff. split; [by apply bool_decide_eq_true|done].
Qed.

End LoadedWorkers.

Lemma filter_none {A} (f : A → bool) (l : list A) :
  (∀ x, x ∈ l → f x = false) → List.filter f l = [].
Proof.
  induction l as [|x l IH]; intros H; simpl; [done|].
  rewrite (H x) by left. apply IH. intros y Hy. apply H. by right.
Qed.

(** C4, amended: the summaries of the second dashboard list every loaded
    worker, and the loaded workers are the active workers of the table.
    The weekly summary ([loadWeeklySummary], when at least one
    worker is loaded and the request succeeds) has an entry for every
    worker; the [total] of an entry is the number of assignments of that
    worker among the rows of the week, so 0 for a worker without any; and
    the totals add up to the number N of those assignments.  With no worker
    loaded it is empty.  The daily summary ([buildWorkerSummary]) likewise
    has an entry for every worker, counting that worker's assignments of
    the day, the counts adding up to their number.  The weekly rotation of
    [src/pages/AdminDashboard.tsx] ([loadWeeklyRotation]) has a row only
    for a (date, worker) pair with at least one assignment: every row has a
    total of at least 1, and the totals add up to N as well. *)
Theorem summaries_list_all_workers (localeCompare : string → string → Z) :
  (∀ workers data,
     let out := AdminDashboard2.weeklySummaryOf localeCompare workers data in
     (∀ w, w ∈ workers →
        ∃ e, e ∈ out
             ∧ AdminDashboard2.wsr_user_id e = AdminDashboard2.wk_user_id w)
     ∧ (∀ e, e ∈ out →
          AdminDashboard2.total e
          = length (List.filter (rowOf (AdminDashboard2.wsr_user_id e)) data))
     ∧ (∀ e, e ∈ out →
          (∀ row, row ∈ data → rowOf (AdminDashboard2.wsr_user_id e) row = false) →
          AdminDashboard2.total e = 0%nat)
     ∧ sum_list (AdminDashboard2.total <$> out)
       = length (List.filter dated data))
  ∧ (∀ tz workers anchor w,
       workers ≠ [] → failing w = None →
       (AdminDashboard2.loadWeeklySummary localeCompare tz workers anchor w).1
       = (AdminDashboard2.weeklySummaryOf localeCompare workers
            (AdminDashboard2.selectWeek (JSDate.getWeekStart tz anchor)
               (JSDate.getWeekEnd tz (JSDate.getWeekStart tz anchor))
               (Repo.db w)), false))
  ∧ (∀ tz anchor w,
       (AdminDashboard2.loadWeeklySummary localeCompare tz [] anchor w).1
       = ([], false))
  ∧ (∀ collate w p,
       failing w = None → p ∈ Repo.profiles (Repo.db w) →
       Repo.role p = Repo.worker → Repo.active p = true →
       ∃ workers,
         (AdminDashboard2.loadWorkersAvailability collate w).1 = Repo.Data workers
         ∧ ∀ data,
             ∃ e, e ∈ AdminDashboard2.weeklySummaryOf localeCompare workers data
                  ∧ AdminDashboard2.wsr_user_id e = Repo.user_id p)
  ∧ (∀ workers taskRows,
       let out := AdminDashboard2.buildWorkerSummary localeCompare workers taskRows in
       (∀ w, w ∈ workers →
          ∃ e, e ∈ out
               ∧ AdminDashboard2.ws_user_id e = AdminDashboard2.wk_user_id w)
       ∧ (∀ e, e ∈ out →
            AdminDashboard2.task_count e
            = length (List.filter
                        (λ p, bool_decide (AdminDashboard2.as_user_id p.2
                                           = AdminDashboard2.ws_user_id e))
                        (assigneesWithRoom taskRows)))
       ∧ sum_list (AdminDashboard2.task_count <$> out)
         = length (assigneesWithRoom taskRows))
  ∧ (∀ profileMap data,
       let out := AdminDashboard.rotationOut localeCompare profileMap data in
       (∀ r, r ∈ out → (1 <= AdminDashboard.rr_total r)%nat)
       ∧ sum_list (AdminDashboard.rr_total <$> out)
         = length (List.filter hasTask data)).
Proof.
  split; [|split; [|split; [|split; [|split]]]].
  - intros workers data out. subst out. split; [|split; [|split]].
    + intros w Hw. by apply weeklySummaryOf_workers.
    + intros e He. by apply (weeklySummaryOf_total localeCompare workers).
    + intros e He Hnone.
      rewrite (weeklySummaryOf_total localeCompare workers data e He).
      by rewrite filter_none.
    + apply weeklySummaryOf_sum.
  - intros tz workers anchor w Hne Hf. rewrite loadWeeklySummary_run, Hf.
    destruct workers; [done|reflexivity].
  - intros tz anchor w. by rewrite loadWeeklySummary_run.
  - intros collate w p Hf Hin Hr Ha.
    destruct (loadWorkersAvailability_rows collate w
                (AdminDashboard2.toWorkerRow
                   (p, List.filter
                         (λ r, bool_decide (Repo.av_user_id r = Repo.user_id p))
                         (Repo.worker_availability (Repo.db w)))) Hf)
      as (workers & Hl & Hrow).
    exists workers. split; [exact Hl|]. intros data.
    apply (weeklySummaryOf_workers localeCompare workers data
             (AdminDashboard2.toWorkerRow
                (p, List.filter
                      (λ r, bool_decide (Repo.av_user_id r = Repo.user_id p))
                      (Repo.worker_availability (Repo.db w))))).
    apply Hrow. by exists p.
  - intros workers taskRows out. subst out.
    destruct (buildWorkerSummary_spec localeCompare workers taskRows)
      as (H1 & H2 & H3).
    split; [exact H1|]. split; [|exact H3].
    intros e He. by destruct (H2 e He).
  - intros profileMap data out. subst out. split.
    + intros r Hr. by destruct (rotationOut_rows _ _ _ _ Hr).
    + apply rotationOut_sum.
Qed.

(** C5, as stated, fails.  In the weekly summary of the second dashboard a
    worker cleaning "Lab B" and then "Lab A" on 2024-06-03 gets the rooms
    of that day in that order, unsorted.  In the weekly rotation of
    [src/pages/AdminDashboard.tsx] a worker with two assignments that day in
    rooms both named "Lab A" gets the name twice. *)
Lemma rooms_unsorted_or_repeated :
  let day := JSDate.isoDate 2024 6 3 in
  let ann := {| Repo.user_id := "u1"; Repo.full_name := Some "Ann";
                Repo.role := Repo.worker; Repo.active := true |} in
  let asg i t := {| Repo.asg_id := i; Repo.asg_task_id := t;
                    Repo.asg_user_id := "u1";
                    Repo.asg_status := Repo.not_started;
                    Repo.started_at := None; Repo.completed_at := None |} in
  let tsk i r := {| Repo.task_id := i; Repo.task_date := day;
                    Repo.task_room_id := r; Repo.cleaning_level_id := 1;
                    Repo.is_harvest_shift := false |} in
  let room i n := {| Repo.room_id := i; Repo.room_name := n;
                     Repo.is_harvest := false; Repo.room_active := true |} in
  let d names := {| Repo.rooms := [room 1 (names.1); room 2 (names.2)];
                    Repo.cleaning_levels := [];
                    Repo.profiles := [ann]; Repo.worker_availability := [];
                    Repo.tasks := [tsk 1 1; tsk 2 2];
                    Repo.task_assignments := [asg 1 1; asg 2 2] |} in
  let weekly :=
    (AdminDashboard2.loadWeeklySummary codeUnitCompare 0
       [AdminDashboard2.toWorkerRow (ann, [])] day
       {| Repo.db := d ("Lab B", "Lab A"); Repo.faults := [] |}).1.1 in
  let rotation :=
    (AdminDashboard.loadWeeklyRotation codeUnitCompare 0 day []
       {| Repo.db := d ("Lab A", "Lab A"); Repo.faults := [] |}).1.1 in
  map (λ e, AdminDashboard2.dc_rooms (cellAt e day)) weekly
  = [["Lab B"; "Lab A"]]
  ∧ map AdminDashboard.rr_rooms rotation = [["Lab A"; "Lab A"]].
Proof. vm_compute. split; reflexivity. Qed.

(** The rotation of a small week: Ann's two rooms of Monday come sorted in
    one row, Bob has a row for Monday and one for Tuesday, whose room has
    no name, and the assignment whose task is outside the week counts
    nowhere. *)
Example rotationOut_of_week :
  AdminDashboard.rotationOut codeUnitCompare exampleNames exampleRows
  = [{| AdminDashboard.rr_date := JSDate.isoDate 2024 6 3;
        AdminDashboard.rr_worker := "Ann";
        AdminDashboard.rr_rooms := ["Lab A"; "Lab B"];
        AdminDashboard.rr_total := 2 |};
     {| AdminDashboard.rr_date := JSDate.isoDate 2024 6 3;
        AdminDashboard.rr_worker := "Bob";
        AdminDashboard.rr_rooms := ["Lab C"];
        AdminDashboard.rr_total := 1 |};
     {| AdminDashboard.rr_date := JSDate.isoDate 2024 6 4;
        AdminDashboard.rr_worker := "Bob";
        AdminDashboard.rr_rooms := ["Unknown room"];
        AdminDashboard.rr_total := 1 |}].
Proof. vm_compute. reflexivity. Qed.

(** C5, amended: in the weekly summary of the second dashboard the
    assignments are grouped by (worker id, task date): the cell of a
    worker's day counts the assignments of that worker on that day, and its
    room names are those assignments' non-empty room names, each once
    (deduplicated, not sorted); the daily summary lists for a worker the
    rooms of the tasks assigned to that worker, none twice; both are
    ordered by worker display name ascending under [localeCompare].  In
    the weekly rotation of [src/pages/AdminDashboard.tsx] the assignments
    are grouped by (task date, worker display name): there is one row for
    each group that has an assignment, the row counts the assignments of
    its group and lists the room name of each of them ("Unknown room" for
    a room without a name), sorted by code units and not deduplicated; the
    rows are ordered by date, then by display name. *)
Theorem summaries_grouping (localeCompare : string → string → Z) :
  (∀ a b, localeCompare a b <= 0 ∨ localeCompare b a <= 0) →
  (∀ workers data,
     let out := AdminDashboard2.weeklySummaryOf localeCompare workers data in
     Sorted (λ a b, localeCompare (AdminDashboard2.wsr_full_name a)
                                  (AdminDashboard2.wsr_full_name b) <= 0) out
     ∧ ∀ e, e ∈ out → ∀ date,
         AdminDashboard2.count (cellAt e date)
         = length (List.filter (rowOn (AdminDashboard2.wsr_user_id e) date) data)
         ∧ NoDup (AdminDashboard2.dc_rooms (cellAt e date))
         ∧ ∀ n, n ∈ AdminDashboard2.dc_rooms (cellAt e date)
                ↔ n ≠ ""
                  ∧ ∃ row, row ∈ data
                           ∧ rowOn (AdminDashboard2.wsr_user_id e) date row = true
                           ∧ AdminDashboard2.wr_room_name row = Some n)
  ∧ (∀ workers taskRows,
       let out := AdminDashboard2.buildWorkerSummary localeCompare workers taskRows in
       Sorted (λ a b, localeCompare (AdminDashboard2.ws_full_name a)
                                    (AdminDashboard2.ws_full_name b) <= 0) out
       ∧ ∀ e, e ∈ out →
           NoDup (AdminDashboard2.ws_rooms e)
           ∧ ∀ n, n ∈ AdminDashboard2.ws_rooms e
                  ↔ ∃ p, p ∈ assigneesWithRoom taskRows
                         ∧ AdminDashboard2.as_user_id p.2
                           = AdminDashboard2.ws_user_id e
                         ∧ p.1 = n)
  ∧ (∀ profileMap data,
       let out := AdminDashboard.rotationOut localeCompare profileMap data in
       let keyOf r := (AdminDashboard.rr_date r, AdminDashboard.rr_worker r) in
       Sorted (cmpLe (rotationCmp localeCompare)) out
       ∧ NoDup (map keyOf out)
       ∧ (∀ row key, row ∈ data → groupOf profileMap row = Some key →
            ∃ r, r ∈ out ∧ keyOf r = key)
       ∧ ∀ r, r ∈ out →
           let group := List.filter (inGroup profileMap (keyOf r)) data in
           AdminDashboard.rr_total r = length group
           ∧ (1 <= AdminDashboard.rr_total r)%nat
           ∧ AdminDashboard.rr_rooms r ≡ₚ map roomOf group
           ∧ Sorted (cmpLe codeUnitCompare) (AdminDashboard.rr_rooms r)).
Proof.
  intros Htot. split; [|split].
  - intros workers data out. subst out.
    split; [by apply weeklySummaryOf_sorted|].
    intros e He date.
    rewrite (weeklySummaryOf_cell localeCompare workers data e date He).
    split; [|split].
    + rewrite cellOf_foldl_count, cellOf_start. reflexivity.
    + apply cellOf_foldl_NoDup. rewrite cellOf_start. constructor.
    + intros n. rewrite cellOf_foldl_rooms, cellOf_start. simpl.
      split; [intros [H|H]; [inversion H|exact H]|by right].
  - intros workers taskRows out. subst out.
    split; [by apply buildWorkerSummary_sorted|].
    intros e He. split.
    + by destruct (buildWorkerSummary_spec localeCompare workers taskRows)
        as (_ & H2 & _); destruct (H2 e He).
    + intros n. by apply (buildWorkerSummary_rooms localeCompare workers).
  - intros profileMap data out keyOf. subst out keyOf.
    split; [by apply rotationOut_sorted|].
    destruct (rotationOut_groups localeCompare profileMap data) as [Hnd Hall].
    split; [exact Hnd|]. split; [exact Hall|].
    intros r Hr group. subst group.
    destruct (rotationOut_rows _ _ _ _ Hr) as (H1 & H2 & H3 & H4).
    split; [done|]. split; [done|]. split; [|done].
    rewrite (rotationOut_rooms _ _ _ _ Hr). apply sortBy_perm.
Qed.

Lemma summaries_grouping_witness :
  let out := AdminDashboard.rotationOut codeUnitCompare exampleNames
               exampleRows in
  let keyOf r := (AdminDashboard.rr_date r, AdminDashboard.rr_worker r) in
  (∀ a b, codeUnitCompare a b <= 0 ∨ codeUnitCompare b a <= 0)
  ∧ Sorted (cmpLe (rotationCmp codeUnitCompare)) out
  ∧ NoDup (map keyOf out)
  ∧ (∀ row key, row ∈ exampleRows → groupOf exampleNames row = Some key →
       ∃ r, r ∈ out ∧ keyOf r = key)
  ∧ ∀ r, r ∈ out →
      let group := List.filter (inGroup exampleNames (keyOf r)) exampleRows in
      AdminDashboard.rr_total r = length group
      ∧ (1 <= AdminDashboard.rr_total r)%nat
      ∧ AdminDashboard.rr_rooms r ≡ₚ map roomOf group
      ∧ Sorted (cmpLe codeUnitCompare) (AdminDashboard.rr_rooms r).
Proof.
  intros out keyOf. split; [exact codeUnitCompare_total|].
  exact (proj2 (proj2 (summaries_grouping codeUnitCompare codeUnitCompare_total))
           exampleNames exampleRows).
Defined.

(** ** Reading the summaries *)

Section ReadOnly.
Import JSDate Repo.

Lemma loadWeeklyRotation_run lc (tz : Zone) s rows w :
  let range := AdminDashboard.rotationRange tz s in
  let data := AdminDashboard.selectWeek range.1 range.2 (db w) in
  let userIds := remove_dups (map AdminDashboard.wr_user_id data) in
  let w1 := {| db := db w; faults := tail (faults w) |} in
  AdminDashboard.loadWeeklyRotation lc tz s rows w
  = match failing w with
    | Some msg => ((rows, Some msg), w1)
    | None =>
        if isEmpty userIds
        then ((AdminDashboard.rotationOut lc ∅ data, None), w1)
        else
          match failing w1 with
          | Some msg =>
              ((rows, Some msg), {| db := db w; faults := tail (faults w1) |})
          | None =>
              ((AdminDashboard.rotationOut lc
                  (AdminDashboard.selectProfileNames userIds (db w)) data, None),
               {| db := db w; faults := tail (faults w1) |})
          end
    end.
Proof.
  intros range data userIds w1. subst data userIds.
  unfold AdminDashboard.loadWeeklyRotation. fold range.
  destruct range as [lo hi]. cbn [fst snd].
  unfold mbind, M_bind. rewrite query_run.
  destruct (failing w) as [msg|]; [reflexivity|]. cbn [fst snd].
  destruct (isEmpty _); [reflexivity|].
  rewrite query_run. fold w1. simpl.
  destruct (failing w1); reflexivity.
Qed.

(** On the empty string of a cleared date input [loadWeeklySummary] throws
    before any request, when a worker is loaded; on a date it is the
    handler above. *)
Lemma loadWeeklySummaryOf_run lc (tz : Zone) workers v w :
  AdminDashboard2.loadWeeklySummaryOf lc tz workers v w
  = match workers, v with
    | [], _ => (Returned ([], false), w)
    | _ :: _, Cleared => (RangeError, w)
    | _ :: _, OnDate s =>
        let out := AdminDashboard2.loadWeeklySummary lc tz workers s w in
        (Returned out.1, out.2)
    end.
Proof.
  unfold AdminDashboard2.loadWeeklySummaryOf, mbind, M_bind, mret, M_ret.
  destruct workers as [|w0 ws]; [done|]. cbn [isEmpty].
  destruct v as [s|]; [|done]. cbn [getWeekStartOf].
  by destruct (AdminDashboard2.loadWeeklySummary lc tz (w0 :: ws) s w).
Qed.

(** C9, as stated, fails: for the week of 2024-06-03, a well-formed range,
    [loadWeeklyRotation] fails when the request is answered with an error:
    it shows the message and keeps the rows it had. *)
Lemma summary_fails_on_request_error :
  let d := {| rooms := []; cleaning_levels := []; profiles := [];
              worker_availability := []; tasks := []; task_assignments := [] |} in
  let range := AdminDashboard.rotationRange 0 (isoDate 2024 6 3) in
  let out := AdminDashboard.loadWeeklyRotation codeUnitCompare 0
               (isoDate 2024 6 3) []
               {| db := d; faults := [Some "request timed out"] |} in
  range.1 <= range.2 ∧ out.1 = ([], Some "request timed out").
Proof. vm_compute. split; [discriminate|reflexivity]. Qed.

(** C9, amended: given a calendar date, [loadWeeklyRotation] and
    [loadWeeklySummary] write nothing, in whatever time zone: the tables
    are after them as they were before.  Each derives both ends of the
    range it asks for from that one date and never compares them, so no
    InvalidRange exists; the range of [loadWeeklyRotation] is the seven
    days from its start in every time zone that keeps the local day, that
    of [loadWeeklySummary] in a time zone that keeps one offset all year,
    hence never malformed.  They
    fail exactly when a request is answered with an error:
    [loadWeeklyRotation] then shows the message and keeps its rows, and
    otherwise shows the aggregated rows and no message; [loadWeeklySummary]
    then logs the error and shows an empty summary, and otherwise logs
    nothing and shows the summary of the rows it was sent, or, when no
    worker is loaded, sends no request and shows an empty summary.  On a
    date the handler called with the value of the date input is
    [loadWeeklySummary]; what the two do with the empty string of a
    cleared input, which is not a date, is left out. *)
Theorem summaries_read_only lc (tz : Zone) (start anchor : IsoDate) rows
    workers w :
  let r := AdminDashboard.loadWeeklyRotation lc tz start rows w in
  let s := AdminDashboard2.loadWeeklySummary lc tz workers anchor w in
  let range := AdminDashboard.rotationRange tz start in
  let data := AdminDashboard.selectWeek range.1 range.2 (db w) in
  let userIds := remove_dups (map AdminDashboard.wr_user_id data) in
  let w1 := {| db := db w; faults := tail (faults w) |} in
  (db r.2 = db w ∧ db s.2 = db w)
  ∧ (keepsLocalDay tz → range.2 = range.1 + 6)
  ∧ (∀ off : Z,
       (AdminDashboard.rotationRange off start).2
       = (AdminDashboard.rotationRange off start).1 + 6
       ∧ getWeekEnd off (getWeekStart off anchor)
         = getWeekStart off anchor + 6)
  ∧ (∀ msg, failing w = Some msg → r.1 = (rows, Some msg))
  ∧ (failing w = None → isEmpty userIds = true →
     r.1 = (AdminDashboard.rotationOut lc ∅ data, None))
  ∧ (∀ msg, failing w = None → isEmpty userIds = false →
     failing w1 = Some msg → r.1 = (rows, Some msg))
  ∧ (failing w = None → isEmpty userIds = false → failing w1 = None →
     r.1 = (AdminDashboard.rotationOut lc
              (AdminDashboard.selectProfileNames userIds (db w)) data, None))
  ∧ (∀ msg, workers ≠ [] → failing w = Some msg → s.1 = ([], true))
  ∧ (workers ≠ [] → failing w = None →
     s.1 = (AdminDashboard2.weeklySummaryOf lc workers
              (AdminDashboard2.selectWeek (getWeekStart tz anchor)
                 (getWeekEnd tz (getWeekStart tz anchor)) (db w)), false))
  ∧ (workers = [] → s = (([], false), w))
  ∧ AdminDashboard2.loadWeeklySummaryOf lc tz workers (OnDate anchor) w
    = (Returned s.1, s.2).
Proof.
  intros r s range data userIds w1.
  subst r s data userIds.
  rewrite loadWeeklyRotation_run, loadWeeklySummary_run, loadWeeklySummaryOf_run.
  fold range. fold w1. cbn zeta.
  rewrite loadWeeklySummary_run.
  split; [|split; [|split; [|split; [|split; [|split; [|split; [|split;
    [|split; [|split]]]]]]]]].
  - split.
    + destruct (failing w); [done|].
      destruct (isEmpty _); [done|]. by destruct (failing w1).
    + destruct workers; [done|]. by destruct (failing w).
  - intros Hday. unfold range. by rewrite (rotationRange_week_zone tz Hday).
  - intros off. rewrite rotationRange_week. split; [done|].
    apply getWeekEnd_plus6.
  - by intros msg ->.
  - by intros -> ->.
  - by intros msg -> -> ->.
  - by intros -> -> ->.
  - intros msg Hne ->. by destruct workers.
  - intros Hne ->. by destruct workers.
  - by intros ->.
  - destruct workers; [done|]. by destruct (failing w).
Qed.

End ReadOnly.

(** ** The generator *)

Section GeneratorFacts.
Import JSDate Repo Generator.







Lemma activeWorkers_extends d d' :
  extends d d' → activeWorkers d' = activeWorkers d.
Proof. intros (_ & _ & Hp & _). unfold activeWorkers. by rewrite Hp. Qed.

Variable localeCompare : string → string → Z.
Variable crewSize : Z → option nat.















End GeneratorFacts.

(** ** What the handlers leave in the tables *)

Section Handlers.
Import JSDate Repo.

Lemma readOnly_ret {A} (a : A) : readOnly (mret a).
Proof. by intros w. Qed.

Lemma readOnly_query {A} (f : DB → A) : readOnly (query f).
Proof. intros w. by rewrite query_run. Qed.

Lemma readOnly_bind {A B} (m : M A) (f : A → M B) :
  readOnly m → (∀ a, readOnly (f a)) → readOnly (m ≫= f).
Proof.
  intros Hm Hf w. unfold mbind, M_bind.
  specialize (Hm w). destruct (m w) as [a w1]. simpl in Hm.
  rewrite <- Hm. apply Hf.
Qed.

Ltac read_only :=
  repeat first
    [ apply readOnly_ret
    | apply readOnly_query
    | apply readOnly_bind
    | match goal with
      | |- ∀ _, _ => intros ?
      | |- readOnly (match ?x with _ => _ end) => destruct x
      | |- readOnly (if ?x then _ else _) => destruct x
      | |- readOnly (let '(_, _) := ?x in _) => destruct x
      end ].

Lemma loadTasksForDate_readOnly rooms levels date :
  readOnly (AdminDashboard.loadTasksForDate rooms levels date).
Proof. unfold AdminDashboard.loadTasksForDate. read_only. Qed.

Lemma loadTasks_readOnly lc workers date st :
  readOnly (AdminDashboard2.loadTasks lc workers date st).
Proof. unfold AdminDashboard2.loadTasks. read_only. Qed.


Lemma loadWeeklyRotation_readOnly lc tz start rows :
  readOnly (AdminDashboard.loadWeeklyRotation lc tz start rows).
Proof. unfold AdminDashboard.loadWeeklyRotation. read_only. Qed.

Lemma handleGenerateAssignments_db gen rooms levels date tasks w :
  db (AdminDashboard.handleGenerateAssignments gen rooms levels date tasks w).2
  = db (rpc (gen date) w).2.
Proof.
  unfold AdminDashboard.handleGenerateAssignments, mbind, M_bind.
  destruct (rpc (gen date) w) as [[u|msg] w1]; [|done]. simpl.
  pose proof (loadTasksForDate_readOnly rooms levels date w1) as H.
  destruct (AdminDashboard.loadTasksForDate rooms levels date w1) as [[x|msg] w2];
    exact H.
Qed.




Lemma click_run now next r st w :
  WorkerDashboard.click now next r st w
  = if WorkerDashboard.enabled next r
    then WorkerDashboard.setStatus now (WorkerDashboard.assignment_id r) next st w
    else (st, w).
Proof. unfold WorkerDashboard.click. by destruct (WorkerDashboard.enabled next r). Qed.

End Handlers.

Section GeneratorClaims.
Import JSDate Repo Generator.

(** The example of the specification: R1 goes to Ann, the harvest room R2
    to Bob and Cy, R3 to Ann again; three Tasks, four Assignments. *)
Example generate_example :
  let out := generate codeUnitCompare exampleCrew noFault (isoDate 2024 6 3)
               (exampleDay []) in
  out.1 = inr {| tasksCreated := 3; assignmentsCreated := 4 |}
  ∧ map (λ t, (task_id t, task_room_id t)) (tasks out.2)
    = [(1, 1); (2, 2); (3, 3)]
  ∧ map (λ a, (asg_task_id a, asg_user_id a)) (task_assignments out.2)
    = [(1, "a"); (2, "b"); (2, "c"); (3, "a")].
Proof. vm_compute. repeat split. Qed.

(** A worker off on Mondays gets nothing on Monday 2024-06-03. *)
Example generate_skips_worker_off :
  let off := [{| av_user_id := "a"; weekday := 1; is_off := true |}] in
  let out := generate codeUnitCompare exampleCrew noFault (isoDate 2024 6 3)
               (exampleDay off) in
  map (λ a, (asg_task_id a, asg_user_id a)) (task_assignments out.2)
  = [(1, "b"); (2, "c"); (2, "b"); (3, "c")].
Proof. vm_compute. reflexivity. Qed.

(** A write error in the middle of a run: nothing is left of the run. *)
Example generate_rolls_back :
  generate codeUnitCompare exampleCrew
    (λ n, if (n =? 3)%nat then Some WriteError else None)
    (isoDate 2024 6 3) (exampleDay [])
  = (inl GenerationFailed, exampleDay []).
Proof. vm_compute. reflexivity. Qed.

(** Nobody is eligible: the run fails and the tables stay as they were,
    with every worker off as well as with no worker at all. *)
Example generate_everyone_off :
  let off := map (λ u, {| av_user_id := u; weekday := 1; is_off := true |})
                 ["a"; "b"; "c"] in
  let none := {| rooms := rooms (exampleDay []);
                 cleaning_levels := cleaning_levels (exampleDay []);
                 profiles := []; worker_availability := []; tasks := [];
                 task_assignments := [] |} in
  generate codeUnitCompare exampleCrew noFault (isoDate 2024 6 3)
    (exampleDay off) = (inl NoEligibleWorkers, exampleDay off)
  ∧ generate codeUnitCompare exampleCrew noFault (isoDate 2024 6 3) none
    = (inl NoEligibleWorkers, none).
Proof. vm_compute. split; reflexivity. Qed.




(** Run again on the tables the example left, the generator creates
    nothing. *)
Example generate_example_twice :
  let once := generate codeUnitCompare exampleCrew noFault (isoDate 2024 6 3)
                (exampleDay []) in
  generate codeUnitCompare exampleCrew noFault (isoDate 2024 6 3) once.2
  = (inr zeroResult, once.2).
Proof. vm_compute. reflexivity. Qed.

End GeneratorClaims.

(** ** Worked examples *)

Section Examples.
Import JSDate Repo.

(** The second dashboard lists Bob, who is off and has nothing, with a
    total of 0. *)
Example weekly_summary_lists_idle_worker :
  let w := {| db := exampleWeek; faults := [] |} in
  let workers :=
    match (AdminDashboard2.loadWorkersAvailability codeUnitCompare_opt w).1 with
    | Data l => l | Failure _ => []
    end in
  map (λ e, (AdminDashboard2.wsr_full_name e, AdminDashboard2.total e,
             AdminDashboard2.dc_rooms (cellAt e (isoDate 2024 6 3))))
      (AdminDashboard2.loadWeeklySummary codeUnitCompare 0 workers
         (isoDate 2024 6 3) w).1.1
  = [("Ann", 2%nat, ["R2"; "R1"]); ("Bob", 0%nat, [])].
Proof. vm_compute. reflexivity. Qed.

(** The second worker dashboard puts a completed assignment back to
    not_started and leaves its timestamps. *)
Example updateStatus_regresses :
  let out := WorkerDashboard2.updateStatus "u1" (isoDate 2024 6 3) 1 not_started
               {| WorkerDashboard2.tasks := []; WorkerDashboard2.message := None |}
               {| db := exampleWeek; faults := [] |} in
  map (λ a, (asg_id a, asg_status a, started_at a)) (task_assignments (db out.2))
  = [(1, not_started, Some "2024-06-03T08:00:00.000Z"); (2, not_started, None)]
  ∧ map (λ t, (WorkerDashboard2.assignment_id t, WorkerDashboard2.status t))
        (WorkerDashboard2.tasks out.1)
    = [(1, not_started); (2, not_started)]
  ∧ WorkerDashboard2.message out.1 = None.
Proof. vm_compute. repeat split. Qed.

(** Across a clock change the week helpers of the second admin dashboard
    lose a day: the week of Wednesday 2024-10-30 starts on Saturday the
    26th, the week from Sunday 2024-03-31 ends on Friday 5 April and lists
    that Sunday twice. *)
Example week_helpers_across_clock_change :
  getWeekStart berlin2024 (isoDate 2024 10 30) = isoDate 2024 10 26
  ∧ getWeekEnd berlin2024 (isoDate 2024 3 31) = isoDate 2024 4 5
  ∧ getWeekDates berlin2024 (isoDate 2024 3 31)
    = [isoDate 2024 3 31; isoDate 2024 3 31; isoDate 2024 4 1;
       isoDate 2024 4 2; isoDate 2024 4 3; isoDate 2024 4 4;
       isoDate 2024 4 5].
Proof. vm_compute. repeat split. Qed.

(** The summary of the day of [src/pages/AdminDashboard.tsx]: by number of
    tasks first, rooms as the tasks come (by room id). *)
Example workerSummary_of_day :
  let loaded := (AdminDashboard.loadTasksForDate (rooms exampleWeek)
                   (cleaning_levels exampleWeek) (isoDate 2024 6 3)
                   {| db := exampleWeek; faults := [] |}).1 in
  match loaded with
  | Data tasks =>
      AdminDashboard.workerSummary codeUnitCompare tasks
      = Some [{| AdminDashboard.sr_name := "Ann"; AdminDashboard.sr_count := 2;
                 AdminDashboard.sr_rooms := ["R1"; "R2"] |}]
  | Failure _ => False
  end.
Proof. vm_compute. reflexivity. Qed.

End Examples.

(** * Further properties of the code *)

(** ** Weeks of the tables *)

Section Weeks.
Import JSDate.

Lemma toISO_parseIso s : toISO (parseIso s) = s.
Proof.
  unfold toISO, parseIso. apply Z.div_mul. unfold msPerDay. lia.
Qed.

Lemma toISO_setDatePlus (tz : Z) d k :
  toISO (setDatePlus tz d k) = toISO d + k.
Proof.
  rewrite setDatePlus_fixed. unfold toISO. apply Z.div_add.
  unfold msPerDay. lia.
Qed.

Lemma weekDatesFrom_seq (tz : Z) n : ∀ d,
  weekDatesFrom tz n d = map (λ i, toISO d + Z.of_nat i) (seq 0 n).
Proof.
  induction n as [|n IH]; intros d; [done|].
  cbn [weekDatesFrom]. rewrite IH, toISO_setDatePlus.
  cbn [seq map]. f_equal; [lia|].
  rewrite <- seq_shift, map_map. apply map_ext. intros i. lia.
Qed.

Lemma getWeekDates_list (tz : Z) s :
  getWeekDates tz s = [s; s + 1; s + 2; s + 3; s + 4; s + 5; s + 6].
Proof.
  unfold getWeekDates. rewrite weekDatesFrom_seq, toISO_parseIso.
  cbn [seq map]. repeat (f_equal; try lia).
Qed.

Lemma getWeekDates_elem (tz : Z) s d :
  d ∈ getWeekDates tz s ↔ s <= d <= s + 6.
Proof.
  rewrite getWeekDates_list, !elem_of_cons, elem_of_nil. lia.
Qed.

(** X1. In a zone that keeps one offset from UTC all year, whatever the
    offset, [getWeekDates] gives the seven dates from the week's start on,
    one day apart; they are the dates from the start to [getWeekEnd], the
    range [loadWeeklySummary] asks for. *)
Theorem getWeekDates_span (tz : Z) (s : IsoDate) :
  getWeekDates tz s = [s; s + 1; s + 2; s + 3; s + 4; s + 5; s + 6]
  ∧ last (getWeekDates tz s) = Some (getWeekEnd tz s)
  ∧ ∀ d, d ∈ getWeekDates tz s ↔ s <= d <= getWeekEnd tz s.
Proof.
  rewrite getWeekEnd_plus6. split; [apply getWeekDates_list|].
  split; [by rewrite getWeekDates_list|]. apply getWeekDates_elem.
Qed.

Lemma weekdayOfDay_plus n i :
  weekdayOfDay (n + i) = (weekdayOfDay n + i) mod 7.
Proof.
  unfold weekdayOfDay. rewrite Z.add_mod_idemp_l by lia. f_equal. lia.
Qed.

(** X2. In a zone that keeps one offset all year, less than a day from
    UTC, every date of the week that
    [getWeekDates] lists for a date has the same [getWeekStart] as that
    date, the date itself is one of the seven, and [getWeekStart] of a
    week's start is that start: choosing any day of the table shown gives
    the same table. *)
Theorem getWeekStart_stable (tz : Z) (s : IsoDate) :
  - msPerDay <= tz < msPerDay →
  s ∈ getWeekDates tz (getWeekStart tz s)
  ∧ getWeekStart tz (getWeekStart tz s) = getWeekStart tz s
  ∧ ∀ d, d ∈ getWeekDates tz (getWeekStart tz s) →
         getWeekStart tz d = getWeekStart tz s.
Proof.
  intros Htz.
  assert (Hin : ∀ d, d ∈ getWeekDates tz (getWeekStart tz s)
                     ↔ getWeekStart tz s <= d <= getWeekStart tz s + 6).
  { intros d. apply getWeekDates_elem. }
  pose proof (weekdayOfDay_range s) as Hs.
  destruct (Z_lt_ge_dec tz 0) as [Hneg | Hpos].
  - assert (Hst : ∀ x, getWeekStart tz x = x - (weekdayOfDay x + 6) mod 7)
      by (intros x; apply getWeekStart_behind; lia).
    pose proof (Z.mod_pos_bound (weekdayOfDay s + 6) 7 ltac:(lia)) as Hm.
    pose proof (back_to_monday s) as Hmon.
    assert (Hall : ∀ d, getWeekStart tz s <= d <= getWeekStart tz s + 6 →
                        getWeekStart tz d = getWeekStart tz s).
    { intros d Hd. rewrite (Hst d). rewrite Hst in Hd |- *.
      set (m := s - (weekdayOfDay s + 6) mod 7) in *.
      replace (weekdayOfDay d) with (weekdayOfDay (m + (d - m)))
        by (f_equal; lia).
      rewrite weekdayOfDay_plus, Hmon, Z.add_mod_idemp_l by lia.
      replace ((1 + (d - m) + 6) mod 7) with (d - m); [lia|].
      apply (Z.mod_unique _ _ 1); lia. }
    split; [apply Hin; rewrite Hst; lia|].
    split; [apply Hall; lia|]. intros d Hd. apply Hall, Hin, Hd.
  - assert (Hst : ∀ x, getWeekStart tz x = x - weekdayOfDay x)
      by (intros x; apply getWeekStart_ahead; lia).
    pose proof (back_to_sunday s) as Hsun.
    assert (Hall : ∀ d, getWeekStart tz s <= d <= getWeekStart tz s + 6 →
                        getWeekStart tz d = getWeekStart tz s).
    { intros d Hd. rewrite (Hst d). rewrite Hst in Hd |- *.
      set (m := s - weekdayOfDay s) in *.
      replace (weekdayOfDay d) with (weekdayOfDay (m + (d - m)))
        by (f_equal; lia).
      rewrite weekdayOfDay_plus, Hsun.
      replace ((0 + (d - m)) mod 7) with (d - m); [lia|].
      apply (Z.mod_unique _ _ 0); lia. }
    split; [apply Hin; rewrite Hst; lia|].
    split; [apply Hall; lia|]. intros d Hd. apply Hall, Hin, Hd.
Qed.

Lemma getWeekStart_stable_witness :
  let tz := 3600000 in
  let s := isoDate 2024 6 5 in
  - msPerDay <= tz < msPerDay
  ∧ getWeekStart tz (getWeekStart tz s) = getWeekStart tz s.
Proof.
  split; [unfold msPerDay; lia|].
  refine (proj1 (proj2 (getWeekStart_stable 3600000 (isoDate 2024 6 5) _))).
  unfold msPerDay; lia.
Defined.

Lemma monday_of_week m d :
  weekdayOfDay m = 1 → m <= d <= m + 6 →
  d - (weekdayOfDay d + 6) mod 7 = m.
Proof.
  intros Hmon Hd.
  replace (weekdayOfDay d) with (weekdayOfDay (m + (d - m))) by (f_equal; lia).
  rewrite weekdayOfDay_plus, Hmon, Z.add_mod_idemp_l by lia.
  replace ((1 + (d - m) + 6) mod 7) with (d - m); [lia|].
  apply (Z.mod_unique _ _ 1); lia.
Qed.

Lemma startOfWeekMonday_eq (tz : Z) d :
  startOfWeekMonday tz d
  = (localDay tz d - (weekdayOfDay (localDay tz d) + 6) mod 7) * msPerDay - tz.
Proof.
  pose proof (startOfWeekMonday_day tz d) as H.
  unfold toISODate, startOfWeekMonday in H. rewrite localDay_setHours0 in H.
  unfold startOfWeekMonday, setHours0. by rewrite H.
Qed.

Lemma localDay_bounds (tz : Z) d :
  localDay tz d * msPerDay <= d + tz < (localDay tz d + 1) * msPerDay.
Proof.
  rewrite localDay_fixed.
  pose proof (Z.div_mod (d + tz) msPerDay ltac:(unfold msPerDay; lia)) as D.
  pose proof (Z.mod_pos_bound (d + tz) msPerDay ltac:(unfold msPerDay; lia)) as B.
  lia.
Qed.

Lemma localDay_between (tz : Z) d lo n :
  lo * msPerDay <= d + tz < (lo + n) * msPerDay →
  lo <= localDay tz d < lo + n.
Proof.
  intros H. pose proof (localDay_bounds tz d) as B.
  unfold msPerDay in *. lia.
Qed.

(** X3. In a zone that keeps one offset from UTC all year, whatever the
    offset, [startOfWeekMonday] gives the local midnight that begins a
    Monday, at most seven days before the instant it
    is given; and every instant of the seven days from there on, that
    midnight included, is taken to the same midnight. *)
Theorem startOfWeekMonday_week (tz : Z) (d : Date) :
  let m := startOfWeekMonday tz d in
  (m + tz) mod msPerDay = 0
  ∧ getDay tz m = 1
  ∧ m <= d < m + 7 * msPerDay
  ∧ ∀ d', m <= d' < m + 7 * msPerDay → startOfWeekMonday tz d' = m.
Proof.
  intros m. subst m. rewrite startOfWeekMonday_eq.
  set (L := localDay tz d).
  set (M := L - (weekdayOfDay L + 6) mod 7).
  pose proof (back_to_monday L) as Hmon. fold M in Hmon.
  pose proof (Z.mod_pos_bound (weekdayOfDay L + 6) 7 ltac:(lia)) as Hk.
  pose proof (localDay_bounds tz d) as HL. fold L in HL.
  assert (HM : localDay tz (M * msPerDay - tz) = M).
  { rewrite localDay_fixed.
    replace (M * msPerDay - tz + tz) with (M * msPerDay) by lia.
    apply Z.div_mul. unfold msPerDay. lia. }
  split.
  { replace (M * msPerDay - tz + tz) with (M * msPerDay) by lia.
    apply Z.mod_mul. unfold msPerDay. lia. }
  split; [unfold getDay; by rewrite HM|].
  split; [unfold msPerDay in *; lia|].
  intros d' Hd'. rewrite startOfWeekMonday_eq.
  assert (HL' : M <= localDay tz d' < M + 7)
    by (apply localDay_between; unfold msPerDay in *; lia).
  rewrite (monday_of_week M (localDay tz d')) by (done || lia). done.
Qed.

End Weeks.

(** ** The weekly table *)

Section WeekTable.
Import JSDate Repo AdminDashboard2.

Lemma sum_list_indicator (days : list Z) (x : Z) :
  NoDup days →
  sum_list (map (λ day, if bool_decide (x = day) then 1%nat else 0%nat) days)
  = if bool_decide (x ∈ days) then 1%nat else 0%nat.
Proof.
  induction 1 as [|day days Hnotin _ IH]; [done|].
  cbn [map sum_list]. rewrite IH.
  destruct (decide (x = day)) as [->|Hne].
  - rewrite bool_decide_eq_true_2 by done.
    rewrite (bool_decide_eq_false_2 (day ∈ days)) by done.
    by rewrite bool_decide_eq_true_2 by apply list_elem_of_here.
  - rewrite bool_decide_eq_false_2 by done.
    rewrite (bool_decide_ext (x ∈ day :: days) (x ∈ days))
      by (rewrite elem_of_cons; intuition).
    done.
Qed.

Lemma sum_list_map_add {A} (f g : A → nat) (l : list A) :
  sum_list (map (λ x, f x + g x)%nat l)
  = (sum_list (map f l) + sum_list (map g l))%nat.
Proof. induction l as [|x l IH]; [done|]. simpl. rewrite IH. lia. Qed.

Lemma sum_list_zero {A} (l : list A) : sum_list (map (λ _, 0%nat) l) = 0%nat.
Proof. induction l as [|x l IH]; [done|]. simpl. by rewrite IH. Qed.

(** Over distinct days that hold every date of the worker's rows, the rows
    of the days add up to the rows of the worker. *)
Lemma rows_per_day u (days : list IsoDate) (data : list WeekRow) :
  NoDup days →
  (∀ row date, row ∈ data → wr_task_date row = Some date → date ∈ days) →
  sum_list (map (λ day, length (List.filter (rowOn u day) data)) days)
  = length (List.filter (rowOf u) data).
Proof.
  intros Hnd. induction data as [|row data IH]; intros Hin.
  - cbn [List.filter length]. apply sum_list_zero.
  - rewrite (map_ext _ (λ day, (if rowOn u day row then 1 else 0)
                               + length (List.filter (rowOn u day) data))%nat)
      by (intros day; cbn [List.filter]; by destruct (rowOn u day row)).
    rewrite sum_list_map_add, IH
      by (intros r dt Hr; apply Hin; by apply list_elem_of_further).
    cbn [List.filter]. unfold rowOn at 1. unfold rowOf at 2. unfold dated.
    destruct (bool_decide (wr_user_id row = u)).
    + destruct (wr_task_date row) as [date|] eqn:Ed.
      * rewrite (map_ext _ (λ day, if bool_decide (date = day)
                                   then 1%nat else 0%nat)).
        2:{ intros day. apply (f_equal (λ b : bool, if b then 1%nat else 0%nat)).
            cbn [andb]. apply bool_decide_ext. split; congruence. }
        rewrite sum_list_indicator by done.
        rewrite bool_decide_eq_true_2
          by (apply (Hin row); [apply list_elem_of_here|done]).
        done.
      * cbn [andb]. rewrite (map_ext _ (λ _, 0%nat)) by done.
        by rewrite sum_list_zero.
    + cbn [andb]. rewrite andb_false_r. by rewrite sum_list_zero.
Qed.

Lemma selectWeek_range lo hi d row date :
  row ∈ selectWeek lo hi d → wr_task_date row = Some date → lo <= date <= hi.
Proof.
  unfold selectWeek. rewrite list_elem_of_In, in_map_iff.
  intros (a & <- & _). cbn [wr_task_date]. unfold embedTask.
  destruct (List.find _ (tasks d)) as [t|]; [|done]. cbn.
  destruct (Z.leb_spec lo (task_date t)); [|done].
  destruct (Z.leb_spec (task_date t) hi); [|done].
  cbn. intros [= <-]. lia.
Qed.

(** X4. In a zone that keeps one offset from UTC all year, in every row of
    the weekly table that [loadWeeklySummary] sets, the counts of the seven
    day columns ([getWeekDates] of the week's start, a missing cell
    counting 0) add up to the Total column.  (Across a clock change the
    columns can repeat a date, see [weekly_table_across_clock_change].) *)
Theorem weekly_total_is_sum_of_days (localeCompare : string → string → Z)
    (tz : Z) (workers : list WorkerRow) (anchorDate : IsoDate) (w : World) :
  Forall (λ e, sum_list (map (λ day, count (cellAt e day))
                             (getWeekDates tz (getWeekStart tz anchorDate)))
               = total e)
         (loadWeeklySummary localeCompare tz workers anchorDate w).1.1.
Proof.
  rewrite loadWeeklySummary_run.
  destruct workers as [|w0 workers]; [constructor|].
  destruct (failing w); [constructor|]. cbn [fst].
  apply Forall_forall. intros e He.
  set (lo := getWeekStart tz anchorDate) in *.
  set (data := selectWeek lo (getWeekEnd tz lo) (db w)) in *.
  rewrite (weeklySummaryOf_total localeCompare _ data e He).
  rewrite (map_ext _ (λ day, length (List.filter (rowOn (wsr_user_id e) day) data))).
  2:{ intros day. rewrite (weeklySummaryOf_cell localeCompare _ data e day He).
      by rewrite cellOf_foldl_count, cellOf_start. }
  apply rows_per_day.
  - rewrite getWeekDates_list.
    repeat (apply NoDup_cons; split;
            [rewrite ?elem_of_cons, elem_of_nil; lia|]).
    apply NoDup_nil_2.
  - intros row date Hrow Hdate. apply getWeekDates_elem.
    rewrite <- (getWeekEnd_plus6 tz). by apply (selectWeek_range _ _ (db w) row).
Qed.

(** Across the clock change of March 2024 in Central European time the
    week of Sunday 2024-03-31 has that Sunday in two columns: Ann's one
    assignment of that day is shown twice, and the columns add up to 2
    beside a Total of 1. *)
Example weekly_table_across_clock_change :
  let day := isoDate 2024 3 31 in
  let ann := {| user_id := "u1"; full_name := Some "Ann"; role := worker;
                active := true |} in
  let d := {| rooms := [{| room_id := 1; room_name := "R1";
                           is_harvest := false; room_active := true |}];
              cleaning_levels := [{| level_id := 1; level_name := "L1" |}];
              profiles := [ann]; worker_availability := [];
              tasks := [{| task_id := 1; task_date := day; task_room_id := 1;
                           cleaning_level_id := 1;
                           is_harvest_shift := false |}];
              task_assignments :=
                [{| asg_id := 1; asg_task_id := 1; asg_user_id := "u1";
                    asg_status := not_started; started_at := None;
                    completed_at := None |}] |} in
  map (λ e, (total e,
             map (λ day, count (cellAt e day))
                 (getWeekDates berlin2024 (getWeekStart berlin2024 day))))
      (loadWeeklySummary codeUnitCompare berlin2024 [toWorkerRow (ann, [])]
         day {| db := d; faults := [] |}).1.1
  = [(1%nat, [1; 1; 0; 0; 0; 0; 0]%nat)].
Proof. vm_compute. reflexivity. Qed.

End WeekTable.

(** ** Days off: the page and the table *)

Section DaysOffSync.
Import Repo.

Lemma sameDay_other u wd u' wd' r :
  (u', wd') ≠ (u, wd) → sameDay u wd r = true → sameDay u' wd' r = false.
Proof.
  intros Hne H. destruct (sameDay u' wd' r) eqn:E; [|done].
  apply sameDay_key in H, E. congruence.
Qed.

Lemma find_upsert_other u wd row d :
  (u, wd) ≠ ruleKey row →
  List.find (sameDay u wd) (worker_availability (upsertAvailability row d))
  = List.find (sameDay u wd) (worker_availability d).
Proof.
  intros Hne. unfold upsertAvailability. cbn [worker_availability withAvailability].
  assert (Hrow : sameDay u wd row = false).
  { destruct (sameDay u wd row) eqn:E; [|done]. apply sameDay_key in E.
    congruence. }
  destruct (existsb _ _).
  - induction (worker_availability d) as [|x l IH]; [done|]. cbn [map List.find].
    destruct (sameDay (av_user_id row) (weekday row) x) eqn:Ex.
    + rewrite Hrow, (sameDay_other _ _ u wd x Hne Ex). exact IH.
    + destruct (sameDay u wd x); [done|exact IH].
  - induction (worker_availability d) as [|x l IH]; cbn [app List.find].
    + by rewrite Hrow.
    + destruct (sameDay u wd x); [done|exact IH].
Qed.

Lemma elem_upsert_other row d r :
  ruleKey r ≠ ruleKey row →
  r ∈ worker_availability (upsertAvailability row d) ↔ r ∈ worker_availability d.
Proof.
  intros Hne. unfold upsertAvailability. cbn [worker_availability withAvailability].
  set (P := sameDay (av_user_id row) (weekday row)).
  assert (Hr : P r = false).
  { destruct (P r) eqn:E; [|done]. apply sameDay_key in E. done. }
  destruct (existsb P (worker_availability d)).
  - rewrite list_elem_of_fmap. split.
    + intros (x & Hx & Hin). destruct (P x); [congruence|]. by subst.
    + intros Hin. exists r. by rewrite Hr.
  - rewrite elem_of_app, list_elem_of_singleton. split; [|by left].
    intros [H|H]; [done|congruence].
Qed.

Lemma elem_delete u wd d r :
  r ∈ worker_availability (deleteAvailability u wd d)
  ↔ r ∈ worker_availability d ∧ sameDay u wd r = false.
Proof.
  unfold deleteAvailability. cbn [worker_availability withAvailability].
  by rewrite list_elem_of_In, filter_In, <- list_elem_of_In, negb_true_iff.
Qed.

(** The checkbox after the callback of [setDaysOffMap]. *)
Lemma checked_toggled u wd (isOff : bool) (m : gmap string (gset Z)) u' wd' :
  AdminDashboard.checked
    (<[u := if isOff then default ∅ (m !! u) ∪ {[wd]}
            else default ∅ (m !! u) ∖ {[wd]}]> m) u' wd'
  = if decide ((u', wd') = (u, wd)) then isOff
    else AdminDashboard.checked m u' wd'.
Proof.
  unfold AdminDashboard.checked. set (S := default ∅ (m !! u)).
  destruct (decide (u' = u)) as [->|Hu].
  - rewrite lookup_insert_eq. cbn [default from_option id].
    destruct (decide ((u, wd') = (u, wd))) as [E|E].
    + injection E as ->. destruct isOff.
      * rewrite bool_decide_eq_true, elem_of_union, elem_of_singleton. tauto.
      * rewrite bool_decide_eq_false, elem_of_difference, elem_of_singleton.
        tauto.
    + assert (wd' ≠ wd) by congruence.
      apply bool_decide_ext. destruct isOff.
      * rewrite elem_of_union, elem_of_singleton. tauto.
      * rewrite elem_of_difference, elem_of_singleton. tauto.
  - rewrite lookup_insert_ne by done.
    destruct (decide ((u', wd') = (u, wd))); [congruence|done].
Qed.

Lemma checked_ticked u wd (m : gmap string (gset Z)) u' wd' :
  AdminDashboard.checked (<[u := default ∅ (m !! u) ∪ {[wd]}]> m) u' wd'
  = if decide ((u', wd') = (u, wd)) then true
    else AdminDashboard.checked m u' wd'.
Proof. exact (checked_toggled u wd true m u' wd'). Qed.

Lemma checked_unticked u wd (m : gmap string (gset Z)) u' wd' :
  AdminDashboard.checked (<[u := default ∅ (m !! u) ∖ {[wd]}]> m) u' wd'
  = if decide ((u', wd') = (u, wd)) then false
    else AdminDashboard.checked m u' wd'.
Proof. exact (checked_toggled u wd false m u' wd'). Qed.

(** The checkbox read from the table after the request of the toggle. *)
Lemma checked_table_toggled u wd (isOff : bool) d u' wd' :
  AdminDashboard.checked
    (AdminDashboard.daysOffOfRows
       (worker_availability
          (if isOff
           then upsertAvailability
                  {| av_user_id := u; weekday := wd; is_off := true |} d
           else deleteAvailability u wd d))) u' wd'
  = if decide ((u', wd') = (u, wd)) then isOff
    else AdminDashboard.checked
           (AdminDashboard.daysOffOfRows (worker_availability d)) u' wd'.
Proof.
  set (row := {| av_user_id := u; weekday := wd; is_off := true |}).
  destruct (decide ((u', wd') = (u, wd))) as [E|E].
  - injection E as -> ->. destruct isOff.
    + apply checked_iff. exists row.
      destruct (find_sameDay_elem u wd _ row (find_after_upsert row d)) as [H _].
      done.
    + apply not_true_is_false. rewrite checked_iff.
      intros (r & Hin & _ & Hu & Hw).
      apply elem_delete in Hin as [_ Hin].
      assert (sameDay u wd r = true) by (by apply sameDay_iff). congruence.
  - apply eq_iff_eq_true. rewrite !checked_iff.
    assert (Hk : ∀ r, av_user_id r = u' → weekday r = wd' →
                      ruleKey r ≠ ruleKey row).
    { intros r Hu Hw. unfold ruleKey. simpl. congruence. }
    destruct isOff; split; intros (r & Hin & Hoff & Hu & Hw); exists r;
      (split; [|done]).
    + by apply (elem_upsert_other row d r (Hk r Hu Hw)).
    + by apply (elem_upsert_other row d r (Hk r Hu Hw)).
    + by apply elem_delete in Hin as [Hin _].
    + apply elem_delete. split; [done|].
      destruct (sameDay u wd r) eqn:Es; [|done].
      apply sameDay_iff in Es as [? ?]. congruence.
Qed.

(** X5. If every checkbox of the days-off grid shows what [loadDaysOff]
    would read from the table, it still does after [toggleWorkerOffDay]:
    on success the toggled box alone changes, on the page and in the table
    alike; when the request fails neither changes and its message is the
    toast. *)
Theorem toggleWorkerOffDay_in_sync (u : string) (wd : Z) (isOff : bool)
    (m : gmap string (gset Z)) (w : World) :
  (∀ u' wd', AdminDashboard.checked m u' wd'
             = AdminDashboard.checked
                 (AdminDashboard.daysOffOfRows (worker_availability (db w)))
                 u' wd') →
  let out := AdminDashboard.toggleWorkerOffDay u wd isOff m w in
  (∀ u' wd', AdminDashboard.checked out.1.1 u' wd'
             = AdminDashboard.checked
                 (AdminDashboard.daysOffOfRows (worker_availability (db out.2)))
                 u' wd')
  ∧ (failing w = None →
     ∀ u' wd', AdminDashboard.checked out.1.1 u' wd'
               = if decide ((u', wd') = (u, wd)) then isOff
                 else AdminDashboard.checked m u' wd')
  ∧ (∀ msg, failing w = Some msg → out.1 = (m, msg) ∧ db out.2 = db w).
Proof.
  intros Hsync out. subst out.
  destruct (failing w) as [msg|] eqn:Ef.
  - assert (Hrun : AdminDashboard.toggleWorkerOffDay u wd isOff m w
                   = ((m, msg), {| db := db w; faults := tail (faults w) |})).
    { revert Ef.
      unfold failing, AdminDashboard.toggleWorkerOffDay, mbind, M_bind, mutate,
        request.
      destruct isOff; destruct (faults w) as [|[msg'|] fs]; intros H;
        try discriminate; injection H as ->; reflexivity. }
    rewrite Hrun. cbn [fst snd db]. split; [exact Hsync|].
    split; [discriminate|]. intros msg' [= <-]. done.
  - rewrite (toggleWorkerOffDay_success u wd isOff m w Ef). cbn [fst snd db].
    split; [|split; [|discriminate]].
    + intros u' wd'. rewrite checked_toggled, checked_table_toggled.
      destruct (decide _); [done|apply Hsync].
    + intros _ u' wd'. apply checked_toggled.
Qed.

Lemma toggleWorkerOffDay_in_sync_witness :
  let w := {| db := dbOfAssignments []; faults := [] |} in
  AdminDashboard.checked
    (AdminDashboard.toggleWorkerOffDay "u1" 1 true ∅ w).1.1 "u1" 1 = true.
Proof.
  intros w.
  assert (H : ∀ u' wd', AdminDashboard.checked ∅ u' wd'
                        = AdminDashboard.checked
                            (AdminDashboard.daysOffOfRows
                               (worker_availability (db w))) u' wd')
    by reflexivity.
  exact (proj1 (proj2 (toggleWorkerOffDay_in_sync "u1" 1 true ∅ w H))
           eq_refl "u1" 1).
Defined.

Lemma filter_after_upsert row d :
  List.filter (λ r, negb (sameDay (av_user_id row) (weekday row) r))
              (worker_availability (upsertAvailability row d))
  = List.filter (λ r, negb (sameDay (av_user_id row) (weekday row) r))
                (worker_availability d).
Proof.
  unfold upsertAvailability. cbn [worker_availability withAvailability].
  set (P := sameDay (av_user_id row) (weekday row)).
  assert (HP : P row = true) by (by apply sameDay_iff).
  destruct (existsb P (worker_availability d)).
  - induction (worker_availability d) as [|x l IH]; [done|].
    cbn [map List.filter]. destruct (P x) eqn:E.
    + rewrite HP. exact IH.
    + rewrite E. cbn [negb]. by rewrite IH.
  - rewrite List.filter_app. cbn [List.filter]. rewrite HP. cbn [negb].
    apply app_nil_r.
Qed.

Lemma filter_all {A} (f : A → bool) (l : list A) :
  existsb f l = false → List.filter (λ x, negb (f x)) l = l.
Proof.
  induction l as [|x l IH]; [done|]. cbn [existsb List.filter].
  rewrite orb_false_iff. intros [-> H]. cbn [negb]. by rewrite IH.
Qed.

(** X6. Ticking a day off and unticking it again, both requests
    succeeding, leaves [worker_availability] as a single untick would; when
    the table had no row for that worker and weekday it is the table as it
    was, and every checkbox that was shown is shown as before, the toggled
    one unticked. *)
Theorem toggleWorkerOffDay_on_off (u : string) (wd : Z)
    (m : gmap string (gset Z)) (w : World) :
  failing w = None →
  failing {| db := db w; faults := tail (faults w) |} = None →
  let on := AdminDashboard.toggleWorkerOffDay u wd true m w in
  let off := AdminDashboard.toggleWorkerOffDay u wd false on.1.1 on.2 in
  db off.2 = deleteAvailability u wd (db w)
  ∧ (existsb (sameDay u wd) (worker_availability (db w)) = false →
     db off.2 = db w)
  ∧ (∀ u' wd', AdminDashboard.checked off.1.1 u' wd'
               = if decide ((u', wd') = (u, wd)) then false
                 else AdminDashboard.checked m u' wd').
Proof.
  intros Hf Hf1 on off. subst on off.
  rewrite (toggleWorkerOffDay_success u wd true m w Hf). cbn [fst snd].
  rewrite (toggleWorkerOffDay_success u wd false _ _).
  2:{ revert Hf1. unfold failing. by cbn [faults]. }
  cbn [fst snd db].
  set (row := {| av_user_id := u; weekday := wd; is_off := true |}).
  assert (Hdel : deleteAvailability u wd (upsertAvailability row (db w))
                 = deleteAvailability u wd (db w)).
  { pose proof (filter_after_upsert row (db w)) as H.
    cbn [av_user_id weekday row] in H.
    unfold deleteAvailability. rewrite H.
    unfold upsertAvailability, withAvailability. reflexivity. }
  split; [exact Hdel|]. split.
  - intros Hno. rewrite Hdel. unfold deleteAvailability, withAvailability.
    rewrite (filter_all _ _ Hno). by destruct (db w).
  - intros u' wd'. rewrite checked_unticked.
    destruct (decide _) as [E|E]; [done|]. rewrite checked_ticked.
    by destruct (decide _).
Qed.

Lemma toggleWorkerOffDay_on_off_witness :
  let w := {| db := exampleWeek; faults := [] |} in
  let on := AdminDashboard.toggleWorkerOffDay "u1" 3 true ∅ w in
  db (AdminDashboard.toggleWorkerOffDay "u1" 3 false on.1.1 on.2).2 = db w.
Proof.
  intros w on.
  exact (proj1 (proj2 (toggleWorkerOffDay_on_off "u1" 3 ∅ w eq_refl eq_refl))
           eq_refl).
Defined.

(** *** The second dashboard *)

Lemma filter_user_upsert_other row d v :
  av_user_id row ≠ v →
  List.filter (λ r, bool_decide (av_user_id r = v))
              (worker_availability (upsertAvailability row d))
  = List.filter (λ r, bool_decide (av_user_id r = v)) (worker_availability d).
Proof.
  intros Hne. unfold upsertAvailability. cbn [worker_availability withAvailability].
  set (P := sameDay (av_user_id row) (weekday row)).
  assert (Hrow : bool_decide (av_user_id row = v) = false)
    by (by apply bool_decide_eq_false_2).
  destruct (existsb P (worker_availability d)).
  - induction (worker_availability d) as [|x l IH]; [done|].
    cbn [map List.filter]. destruct (P x) eqn:E.
    + apply sameDay_iff in E as [Hu _].
      rewrite Hrow, (bool_decide_eq_false_2 (av_user_id x = v)) by congruence.
      exact IH.
    + destruct (bool_decide (av_user_id x = v)); by rewrite IH.
  - rewrite List.filter_app. cbn [List.filter]. rewrite Hrow. apply app_nil_r.
Qed.

(** The rows embedded for a worker, searched for a weekday. *)
Lemma find_embedded v idx rules :
  List.find (λ d, bool_decide (AdminDashboard2.da_weekday d = idx))
    (map (λ d, {| AdminDashboard2.da_weekday := weekday d;
                  AdminDashboard2.da_is_off := is_off d |})
         (List.filter (λ r, bool_decide (av_user_id r = v)) rules))
  = (λ d, {| AdminDashboard2.da_weekday := weekday d;
             AdminDashboard2.da_is_off := is_off d |})
    <$> List.find (sameDay v idx) rules.
Proof.
  induction rules as [|r rules IH]; [done|]. cbn [List.filter List.find].
  unfold sameDay at 1.
  destruct (bool_decide_reflect (av_user_id r = v)) as [Hu|Hu].
  - cbn [map List.find AdminDashboard2.da_weekday andb].
    destruct (bool_decide (weekday r = idx)); [done|exact IH].
  - cbn [andb]. exact IH.
Qed.

(** X7. After a successful [toggleDayOff] on workers as
    [loadWorkersAvailability] loads them, the workers the page holds are
    those a reload would give from the table. *)
Theorem toggleDayOff_matches_reload (collate : option string → option string → Z)
    (u : string) (wd : Z) (newIsOff : bool) (w : World) :
  let loaded d :=
    map AdminDashboard2.toWorkerRow (AdminDashboard2.selectWorkers collate d) in
  (∀ w', failing w' = None →
         (AdminDashboard2.loadWorkersAvailability collate w').1
         = Data (loaded (db w')))
  ∧ (failing w = None →
     let out := AdminDashboard2.toggleDayOff u wd newIsOff (loaded (db w)) w in
     out.1.1 = loaded (db out.2))
  ∧ (failing w ≠ None →
     let out := AdminDashboard2.toggleDayOff u wd newIsOff (loaded (db w)) w in
     out.1 = (loaded (db w), "Error saving days off") ∧ db out.2 = db w).
Proof.
  intros loaded. split; [|split].
  - intros w' Hf. unfold AdminDashboard2.loadWorkersAvailability, mbind, M_bind.
    rewrite query_run, Hf. reflexivity.
  - intros Hf out. subst out.
    set (row := {| av_user_id := u; weekday := wd; is_off := newIsOff |}).
    assert (Hrun : AdminDashboard2.toggleDayOff u wd newIsOff (loaded (db w)) w
      = ((map (λ w, if decide (AdminDashboard2.wk_user_id w = u)
                    then {| AdminDashboard2.wk_user_id := AdminDashboard2.wk_user_id w;
                            AdminDashboard2.wk_full_name := AdminDashboard2.wk_full_name w;
                            AdminDashboard2.availability :=
                              map (λ d, if decide (AdminDashboard2.da_weekday d = wd)
                                        then {| AdminDashboard2.da_weekday :=
                                                  AdminDashboard2.da_weekday d;
                                                AdminDashboard2.da_is_off := newIsOff |}
                                        else d) (AdminDashboard2.availability w) |}
                    else w) (loaded (db w)),
          "Worker days off updated"),
         {| db := upsertAvailability row (db w); faults := tail (faults w) |})).
    { revert Hf.
      unfold failing, AdminDashboard2.toggleDayOff, mbind, M_bind, mutate, request.
      destruct (faults w) as [|[msg|] fs]; intros H; try discriminate;
        reflexivity. }
    rewrite Hrun. cbn [fst snd db]. unfold loaded, AdminDashboard2.selectWorkers.
    change (profiles (upsertAvailability row (db w))) with (profiles (db w)).
    rewrite !map_map. apply map_ext. intros p.
    unfold AdminDashboard2.toWorkerRow.
    cbn [fst snd AdminDashboard2.wk_user_id AdminDashboard2.wk_full_name
         AdminDashboard2.availability].
    destruct (decide (user_id p = u)) as [Hu|Hu].
    + f_equal. unfold AdminDashboard2.fullWeek. rewrite map_map.
      apply map_ext. intros idx. rewrite !find_embedded, Hu.
      destruct (decide (idx = wd)) as [->|Hidx].
      * pose proof (find_after_upsert row (db w)) as Hfind.
        cbn [av_user_id weekday row] in Hfind. rewrite Hfind. cbn.
        destruct (List.find (sameDay u wd) (worker_availability (db w)))
          as [r|] eqn:E; cbn.
        -- apply find_some in E as [_ E]. apply sameDay_iff in E as [_ ->].
           by rewrite decide_True.
        -- by rewrite decide_True.
      * rewrite (find_upsert_other u idx row (db w))
          by (unfold ruleKey; cbn; congruence).
        destruct (List.find (sameDay u idx) (worker_availability (db w)))
          as [r|] eqn:E; cbn.
        -- apply find_some in E as [_ E]. apply sameDay_iff in E as [_ Hw].
           rewrite decide_False by congruence. done.
        -- by rewrite decide_False.
    + rewrite (filter_user_upsert_other row (db w) (user_id p))
        by (cbn; congruence).
      done.
  - intros Hf out. subst out. revert Hf.
    unfold failing, AdminDashboard2.toggleDayOff, mbind, M_bind, mutate, request.
    destruct (faults w) as [|[msg|] fs]; intros H; try done.
Qed.

End DaysOffSync.

(** ** The tasks a worker sees *)

Section WorkerRows.
Import JSDate Repo.

Lemma insertSorted_map {A B} (f : A → B) (cmpA : A → A → Z)
    (cmpB : B → B → Z) x l :
  (∀ a b, cmpB (f a) (f b) = cmpA a b) →
  insertSorted cmpB (f x) (map f l) = map f (insertSorted cmpA x l).
Proof.
  intros H. induction l as [|y l IH]; [done|]. cbn [map insertSorted].
  rewrite H. destruct (cmpA x y <=? 0); [done|]. cbn [map]. by rewrite IH.
Qed.

Lemma sortBy_map {A B} (f : A → B) (cmpA : A → A → Z) (cmpB : B → B → Z) l :
  (∀ a b, cmpB (f a) (f b) = cmpA a b) →
  sortBy cmpB (map f l) = map f (sortBy cmpA l).
Proof.
  intros H. induction l as [|x l IH]; [done|]. cbn [map sortBy foldr].
  fold (sortBy cmpB (map f l)). fold (sortBy cmpA l).
  rewrite IH. by apply insertSorted_map.
Qed.

Lemma filter_map_commute {A} (f : A → A) (P : A → bool) l :
  (∀ a, P (f a) = P a) →
  List.filter P (map f l) = map f (List.filter P l).
Proof.
  intros H. induction l as [|x l IH]; [done|]. cbn [map List.filter].
  rewrite H. destruct (P x); cbn [map]; by rewrite IH.
Qed.

Lemma loadAssignments_run u date st w :
  WorkerDashboard.loadAssignments (Some u) date st w
  = (match failing w with
     | Some msg => {| WorkerDashboard.rows := WorkerDashboard.rows st;
                      WorkerDashboard.toast := Some msg |}
     | None => {| WorkerDashboard.rows :=
                    WorkerDashboard.selectAssignmentsOf u date (db w);
                  WorkerDashboard.toast := WorkerDashboard.toast st |}
     end, {| db := db w; faults := tail (faults w) |}).
Proof.
  unfold WorkerDashboard.loadAssignments, mbind, M_bind. rewrite query_run.
  by destruct (failing w).
Qed.

(** X8. After a successful [setStatus] on rows as [loadAssignments] loads
    them, the rows the page holds are those a reload would give from the
    table. *)
Theorem setStatus_matches_reload (now : string) (id : Z)
    (next : WorkerDashboard.Next) (u : string) (date : IsoDate)
    (shown : option string) (w : World) :
  let loaded d := WorkerDashboard.selectAssignmentsOf u date d in
  (∀ st' w', failing w' = None →
     WorkerDashboard.rows (WorkerDashboard.loadAssignments (Some u) date st' w').1
     = loaded (db w'))
  ∧ (failing w = None →
     let out := WorkerDashboard.setStatus now id next
                  {| WorkerDashboard.rows := loaded (db w);
                     WorkerDashboard.toast := shown |} w in
     WorkerDashboard.rows out.1 = loaded (db out.2)).
Proof.
  intros loaded. split.
  - intros st' w' Hf. by rewrite loadAssignments_run, Hf.
  - intros Hf out. subst out. rewrite (setStatus_success _ _ _ _ _ Hf).
    cbn [fst snd db WorkerDashboard.rows].
    unfold loaded, WorkerDashboard.selectAssignmentsOf, updateAssignmentWhereId.
    cbn [task_assignments withAssignments].
    set (g := λ a, if decide (asg_id a = id)
                   then patchAssignment (WorkerDashboard.patchOf now next) a
                   else a).
    assert (Hid : ∀ a, asg_id (g a) = asg_id a)
      by (intros a; unfold g; by destruct (decide _)).
    assert (Hu : ∀ a, asg_user_id (g a) = asg_user_id a)
      by (intros a; unfold g; by destruct (decide _)).
    rewrite (filter_map_commute g) by (intros a; by rewrite Hu).
    rewrite (sortBy_map g (λ a b, asg_id a - asg_id b))
      by (intros a b; by rewrite !Hid).
    rewrite !map_map. apply map_ext. intros a.
    unfold WorkerDashboard.toRow, WorkerDashboard.embedTaskOn, g.
    cbn [WorkerDashboard.assignment_id tasks rooms cleaning_levels withAssignments].
    destruct (decide (asg_id a = id)); [|done].
    by destruct next.
Qed.

(** X9. [loadAssignments] lists every assignment of the signed-in worker,
    in the order of the ids and whatever the date asked for: the date only
    decides which rows carry their task.  A row has a task only of the date
    asked for, and an assignment whose task is of another date is listed
    with no task.  Without a signed-in user the list is emptied; when the
    request fails the rows stay and the message is the toast. *)
Theorem loadAssignments_lists_all (u : string) (date : IsoDate)
    (st : WorkerDashboard.State) (w : World) :
  let out := WorkerDashboard.loadAssignments (Some u) date st w in
  (failing w = None →
     map WorkerDashboard.assignment_id (WorkerDashboard.rows out.1)
     = map asg_id (assignmentsOf u (db w))
     ∧ (∀ r t, r ∈ WorkerDashboard.rows out.1 →
               WorkerDashboard.task r = Some t →
               WorkerDashboard.ti_task_date t = date)
     ∧ (∀ a, a ∈ assignmentsOf u (db w) → onDate date (db w) a = false →
             ∃ r, r ∈ WorkerDashboard.rows out.1
                  ∧ WorkerDashboard.assignment_id r = asg_id a
                  ∧ WorkerDashboard.task r = None))
  ∧ (∀ msg, failing w = Some msg →
       out.1 = {| WorkerDashboard.rows := WorkerDashboard.rows st;
                  WorkerDashboard.toast := Some msg |})
  ∧ WorkerDashboard.rows (WorkerDashboard.loadAssignments None date st w).1 = []
  ∧ db out.2 = db w.
Proof.
  intros out. subst out. rewrite loadAssignments_run. cbn [fst snd db].
  split; [|split; [|done]].
  - intros ->. cbn [WorkerDashboard.rows].
    unfold WorkerDashboard.selectAssignmentsOf. fold (assignmentsOf u (db w)).
    split; [by rewrite map_map|]. split.
    + intros r t Hr. apply list_elem_of_In, in_map_iff in Hr as (a & <- & _).
      cbn [WorkerDashboard.toRow WorkerDashboard.task].
      unfold WorkerDashboard.embedTaskOn.
      destruct (List.find _ (tasks (db w))) as [t'|]; [|done]. cbn.
      destruct (bool_decide_reflect (task_date t' = date)); [|done].
      by intros [= <-].
    + intros a Ha Hoff. exists (WorkerDashboard.toRow date (db w) a).
      split; [apply list_elem_of_In, in_map, list_elem_of_In, Ha|].
      split; [done|]. cbn [WorkerDashboard.toRow WorkerDashboard.task].
      unfold WorkerDashboard.embedTaskOn. revert Hoff. unfold onDate, taskOf.
      destruct (List.find _ (tasks (db w))) as [t'|]; [|done]. cbn.
      intros Hoff. apply bool_decide_eq_false in Hoff.
      rewrite bool_decide_eq_false_2; [done|congruence].
  - intros msg ->. done.
Qed.

End WorkerRows.

(** ** The second worker dashboard *)

Section OwnTasks.
Import JSDate Repo WorkerDashboard2.

(** The row of the request of [loadTasks] for an assignment. *)
Lemma selectOwn_rows u d :
  selectOwn u d
  = map (λ a, {| or_id := asg_id a; or_status := asg_status a;
                 or_tasks := embedOwnTask d a |}) (assignmentsOf u d).
Proof. reflexivity. Qed.

Lemma embedOwnTask_date d a :
  et_task_date <$> embedOwnTask d a = task_date <$> taskOf d a.
Proof.
  unfold embedOwnTask, taskOf.
  by destruct (List.find _ (Repo.tasks d)).
Qed.

Lemma filter_map_swap {A B} (f : A → B) (P : B → bool) (l : list A) :
  List.filter P (map f l) = map f (List.filter (λ a, P (f a)) l).
Proof.
  induction l as [|x l IH]; [done|]. cbn [map List.filter].
  destruct (P (f x)); cbn [map]; by rewrite IH.
Qed.

Lemma filtered_own u date d :
  List.filter (λ row, bool_decide (et_task_date <$> or_tasks row = Some date))
              (selectOwn u d)
  = map (λ a, {| or_id := asg_id a; or_status := asg_status a;
                 or_tasks := embedOwnTask d a |})
        (List.filter (onDate date d) (assignmentsOf u d)).
Proof.
  rewrite selectOwn_rows, filter_map_swap. f_equal.
  apply filter_ext. intros a. cbn [or_tasks]. unfold onDate.
  by rewrite embedOwnTask_date.
Qed.

Lemma toWorkerTask_row d a t :
  toWorkerTask {| or_id := asg_id a; or_status := asg_status a;
                  or_tasks := embedOwnTask d a |} = Some t →
  assignment_id t = asg_id a ∧ status t = asg_status a
  ∧ wt_task_id t = asg_task_id a
  ∧ Some (wt_task_date t) = task_date <$> taskOf d a.
Proof.
  unfold toWorkerTask, embedOwnTask, taskOf. cbn [or_tasks or_id or_status].
  destruct (List.find _ (Repo.tasks d)) as [t'|] eqn:E; [|done]. cbn.
  apply find_some in E as [_ E%bool_decide_eq_true].
  destruct (List.find _ (rooms d)); [|done]. cbn.
  destruct (List.find _ (cleaning_levels d)); [|done]. cbn.
  by intros [= <-].
Qed.

Lemma mapM_rows d (l : list AssignmentRow) : ∀ mapped,
  mapM toWorkerTask
       (map (λ a, {| or_id := asg_id a; or_status := asg_status a;
                     or_tasks := embedOwnTask d a |}) l) = Some mapped →
  Forall2 (λ a t, assignment_id t = asg_id a ∧ status t = asg_status a
                  ∧ wt_task_id t = asg_task_id a
                  ∧ Some (wt_task_date t) = task_date <$> taskOf d a)
          l mapped.
Proof.
  induction l as [|a l IH]; intros mapped.
  - intros [= <-]. constructor.
  - cbn [map mapM]. unfold mbind at 1, option_bind at 1.
    destruct (toWorkerTask _) as [t|] eqn:Et; [|done].
    unfold mbind at 1, option_bind at 1.
    destruct (mapM toWorkerTask _) as [k|] eqn:Ek; [|done].
    intros [= <-]. constructor; [by apply (toWorkerTask_row d)|by apply IH].
Qed.

Lemma loadTasks_run u date st w :
  loadTasks u date st w
  = (match failing w with
     | Some _ => {| tasks := tasks st;
                    message := Some "Error loading your tasks" |}
     | None =>
         match mapM toWorkerTask
                 (List.filter
                    (λ row, bool_decide (et_task_date <$> or_tasks row
                                         = Some date))
                    (selectOwn u (db w))) with
         | Some mapped => {| tasks := mapped; message := None |}
         | None => {| tasks := tasks st; message := None |}
         end
     end, {| db := db w; faults := tail (faults w) |}).
Proof.
  unfold loadTasks, mbind, M_bind. rewrite query_run.
  destruct (failing w); [done|]. by destruct (mapM _ _).
Qed.

(** X10. The second worker dashboard lists, in the order of the ids, the
    worker's assignments whose task is of the date asked for, and no other
    row; or, when reading a row throws, it keeps the tasks it had.  It
    throws on no row when every task has its room and its level in the
    tables.  When the request fails the tasks stay and the message says
    so. *)
Theorem loadTasks_of_the_date (u : string) (date : IsoDate) (st : State)
    (w : World) :
  let out := loadTasks u date st w in
  let listed :=
    message out.1 = None
    ∧ Forall2 (λ a t, assignment_id t = asg_id a ∧ status t = asg_status a
                      ∧ wt_task_id t = asg_task_id a ∧ wt_task_date t = date)
              (List.filter (onDate date (db w)) (assignmentsOf u (db w)))
              (tasks out.1) in
  (failing w = None →
     out.1 = {| tasks := tasks st; message := None |} ∨ listed)
  ∧ (failing w = None →
     (∀ t, t ∈ Repo.tasks (db w) →
           (∃ r, r ∈ rooms (db w) ∧ room_id r = task_room_id t)
           ∧ (∃ l, l ∈ cleaning_levels (db w)
                   ∧ level_id l = cleaning_level_id t)) →
     listed)
  ∧ (failing w ≠ None →
     out.1 = {| tasks := tasks st;
                message := Some "Error loading your tasks" |})
  ∧ db out.2 = db w.
Proof.
  intros out listed. subst out listed. rewrite loadTasks_run. cbn [fst snd db].
  rewrite filtered_own.
  set (own := List.filter (onDate date (db w)) (assignmentsOf u (db w))).
  assert (Hon : ∀ a, a ∈ own → task_date <$> taskOf (db w) a = Some date).
  { intros a Ha. apply list_elem_of_In, filter_In in Ha as [_ Ha].
    by apply bool_decide_eq_true in Ha. }
  assert (Hlisted : ∀ mapped,
    mapM toWorkerTask
         (map (λ a, {| or_id := asg_id a; or_status := asg_status a;
                       or_tasks := embedOwnTask (db w) a |}) own) = Some mapped →
    Forall2 (λ a t, assignment_id t = asg_id a ∧ status t = asg_status a
                    ∧ wt_task_id t = asg_task_id a ∧ wt_task_date t = date)
            own mapped).
  { intros mapped Hm. apply mapM_rows in Hm.
    clear -Hm Hon. induction Hm as [|a t l k (H1 & H2 & H3 & H4) _ IH];
      constructor.
    - rewrite (Hon a) in H4 by apply list_elem_of_here.
      injection H4 as H4. done.
    - apply IH. intros a' Ha'. apply Hon. by apply list_elem_of_further. }
  split; [|split; [|split; [|done]]].
  - intros ->. destruct (mapM _ _) as [mapped|] eqn:Em; [right|by left].
    cbn [tasks message]. split; [done|]. by apply Hlisted.
  - intros -> Hfk. destruct (mapM _ _) as [mapped|] eqn:Em.
    { cbn [tasks message]. split; [done|]. by apply Hlisted. }
    exfalso. assert (Hs : is_Some (mapM toWorkerTask
         (map (λ a, {| or_id := asg_id a; or_status := asg_status a;
                       or_tasks := embedOwnTask (db w) a |}) own)));
      [|rewrite Em in Hs; by destruct Hs].
    apply mapM_is_Some, Forall_forall. intros row Hrow.
    apply list_elem_of_In, in_map_iff in Hrow as (a & <- & Ha).
    apply list_elem_of_In, Hon in Ha.
    unfold toWorkerTask, embedOwnTask. cbn [or_tasks or_id or_status].
    unfold taskOf in Ha.
    destruct (List.find _ (Repo.tasks (db w))) as [t|] eqn:Et; [|done].
    apply find_some in Et as [Hin%list_elem_of_In _].
    destruct (Hfk t Hin) as ((r & Hr & Hrid) & (l & Hl & Hlid)). cbn.
    destruct (List.find _ (rooms (db w))) eqn:Er.
    2:{ apply list_elem_of_In in Hr. apply (find_none _ _ Er r) in Hr.
        by apply bool_decide_eq_false in Hr. }
    destruct (List.find _ (cleaning_levels (db w))) eqn:El.
    2:{ apply list_elem_of_In in Hl. apply (find_none _ _ El l) in Hl.
        by apply bool_decide_eq_false in Hl. }
    cbn. done.
  - destruct (failing w); [done|]. intros H. by destruct H.
Qed.

(** X11. Whatever happens, the message left by [updateStatus] of the second
    worker dashboard is never "Status updated": the reload that follows
    clears it.  When both requests succeed no message is left; when the
    update fails the tasks and the table stay as they were. *)
Theorem updateStatus_message (u : string) (date : IsoDate) (id : Z)
    (s : Status) (st : State) (w : World) :
  let out := updateStatus u date id s st w in
  message out.1 ≠ Some "Status updated"
  ∧ (failing w = None →
     failing {| db := db w; faults := tail (faults w) |} = None →
     message out.1 = None)
  ∧ (failing w ≠ None →
     out.1 = {| tasks := tasks st; message := Some "Error updating status" |}
     ∧ db out.2 = db w).
Proof.
  intros out. subst out.
  unfold updateStatus, mbind, M_bind, mutate, request, failing.
  destruct (faults w) as [|[msg|] fs] eqn:Ef; cbn [fst snd db faults tail].
  - rewrite loadTasks_run. unfold failing. cbn [faults fst].
    split; [by destruct (mapM _ _)|]. split; [by destruct (mapM _ _)|done].
  - split; [done|]. split; [done|]. done.
  - rewrite loadTasks_run. unfold failing. cbn [faults fst].
    destruct fs as [|[msg|] fs]; cbn [message].
    + split; [by destruct (mapM _ _)|]. split; [by destruct (mapM _ _)|done].
    + split; [done|]. split; [done|done].
    + split; [by destruct (mapM _ _)|]. split; [by destruct (mapM _ _)|done].
Qed.

End OwnTasks.

(** ** Messages of the second admin dashboard *)

Section AdminMessages.
Import JSDate Repo AdminDashboard2.

Lemma loadTasks_message lc workers date st w :
  ps_message (loadTasks lc workers date st w).1.1 = None
  ∨ ps_message (loadTasks lc workers date st w).1.1 = Some "Error loading tasks".
Proof.
  unfold loadTasks, mbind, M_bind. rewrite query_run.
  destruct (failing w); [by right|].
  destruct (mapM toBaseTask _) as [base|]; [|by left].
  destruct (isEmpty _); [by left|].
  rewrite query_run. cbn [fst snd]. by destruct (failing _); left.
Qed.

(** X12. Whatever happens, the message left by [handleGenerate] is never
    "Assignments generated!": the reload that follows clears it.  The
    message is "Error generating assignments" exactly when the call of the
    procedure was answered with an error, and then the tasks and both
    summaries stay as they were; when the call succeeded the message is the
    one the reload of the tasks leaves: none, or "Error loading tasks". *)
Theorem handleGenerate_message (lc : string → string → Z) (tz : Zone)
    (gen : IsoDate → DB → (string + unit) * DB)
    (workers : list WorkerRow) (date : IsoDate) (st : PageState) (w : World) :
  let out := handleGenerate lc tz gen workers date st w in
  let call := rpc (gen date) w in
  let st0 := {| ps_tasks := ps_tasks st;
                ps_workerSummary := ps_workerSummary st;
                ps_weeklySummary := ps_weeklySummary st;
                ps_message := Some "Assignments generated!" |} in
  ps_message out.1 ≠ Some "Assignments generated!"
  ∧ (ps_message out.1 = None
     ∨ ps_message out.1 = Some "Error loading tasks"
     ∨ ps_message out.1 = Some "Error generating assignments")
  ∧ (ps_message out.1 = Some "Error generating assignments"
     ↔ ∃ msg, call.1 = Failure msg)
  ∧ (ps_message out.1 = Some "Error generating assignments" →
     ps_tasks out.1 = ps_tasks st
     ∧ ps_workerSummary out.1 = ps_workerSummary st
     ∧ ps_weeklySummary out.1 = ps_weeklySummary st)
  ∧ (∀ u, call.1 = Data u →
     ps_message out.1
     = ps_message (loadTasks lc workers date st0 call.2).1.1).
Proof.
  intros out call st0. subst out call.
  unfold handleGenerate, mbind, M_bind.
  destruct (rpc (gen date) w) as [[[]|msg] w1]; cbn [fst snd].
  - fold st0.
    pose proof (loadTasks_message lc workers date st0 w1) as Hm.
    destruct (loadTasks lc workers date st0 w1) as [[st1 threw] w2].
    cbn [fst snd] in Hm |- *.
    assert (Hout : ∀ out : PageState * World,
              ps_message out.1 = ps_message st1 →
              ps_message out.1 ≠ Some "Assignments generated!"
              ∧ (ps_message out.1 = None
                 ∨ ps_message out.1 = Some "Error loading tasks"
                 ∨ ps_message out.1 = Some "Error generating assignments")
              ∧ (ps_message out.1 = Some "Error generating assignments"
                 ↔ ∃ msg, Data () = Failure msg)
              ∧ (ps_message out.1 = Some "Error generating assignments" →
                 ps_tasks out.1 = ps_tasks st
                 ∧ ps_workerSummary out.1 = ps_workerSummary st
                 ∧ ps_weeklySummary out.1 = ps_weeklySummary st)
              ∧ (∀ u : (), Data () = Data u →
                 ps_message out.1 = ps_message st1)).
    { intros out ->.
      split; [by destruct Hm as [-> | ->]|].
      split; [destruct Hm as [-> | ->]; [by left|by right; left]|].
      split.
      { split; [by destruct Hm as [Hm|Hm]; rewrite Hm|by intros [m ?]]. }
      split; [by destruct Hm as [Hm|Hm]; rewrite Hm|done]. }
    destruct threw; [by apply Hout|].
    destruct (loadWeeklySummary lc tz workers date w2) as [[weekly b] w3].
    by apply Hout.
  - cbn [ps_message ps_tasks ps_workerSummary ps_weeklySummary].
    split; [done|]. split; [by right; right|].
    split; [split; [by exists msg|done]|]. split; [done|]. by intros u.
Qed.

End AdminMessages.

(** ** The summary of the day *)

Section DaySummary.
Import JSDate Repo AdminDashboard.
Implicit Types (m : list (string * SummaryEntry)).

Lemma foldl_names_flat tasks : ∀ acc,
  foldl (λ acc t,
           foldl (λ acc n, acc ≫= λ map, countName (td_room_name t) map n)
                 acc (assigned_to_names t))
        acc tasks
  = foldl (λ acc p, acc ≫= λ map, countName p.1 map p.2) acc
          (namesWithRoom tasks).
Proof.
  unfold namesWithRoom.
  induction tasks as [|t ts IH]; intros acc; simpl; [done|].
  rewrite foldl_app, IH. f_equal.
  generalize acc. induction (assigned_to_names t) as [|a l IHl]; intros acc';
    simpl; [done|].
  by rewrite IHl.
Qed.

Lemma countName_own room m n :
  n ∈ JSMap.keys m ∨ inherited n = false →
  countName room m n = Some (countOwn m (room, n)).
Proof.
  unfold countName, countOwn. cbn [fst snd].
  destruct (JSMap.get n m) as [e|] eqn:Hget; [done|].
  intros [Hin| ->]; [|done].
  by apply get_None_keys in Hget.
Qed.

Lemma countName_throws room m n :
  n ∉ JSMap.keys m → inherited n = true → countName room m n = None.
Proof.
  intros Hout Hin. unfold countName.
  apply get_None_keys in Hout. by rewrite Hout, Hin.
Qed.

Lemma foldl_countName_thrown pairs :
  foldl (λ acc p, acc ≫= λ map, countName p.1 map p.2) None pairs = None.
Proof. induction pairs as [|p pairs IH]; [done|]. exact IH. Qed.

Lemma countOwn_keys m p k :
  k ∈ JSMap.keys (countOwn m p) ↔ k = p.2 ∨ k ∈ JSMap.keys m.
Proof. unfold countOwn. apply elem_keys_set. Qed.

(** The loops run through when no name is inherited ... *)
Lemma foldl_countName_own pairs : ∀ m,
  (∀ p, p ∈ pairs → inherited p.2 = false) →
  foldl (λ acc p, acc ≫= λ map, countName p.1 map p.2) (Some m) pairs
  = Some (foldl countOwn m pairs).
Proof.
  induction pairs as [|[room n] pairs IH]; intros m Hall; [done|].
  cbn [foldl fst snd mbind option_bind].
  rewrite countName_own by (right; apply (Hall (room, n)); left).
  apply IH. intros p Hp. apply Hall. by right.
Qed.

(** ... and throw at the first inherited name. *)
Lemma foldl_countName_throws pairs : ∀ m,
  (∀ k, k ∈ JSMap.keys m → inherited k = false) →
  (∃ p, p ∈ pairs ∧ inherited p.2 = true) →
  foldl (λ acc p, acc ≫= λ map, countName p.1 map p.2) (Some m) pairs = None.
Proof.
  induction pairs as [|[room n] pairs IH]; intros m Hkeys (p & Hp & Hinh).
  { by apply elem_of_nil in Hp. }
  cbn [foldl fst snd mbind option_bind].
  destruct (inherited n) eqn:Hn.
  - rewrite countName_throws; [apply foldl_countName_thrown| |done].
    intros Hin. apply Hkeys in Hin. congruence.
  - rewrite countName_own by by right.
    apply IH.
    + intros k [-> |Hk]%countOwn_keys; [done|by apply Hkeys].
    + apply elem_of_cons in Hp as [-> |Hp]; [cbn in Hinh; congruence|].
      by exists p.
Qed.

Lemma countOwn_get m p k :
  JSMap.get k (countOwn m p)
  = if decide (k = p.2)
    then let e := default {| se_count := 0; se_rooms := [] |}
                          (JSMap.get p.2 m) in
         Some {| se_count := se_count e + 1; se_rooms := se_rooms e ++ [p.1] |}
    else JSMap.get k m.
Proof.
  unfold countOwn. destruct (decide (k = p.2)) as [->|Hne].
  - by rewrite get_set_eq.
  - by rewrite get_set_ne by done.
Qed.

(** What the map holds for a name after the loops. *)
Lemma foldl_countOwn_get k pairs : ∀ m,
  let zero := {| se_count := 0; se_rooms := [] |} in
  let e0 := default zero (JSMap.get k m) in
  let e := default zero (JSMap.get k (foldl countOwn m pairs)) in
  let mine := List.filter (λ p : string * string, bool_decide (p.2 = k)) pairs in
  se_count e = (se_count e0 + length mine)%nat
  ∧ se_rooms e = (se_rooms e0 ++ map fst mine)%list.
Proof.
  induction pairs as [|[room n] pairs IH]; intros m; cbn zeta.
  - cbn [foldl List.filter length map]. by rewrite Nat.add_0_r, app_nil_r.
  - cbn [foldl List.filter fst snd].
    destruct (IH (countOwn m (room, n))) as [Hc Hr]. cbn zeta in Hc, Hr.
    rewrite Hc, Hr, countOwn_get. cbn [fst snd].
    destruct (decide (k = n)) as [->|Hne].
    + rewrite bool_decide_eq_true_2 by done. cbn [default from_option id
        se_count se_rooms length map fst].
      rewrite <- app_assoc. split; [lia|done].
    + rewrite bool_decide_eq_false_2 by congruence. done.
Qed.

Lemma foldl_countOwn_keys pairs : ∀ m,
  NoDup (JSMap.keys m) →
  NoDup (JSMap.keys (foldl countOwn m pairs))
  ∧ ∀ k, k ∈ JSMap.keys (foldl countOwn m pairs)
         ↔ k ∈ JSMap.keys m ∨ k ∈ map snd pairs.
Proof.
  induction pairs as [|[room n] pairs IH]; intros m Hnd.
  - cbn [foldl map]. split; [done|]. intros k. rewrite elem_of_nil. tauto.
  - cbn [foldl fst snd map].
    destruct (IH (countOwn m (room, n))) as [H1 H2].
    { unfold countOwn. by apply keys_set_NoDup. }
    split; [done|]. intros k. rewrite H2, countOwn_keys, elem_of_cons.
    cbn [snd]. tauto.
Qed.

Lemma foldl_countOwn_sum pairs : ∀ m,
  sum_list (se_count <$> JSMap.values (foldl countOwn m pairs))
  = (sum_list (se_count <$> JSMap.values m) + length pairs)%nat.
Proof.
  induction pairs as [|[room n] pairs IH]; intros m.
  - cbn [foldl length]. lia.
  - cbn [foldl fst snd length]. rewrite IH. unfold countOwn. cbn [fst snd].
    pose proof (sum_set se_count n
      {| se_count := se_count (default {| se_count := 0; se_rooms := [] |}
                                 (JSMap.get n m)) + 1;
         se_rooms := se_rooms (default {| se_count := 0; se_rooms := [] |}
                                 (JSMap.get n m)) ++ [room] |} m) as H.
    cbn [se_count] in H.
    destruct (JSMap.get n m) as [e|]; cbn in H |- *; lia.
Qed.

Lemma Sorted_weaken {A} (R R' : A → A → Prop) (l : list A) :
  (∀ a b, R a b → R' a b) → Sorted R l → Sorted R' l.
Proof.
  intros H. induction 1 as [|x l Hs IH Hhd]; constructor; [done|].
  destruct Hhd; constructor; auto.
Qed.

Lemma filter_split_perm {A} (f : A → bool) (l : list A) :
  (List.filter f l ++ List.filter (λ x, negb (f x)) l)%list ≡ₚ l.
Proof.
  induction l as [|x l IH]; [done|]. cbn [List.filter].
  destruct (f x); cbn [negb app].
  - by rewrite IH.
  - rewrite <- Permutation_middle. by rewrite IH.
Qed.

(** [Object.entries] lists every entry once. *)
Lemma entries_perm {V} (obj : list (string * V)) : entries obj ≡ₚ obj.
Proof.
  unfold entries. rewrite sortBy_perm. apply filter_split_perm.
Qed.

Section Locale.
Variable localeCompare : string → string → Z.

Lemma workerSummary_own tasks :
  (∀ name, name ∈ map snd (namesWithRoom tasks) → inherited name = false) →
  workerSummary localeCompare tasks
  = Some (sortBy (summaryCmp localeCompare)
      (map (λ '(name, v), {| sr_name := name; sr_count := se_count v;
                             sr_rooms := se_rooms v |})
           (entries (foldl countOwn [] (namesWithRoom tasks))))).
Proof.
  intros Hall. unfold workerSummary.
  rewrite foldl_names_flat, foldl_countName_own; [done|].
  intros p Hp. apply Hall, list_elem_of_In, in_map, list_elem_of_In, Hp.
Qed.

Lemma workerSummary_throws tasks :
  (∃ name, name ∈ map snd (namesWithRoom tasks) ∧ inherited name = true) →
  workerSummary localeCompare tasks = None.
Proof.
  intros (name & Hin & Hinh). unfold workerSummary.
  rewrite foldl_names_flat, foldl_countName_throws; [done| |].
  - intros k Hk. by apply elem_of_nil in Hk.
  - apply list_elem_of_In, in_map_iff in Hin as (p & <- & Hp).
    exists p. split; [by apply list_elem_of_In|done].
Qed.

Lemma summaryCmp_total :
  (∀ a b, localeCompare a b <= 0 ∨ localeCompare b a <= 0) →
  ∀ a b, summaryCmp localeCompare a b <= 0 ∨ summaryCmp localeCompare b a <= 0.
Proof.
  intros Htot a b. unfold summaryCmp, orElse.
  destruct (Z.eqb_spec (Z.of_nat (sr_count b) - Z.of_nat (sr_count a)) 0);
    destruct (Z.eqb_spec (Z.of_nat (sr_count a) - Z.of_nat (sr_count b)) 0);
    try lia.
  apply Htot.
Qed.

(** A worker called like a property every object inherits: computing the
    summary throws. *)
Example workerSummary_inherited_name :
  workerSummary codeUnitCompare
    [{| td_task_id := 1; td_room_id := 1; td_room_name := "R1";
        td_cleaning_level_id := 1; td_cleaning_level_name := "Basic";
        td_is_harvest_shift := false;
        assigned_to_names := ["constructor"] |}] = None.
Proof. reflexivity. Qed.

(** X13. Computing the summary of the day throws TypeError when a name
    assigned to a task of the day is a name every object inherits
    ([constructor], [toString], ...).  Otherwise it returns rows: one for each
    name assigned to a task of the day and none for anyone else; a row counts
    the assignments under its name, lists the rooms of their tasks in the
    order of the tasks, one entry for each assignment, and the counts add
    up to the number of assignments shown.  Where [localeCompare] is a
    total order the rows come by falling count. *)
Theorem workerSummary_counts (tasks : list TaskDisplay) :
  let mine name :=
    List.filter (λ p : string * string, bool_decide (p.2 = name))
                (namesWithRoom tasks) in
  ((∃ name, name ∈ map snd (namesWithRoom tasks) ∧ inherited name = true) →
   workerSummary localeCompare tasks = None)
  ∧ ((∀ name, name ∈ map snd (namesWithRoom tasks) → inherited name = false) →
     ∃ out, workerSummary localeCompare tasks = Some out
     ∧ NoDup (map sr_name out)
     ∧ (∀ name, name ∈ map sr_name out ↔ name ∈ map snd (namesWithRoom tasks))
     ∧ (∀ e, e ∈ out →
          sr_count e = length (mine (sr_name e))
          ∧ sr_rooms e = map fst (mine (sr_name e))
          ∧ (1 <= sr_count e)%nat)
     ∧ sum_list (sr_count <$> out) = length (namesWithRoom tasks)
     ∧ ((∀ a b, localeCompare a b <= 0 ∨ localeCompare b a <= 0) →
        Sorted (λ a b, (sr_count b <= sr_count a)%nat) out)).
Proof.
  intros mine. split; [apply workerSummary_throws|].
  intros Hall. eexists. split; [by apply workerSummary_own|].
  set (pairs := namesWithRoom tasks) in *.
  set (m := foldl countOwn [] pairs).
  set (mk := λ '(name, v), {| sr_name := name; sr_count := se_count v;
                              sr_rooms := se_rooms v |}).
  destruct (foldl_countOwn_keys pairs [] (NoDup_nil_2)) as [Hnd Hkeys].
  fold m in Hnd, Hkeys.
  assert (Hnames : ∀ l, map sr_name (map mk l) = JSMap.keys l).
  { intros l. unfold JSMap.keys. rewrite map_map. apply map_ext.
    by intros [name v]. }
  assert (Hperm : map sr_name
                    (sortBy (summaryCmp localeCompare) (map mk (entries m)))
                  ≡ₚ JSMap.keys m).
  { rewrite <- Hnames. apply Permutation_map.
    rewrite sortBy_perm. apply Permutation_map, entries_perm. }
  assert (Hentry : ∀ e,
            e ∈ sortBy (summaryCmp localeCompare) (map mk (entries m)) →
            sr_count e = length (mine (sr_name e))
            ∧ sr_rooms e = map fst (mine (sr_name e))
            ∧ sr_name e ∈ JSMap.keys m).
  { intros e. rewrite sortBy_elem.
    intros Hin. apply list_elem_of_In, in_map_iff in Hin as ([name v] & <- & Hin).
    apply list_elem_of_In in Hin. rewrite entries_perm in Hin.
    cbn [mk sr_name sr_count sr_rooms].
    destruct (foldl_countOwn_get name pairs []) as [Hc Hr].
    cbn zeta in Hc, Hr. fold m in Hc, Hr.
    rewrite (elem_get _ _ _ Hnd Hin) in Hc, Hr. cbn in Hc, Hr.
    split; [exact Hc|]. split; [exact Hr|].
    unfold JSMap.keys. apply list_elem_of_In, in_map_iff. exists (name, v).
    split; [done|by apply list_elem_of_In]. }
  split; [by rewrite Hperm|].
  split.
  { intros name. rewrite Hperm, Hkeys. unfold JSMap.keys. cbn [map].
    rewrite elem_of_nil. tauto. }
  split.
  { intros e He. destruct (Hentry e He) as (Hc & Hr & Hk).
    split; [done|]. split; [done|]. rewrite Hc.
    apply Hkeys in Hk as [Hk|Hk]; [by apply elem_of_nil in Hk|].
    apply list_elem_of_In, in_map_iff in Hk as (p & Hp & Hin).
    assert (Hmine : p ∈ mine (sr_name e)).
    { apply list_elem_of_In, filter_In. split; [done|].
      by apply bool_decide_eq_true_2. }
    destruct (mine (sr_name e)); [by apply elem_of_nil in Hmine|].
    cbn [length]. lia. }
  split.
  { rewrite sortBy_perm.
    pose proof (foldl_countOwn_sum pairs []) as Hsum. fold m in Hsum.
    cbn in Hsum. rewrite <- Hsum. unfold JSMap.values.
    assert (Hsum' : ∀ l : list (string * SummaryEntry),
              sum_list (sr_count <$> map mk l) = sum_list (se_count <$> map snd l)).
    { clear. induction l as [|[name v] l IH]; [done|].
      cbn. unfold fmap in *. cbn in IH. by rewrite IH. }
    rewrite Hsum'. by rewrite entries_perm. }
  intros Htot.
  apply (Sorted_weaken (cmpLe (summaryCmp localeCompare))).
  - intros a b. unfold cmpLe, summaryCmp, orElse.
    destruct (Z.eqb_spec (Z.of_nat (sr_count b) - Z.of_nat (sr_count a)) 0); lia.
  - apply sortBy_sorted, summaryCmp_total, Htot.
Qed.

End Locale.
End DaySummary.

(** ** Routes *)

Section Routes.
Import Repo App.

(** The page the session is entitled to. *)
Lemma settle_page r isAuthed profile :
  settle 2 r isAuthed profile
  = Some (match profile with
          | Some p =>
              if isAuthed
              then match role p with
                   | admin => AdminDashboard
                   | worker => WorkerDashboard
                   end
              else LoginPage
          | None => LoginPage
          end).
Proof.
  destruct profile as [[uid name [] act]|]; destruct isAuthed; by destruct r.
Qed.

(** X14. From whichever route the application is entered, following its
    redirects ends after at most two of them, on a page that depends on the
    session alone: the admin dashboard for a signed-in admin, the worker
    dashboard for a signed-in worker, and the login page when nobody is
    signed in or the profile could not be loaded.  So no dashboard is ever
    shown to the other role or without a session. *)
Theorem routes_settle (r : Route) (isAuthed : bool) (profile : option Profile) :
  ∃ page, settle 2 r isAuthed profile = Some page
    ∧ (page = AdminDashboard
       ↔ isAuthed = true ∧ ∃ p, profile = Some p ∧ role p = admin)
    ∧ (page = WorkerDashboard
       ↔ isAuthed = true ∧ ∃ p, profile = Some p ∧ role p = worker)
    ∧ (page = LoginPage ↔ isAuthed = false ∨ profile = None)
    ∧ (∀ r', settle 2 r' isAuthed profile = Some page)
    ∧ element (match page with
               | LoginPage => RLogin
               | AdminDashboard => RAdmin
               | WorkerDashboard => RWorker
               end) isAuthed profile = Render page.
Proof.
  rewrite settle_page. eexists. split; [reflexivity|].
  assert (Hall : ∀ page, (∀ r', settle 2 r' isAuthed profile = Some page)
                         ↔ settle 2 RStar isAuthed profile = Some page).
  { intros page. split; [by intros H|]. intros H r'.
    rewrite settle_page in *. done. }
  rewrite Hall, settle_page.
  destruct profile as [[uid name [] act]|]; destruct isAuthed;
    cbn [role element andb bool_decide decide_rel];
    repeat split; try done; try discriminate;
    try (intros [? (p & ? & ?)]; simplify_eq; done);
    try (intros [?|?]; done);
    try (eexists; split; [reflexivity|done]);
    try (by left); try (by right).
Qed.

End Routes.

(** ** Cleaning levels of a task *)

Section Levels.
Import JSDate Repo.

(** What the update of a task's level leaves alone. *)
Lemma updateTaskLevelWhereId_frame newLevelId taskId d :
  let d' := AdminDashboard.updateTaskLevelWhereId newLevelId taskId d in
  rooms d' = rooms d ∧ cleaning_levels d' = cleaning_levels d
  ∧ profiles d' = profiles d ∧ worker_availability d' = worker_availability d
  ∧ task_assignments d' = task_assignments d
  ∧ map task_id (tasks d') = map task_id (tasks d)
  ∧ map task_date (tasks d') = map task_date (tasks d)
  ∧ map task_room_id (tasks d') = map task_room_id (tasks d)
  ∧ map is_harvest_shift (tasks d') = map is_harvest_shift (tasks d)
  ∧ map cleaning_level_id (tasks d')
    = map (λ t, if decide (task_id t = taskId) then newLevelId
                else cleaning_level_id t) (tasks d).
Proof.
  cbn zeta. unfold AdminDashboard.updateTaskLevelWhereId.
  cbn [rooms cleaning_levels profiles worker_availability task_assignments tasks].
  repeat (split; [done|]). rewrite !map_map.
  repeat split; apply map_ext; intros t; by destruct (decide _).
Qed.

(** X15. The levels [loadCleaningLevels] sets are those of the table.
    [updateTaskLevel] of the second admin dashboard sends no request
    and changes nothing when no loaded level has the chosen code.
    Otherwise it asks for the id of the first loaded level of that code;
    on success the tasks of that id, on the page, carry the code and that
    id, the other tasks are as they were, and in the table only the level
    of the tasks of that id has changed; on failure the page and the table
    stay as they were. *)
Theorem updateTaskLevel_by_code (cleaningLevels : list CleaningLevel)
    (taskId : Z) (newLevelCode : string)
    (shown : list AdminDashboard2.TaskRow) (w : World) :
  let out := AdminDashboard2.updateTaskLevel cleaningLevels taskId newLevelCode
               shown w in
  (∀ w' levels, (AdminDashboard2.loadCleaningLevels w').1 = Data levels →
                ∀ l, l ∈ levels ↔ l ∈ cleaning_levels (db w'))
  ∧ ((∀ l, l ∈ cleaningLevels → level_name l ≠ newLevelCode) →
     out = ((shown, None), w))
  ∧ (∀ level,
       List.find (λ l, bool_decide (level_name l = newLevelCode)) cleaningLevels
       = Some level →
       (failing w = None →
          out.1.2 = Some "Cleaning level updated"
          ∧ db out.2
            = AdminDashboard.updateTaskLevelWhereId (level_id level) taskId (db w)
          ∧ map AdminDashboard2.tr_id out.1.1 = map AdminDashboard2.tr_id shown
          ∧ Forall2 (λ t t',
               if decide (AdminDashboard2.tr_id t = taskId)
               then AdminDashboard2.tr_cleaning_level t' = level_name level
                    ∧ AdminDashboard2.tr_cleaning_level_id t' = level_id level
                    ∧ AdminDashboard2.tr_room_name t'
                      = AdminDashboard2.tr_room_name t
                    ∧ AdminDashboard2.assignees t' = AdminDashboard2.assignees t
               else t' = t) shown out.1.1)
       ∧ (failing w ≠ None →
          out.1 = (shown, Some "Error updating cleaning level")
          ∧ db out.2 = db w))
  ∧ (∀ newLevelId d,
       let d' := AdminDashboard.updateTaskLevelWhereId newLevelId taskId d in
       rooms d' = rooms d ∧ cleaning_levels d' = cleaning_levels d
       ∧ profiles d' = profiles d
       ∧ worker_availability d' = worker_availability d
       ∧ task_assignments d' = task_assignments d
       ∧ map task_id (tasks d') = map task_id (tasks d)
       ∧ map task_date (tasks d') = map task_date (tasks d)
       ∧ map task_room_id (tasks d') = map task_room_id (tasks d)
       ∧ map is_harvest_shift (tasks d') = map is_harvest_shift (tasks d)
       ∧ map cleaning_level_id (tasks d')
         = map (λ t, if decide (task_id t = taskId) then newLevelId
                     else cleaning_level_id t) (tasks d)).
Proof.
  intros out. subst out. split.
  { intros w' levels. unfold AdminDashboard2.loadCleaningLevels, mbind, M_bind.
    rewrite query_run. cbn [fst]. destruct (failing w'); [done|].
    intros [= <-] l. apply sortBy_elem. }
  unfold AdminDashboard2.updateTaskLevel. split; [|split].
  3:{ intros n d. apply updateTaskLevelWhereId_frame. }
  - intros Hno.
    destruct (List.find _ cleaningLevels) as [l|] eqn:E; [|done].
    apply find_some in E as [Hin%list_elem_of_In E%bool_decide_eq_true].
    by destruct (Hno l Hin).
  - intros level Hfind.
    assert (Hcode : level_name level = newLevelCode).
    { by apply find_some in Hfind as [_ E%bool_decide_eq_true]. }
    rewrite Hfind. unfold mbind, M_bind, mret, M_ret, mutate, request, failing.
    destruct (faults w) as [|[msg|] fs]; cbn [fst snd db]; (split; [|done]).
    all: try done.
    all: intros _; split; [done|]; split; [done|]; split.
    all: try (rewrite map_map; apply map_ext; intros t; by destruct (decide _)).
    all: induction shown as [|t ts IH]; constructor; [|exact IH].
    all: destruct (decide _); cbn; done.
Qed.

End Levels.

(** ** The tasks of the selected day *)

Section DayTasks.
Import JSDate Repo AdminDashboard.

Lemma foldl_insert_lookup_gen {A} (key : A → Z) (l : list A) (k : Z) :
  ∀ m0 : gmap Z A,
  NoDup (map key l) →
  foldl (λ m x, <[key x := x]> m) m0 l !! k
  = match List.find (λ x, bool_decide (key x = k)) l with
    | Some x => Some x
    | None => m0 !! k
    end.
Proof.
  induction l as [|x l IH]; intros m0 Hnd; [done|].
  cbn [map] in Hnd. apply NoDup_cons in Hnd as [Hx Hnd].
  cbn [foldl List.find]. rewrite (IH _ Hnd).
  destruct (bool_decide_reflect (key x = k)) as [Hk|Hk].
  - destruct (List.find _ l) as [y|] eqn:E.
    + apply find_some in E as [Hin E%bool_decide_eq_true].
      destruct Hx. rewrite Hk, <- E.
      apply list_elem_of_In, in_map, Hin.
    + by rewrite Hk, lookup_insert_eq.
  - destruct (List.find _ l); [done|]. by rewrite lookup_insert_ne.
Qed.

Lemma foldl_insert_lookup {A} (key : A → Z) (l : list A) (k : Z) :
  NoDup (map key l) →
  foldl (λ m x, <[key x := x]> m) (∅ : gmap Z A) l !! k
  = List.find (λ x, bool_decide (key x = k)) l.
Proof.
  intros Hnd. rewrite foldl_insert_lookup_gen by done.
  by destruct (List.find _ l).
Qed.

Lemma foldl_insert_lookup_None {A} (key : A → Z) (l : list A) (k : Z) :
  ∀ m0 : gmap Z A,
  (∀ x, x ∈ l → key x ≠ k) →
  foldl (λ m x, <[key x := x]> m) m0 l !! k = m0 !! k.
Proof.
  induction l as [|x l IH]; intros m0 Hno; [done|].
  cbn [foldl]. rewrite IH by (intros y Hy; apply Hno; by apply list_elem_of_further).
  apply lookup_insert_ne, Hno, list_elem_of_here.
Qed.

Lemma filter_filter_imp {A} (P Q : A → bool) (l : list A) :
  (∀ x, P x = true → Q x = true) →
  List.filter P (List.filter Q l) = List.filter P l.
Proof.
  intros H. induction l as [|x l IH]; [done|]. cbn [List.filter].
  destruct (Q x) eqn:EQ; cbn [List.filter].
  - by rewrite IH.
  - destruct (P x) eqn:EP; [|done]. apply H in EP. congruence.
Qed.

Lemma Sorted_map {A B} (f : A → B) (R : B → B → Prop) (l : list A) :
  Sorted (λ a b, R (f a) (f b)) l → Sorted R (map f l).
Proof.
  induction 1 as [|x l Hs IH Hhd]; cbn [map]; constructor; [done|].
  destruct Hhd; cbn [map]; constructor; done.
Qed.

Lemma selectTasksOn_elem date d t :
  t ∈ selectTasksOn date d ↔ t ∈ tasks d ∧ task_date t = date.
Proof.
  unfold selectTasksOn.
  rewrite sortBy_elem, list_elem_of_In, filter_In, <- list_elem_of_In.
  by rewrite bool_decide_eq_true.
Qed.

Lemma selectTasksOn_sorted date d :
  Sorted Z.le (map task_room_id (selectTasksOn date d)).
Proof.
  apply Sorted_map.
  apply (Sorted_weaken (cmpLe (λ a b, task_room_id a - task_room_id b))).
  - unfold cmpLe. intros a b. lia.
  - apply sortBy_sorted. intros a b. lia.
Qed.

(** Whatever requests fail, what [loadTasksForDate] returns as data is
    [displayOf] of the tables, which it leaves as they are. *)
Lemma loadTasksForDate_data rooms levels date w :
  (∀ display, (loadTasksForDate rooms levels date w).1 = Data display →
              display = displayOf rooms levels date (db w))
  ∧ (faults w = [] →
     loadTasksForDate rooms levels date w
     = (Data (displayOf rooms levels date (db w)), w)).
Proof.
  unfold loadTasksForDate, displayOf, mbind, M_bind, mret, M_ret.
  rewrite query_run. cbn [fst snd].
  set (base := selectTasksOn date (db w)).
  split.
  - destruct (failing w); [done|].
    destruct (isEmpty (map task_id base)) eqn:E1; cbn [fst snd].
    + cbn [map remove_dups isEmpty]. by intros display [= <-].
    + rewrite query_run. cbn [fst snd db].
      destruct (failing _); [done|].
      destruct (isEmpty (remove_dups _)) eqn:E2; cbn [fst snd].
      * by intros display [= <-].
      * rewrite query_run. cbn [fst snd db].
        destruct (failing _); [done|]. by intros display [= <-].
  - intros Hf. unfold failing. rewrite Hf.
    destruct w as [d fs]. cbn [faults db] in *. subst fs. fold base.
    destruct (isEmpty (map task_id base)) eqn:E1; cbn [fst snd tail].
    + done.
    + rewrite query_run. unfold failing. cbn [fst snd db faults tail].
      destruct (isEmpty (remove_dups _)) eqn:E2; cbn [fst snd]; [done|].
      rewrite query_run. unfold failing. cbn [fst snd db faults tail]. done.
Qed.

(** X16. What [loadTasksForDate] sets has one row for each task of the
    date, in the order of the room ids; a row carries the task's id, room
    and level, and as many names as the task has assignments, in code-unit
    order.  It sets rows whenever no request fails, and it writes nothing. *)
Theorem loadTasksForDate_rows (rooms : list Room) (levels : list CleaningLevel)
    (date : IsoDate) (w : World) :
  let out := loadTasksForDate rooms levels date w in
  (faults w = [] → ∃ display, out.1 = Data display)
  ∧ (∀ display, out.1 = Data display →
       Forall2 (λ t row,
            td_task_id row = task_id t ∧ td_room_id row = task_room_id t
            ∧ td_cleaning_level_id row = cleaning_level_id t
            ∧ td_is_harvest_shift row = is_harvest_shift t
            ∧ length (assigned_to_names row)
              = length (List.filter
                          (λ a, bool_decide (asg_task_id a = task_id t))
                          (task_assignments (db w)))
            ∧ Sorted (cmpLe codeUnitCompare) (assigned_to_names row))
         (selectTasksOn date (db w)) display
       ∧ Sorted Z.le (map td_room_id display))
  ∧ (∀ t, t ∈ selectTasksOn date (db w) ↔ t ∈ tasks (db w) ∧ task_date t = date)
  ∧ db out.2 = db w.
Proof.
  intros out. subst out.
  destruct (loadTasksForDate_data rooms levels date w) as [Hdata Hok].
  split; [|split; [|split]].
  - intros Hf. rewrite (Hok Hf). by eexists.
  - intros display Hd. rewrite (Hdata display Hd). unfold displayOf.
    set (base := selectTasksOn date (db w)).
    set (asg := if isEmpty (map task_id base) then []
                else selectAssignmentsIn (map task_id base) (db w)).
    set (pm := if isEmpty _ then ∅ else _).
    split.
    + assert (Hbase : ∀ t, t ∈ base → t ∈ base) by done.
      revert Hbase. generalize base at 1 3 4 as l.
      induction l as [|t l IH]; intros Hl; cbn [map]; constructor.
      * cbn [toDisplay td_task_id td_room_id td_cleaning_level_id
             td_is_harvest_shift assigned_to_names].
        repeat (split; [done|]). split.
        -- rewrite (Permutation_length (sortBy_perm _ _)), length_map.
           assert (Ht : t ∈ base) by apply Hl, list_elem_of_here.
           unfold asg. destruct (isEmpty (map task_id base)) eqn:E.
           { destruct base; [by apply elem_of_nil in Ht|done]. }
           unfold selectAssignmentsIn. rewrite filter_map_swap, length_map.
           cbn [fst]. f_equal. apply filter_filter_imp.
           intros a Ha%bool_decide_eq_true. apply bool_decide_eq_true_2.
           rewrite Ha. apply list_elem_of_In, in_map, list_elem_of_In, Ht.
        -- apply sortBy_sorted, codeUnitCompare_total.
      * apply IH. intros t' Ht'. apply Hl. by apply list_elem_of_further.
    + rewrite map_map. cbn [toDisplay td_room_id].
      apply selectTasksOn_sorted.
  - apply selectTasksOn_elem.
  - apply loadTasksForDate_readOnly.
Qed.

(** The update of the level commutes with the request for the tasks of a
    date. *)
Lemma selectTasksOn_relevel date newLevelId taskId d :
  selectTasksOn date (updateTaskLevelWhereId newLevelId taskId d)
  = map (λ t, if decide (task_id t = taskId)
              then {| task_id := task_id t; task_date := task_date t;
                      task_room_id := task_room_id t;
                      cleaning_level_id := newLevelId;
                      is_harvest_shift := is_harvest_shift t |}
              else t) (selectTasksOn date d).
Proof.
  unfold selectTasksOn, updateTaskLevelWhereId. cbn [tasks].
  set (g := λ t, if decide (task_id t = taskId) then _ else t).
  rewrite (filter_map_commute g)
    by (intros t; unfold g; by destruct (decide _)).
  apply sortBy_map. intros a b. unfold g. by do 2 destruct (decide _).
Qed.

(** X17. When the chosen level is one the page holds and the page's levels
    have distinct ids, the rows [updateTaskLevel] leaves on the page after
    a successful update are those [loadTasksForDate] would set from the
    table: the tasks of the given id carry the new level and its name, all
    else is as before.  When the request fails the rows and the table stay
    as they were and its message is the toast. *)
Theorem updateTaskLevel_matches_reload (rooms : list Room)
    (levels : list CleaningLevel) (date : IsoDate) (taskId newLevelId : Z)
    (w : World) :
  NoDup (map level_id levels) →
  (∃ l, l ∈ levels ∧ level_id l = newLevelId) →
  let shown := displayOf rooms levels date (db w) in
  let out := updateTaskLevel levels taskId newLevelId shown w in
  (∀ w' display, (loadTasksForDate rooms levels date w').1 = Data display →
                 display = displayOf rooms levels date (db w'))
  ∧ (failing w = None →
     out.1 = (displayOf rooms levels date (db out.2), "Level updated")
     ∧ db out.2 = updateTaskLevelWhereId newLevelId taskId (db w))
  ∧ (∀ msg, failing w = Some msg → out.1 = (shown, msg) ∧ db out.2 = db w).
Proof.
  intros Hnd (lv & Hlv & Hid) shown out. subst shown out.
  split; [intros w'; apply loadTasksForDate_data|].
  unfold updateTaskLevel, mbind, M_bind, mret, M_ret, mutate, request, failing.
  assert (Hsync :
    map (λ t, if decide (td_task_id t = taskId)
              then relevel levels newLevelId t else t)
        (displayOf rooms levels date (db w))
    = displayOf rooms levels date
        (updateTaskLevelWhereId newLevelId taskId (db w))).
  { unfold displayOf. rewrite selectTasksOn_relevel.
    set (base := selectTasksOn date (db w)).
    set (g := λ t, if decide (task_id t = taskId) then _ else t).
    assert (Hids : map task_id (map g base) = map task_id base).
    { rewrite map_map. apply map_ext. intros t. unfold g.
      by destruct (decide _). }
    rewrite Hids. unfold selectAssignmentsIn, selectProfileNames.
    cbn [task_assignments profiles updateTaskLevelWhereId].
    rewrite !map_map. apply map_ext. intros t. unfold g.
    cbn [toDisplay td_task_id].
    destruct (decide (task_id t = taskId)) as [E|E]; [|done].
    unfold relevel, toDisplay.
    cbn [td_task_id td_room_id td_room_name td_cleaning_level_id
         td_cleaning_level_name td_is_harvest_shift assigned_to_names
         task_id task_room_id cleaning_level_id is_harvest_shift].
    f_equal. rewrite (foldl_insert_lookup level_id levels newLevelId Hnd).
    destruct (List.find _ levels) as [l|] eqn:El; [done|].
    apply list_elem_of_In in Hlv. apply (find_none _ _ El) in Hlv.
    by apply bool_decide_eq_false in Hlv. }
  destruct (faults w) as [|[msg|] fs]; cbn [fst snd db].
  - split; [|done]. intros _. by rewrite Hsync.
  - split; [done|]. by intros msg' [= <-].
  - split; [|done]. intros _. by rewrite Hsync.
Qed.

Lemma updateTaskLevel_matches_reload_witness :
  let w := {| db := exampleWeek; faults := [] |} in
  let shown := displayOf (rooms exampleWeek) (cleaning_levels exampleWeek)
                 (isoDate 2024 6 3) exampleWeek in
  db (updateTaskLevel (cleaning_levels exampleWeek) 2 1 shown w).2
  = updateTaskLevelWhereId 1 2 exampleWeek.
Proof.
  intros w shown.
  assert (Hnd : NoDup (map level_id (cleaning_levels exampleWeek)))
    by apply NoDup_singleton.
  assert (Hlv : ∃ l, l ∈ cleaning_levels exampleWeek ∧ level_id l = 1).
  { eexists. split; [apply list_elem_of_here|reflexivity]. }
  exact (proj2 (proj1 (proj2 (updateTaskLevel_matches_reload
           (rooms exampleWeek) (cleaning_levels exampleWeek)
           (isoDate 2024 6 3) 2 1 w Hnd Hlv)) eq_refl)).
Defined.

End DayTasks.

(** ** Rooms, levels and workers of the page *)

Section Basics.
Import JSDate Repo AdminDashboard.

Lemma NoDup_map_filter {A B} (f : A → B) (P : A → bool) (l : list A) :
  NoDup (map f l) → NoDup (map f (List.filter P l)).
Proof.
  induction l as [|x l IH]; [done|]. cbn [map List.filter].
  intros [Hx Hnd]%NoDup_cons. destruct (P x); [|by apply IH].
  cbn [map]. apply NoDup_cons. split; [|by apply IH].
  intros Hin. apply Hx. apply list_elem_of_In, in_map_iff in Hin as (y & Hy & Hin).
  apply filter_In in Hin as [Hin _]. rewrite <- Hy.
  by apply list_elem_of_In, in_map.
Qed.

Lemma NoDup_map_eq {A B} (f : A → B) (l : list A) x y :
  NoDup (map f l) → x ∈ l → y ∈ l → f x = f y → x = y.
Proof.
  induction l as [|z l IH]; [by intros _ ?%elem_of_nil|]. cbn [map].
  intros [Hz Hnd]%NoDup_cons [->|Hx]%elem_of_cons [->|Hy]%elem_of_cons Hf.
  - done.
  - destruct Hz. rewrite Hf. by apply list_elem_of_In, in_map, list_elem_of_In.
  - destruct Hz. rewrite <- Hf. by apply list_elem_of_In, in_map, list_elem_of_In.
  - by apply IH.
Qed.

Lemma selectActiveRooms_elem d r :
  r ∈ selectActiveRooms d ↔ r ∈ rooms d ∧ room_active r = true.
Proof.
  unfold selectActiveRooms.
  by rewrite sortBy_elem, list_elem_of_In, filter_In, <- list_elem_of_In.
Qed.

Lemma selectActiveRooms_NoDup d :
  NoDup (map room_id (rooms d)) → NoDup (map room_id (selectActiveRooms d)).
Proof.
  intros Hnd. unfold selectActiveRooms.
  assert (Hperm : map room_id (sortBy (λ a b, room_id a - room_id b)
                                      (List.filter room_active (rooms d)))
                  ≡ₚ map room_id (List.filter room_active (rooms d)))
    by apply Permutation_map, sortBy_perm.
  rewrite Hperm. by apply NoDup_map_filter.
Qed.

Lemma loadBasics_run collate w :
  loadBasics collate w
  = (match failing w,
           failing {| db := db w; faults := tail (faults w) |},
           failing {| db := db w; faults := tail (tail (faults w)) |} with
     | Some msg, _, _ => Failure msg
     | None, Some msg, _ => Failure msg
     | None, None, Some msg => Failure msg
     | None, None, None =>
         Data (selectActiveRooms (db w), selectLevels (db w),
               sortBy (λ a b, collate (full_name a) (full_name b))
                      (List.filter (λ p, bool_decide (role p = worker))
                                   (profiles (db w))))
     end, {| db := db w; faults := tail (tail (tail (faults w))) |}).
Proof.
  unfold loadBasics, mbind, M_bind, mret, M_ret. rewrite !query_run.
  cbn [fst snd db faults].
  by destruct (failing w),
       (failing {| db := db w; faults := tail (faults w) |}),
       (failing {| db := db w; faults := tail (tail (faults w)) |}).
Qed.

(** X18. [loadBasics] always sends its three requests and writes nothing;
    it throws the first error in the order rooms, levels, workers (the
    error of the rooms if there is one, else that of the levels, else that
    of the workers), and otherwise sets the active rooms in the order of
    their ids and every profile of role worker, active or not.  A task of
    the day whose room is not active is therefore shown by
    [loadTasksForDate] as "Room" and its number, and one whose room is
    active under the room's name, room ids being distinct. *)
Theorem loadBasics_rooms (collate : option string → option string → Z)
    (levels : list CleaningLevel) (date : IsoDate) (w : World) :
  let out := loadBasics collate w in
  let w1 := {| db := db w; faults := tail (faults w) |} in
  let w2 := {| db := db w; faults := tail (tail (faults w)) |} in
  (db out.2 = db w ∧ faults out.2 = tail (tail (tail (faults w))))
  ∧ (∀ msg, failing w = Some msg → out.1 = Failure msg)
  ∧ (∀ msg, failing w = None → failing w1 = Some msg → out.1 = Failure msg)
  ∧ (∀ msg, failing w = None → failing w1 = None → failing w2 = Some msg →
       out.1 = Failure msg)
  ∧ (failing w = None → failing w1 = None → failing w2 = None →
     ∃ ws, out.1 = Data (selectActiveRooms (db w), selectLevels (db w), ws)
           ∧ ∀ p, p ∈ ws ↔ p ∈ profiles (db w) ∧ role p = worker)
  ∧ (faults w = [] →
     ∃ ws, out.1 = Data (selectActiveRooms (db w), selectLevels (db w), ws)
           ∧ ∀ p, p ∈ ws ↔ p ∈ profiles (db w) ∧ role p = worker)
  ∧ (∀ r, r ∈ selectActiveRooms (db w)
          ↔ r ∈ rooms (db w) ∧ room_active r = true)
  ∧ Sorted Z.le (map room_id (selectActiveRooms (db w)))
  ∧ (∀ row, row ∈ displayOf (selectActiveRooms (db w)) levels date (db w) →
       ((∀ r, r ∈ rooms (db w) → room_id r = td_room_id row →
              room_active r = false) →
        td_room_name row = "Room " +:+ pretty (td_room_id row))
       ∧ (NoDup (map room_id (rooms (db w))) →
          ∀ r, r ∈ rooms (db w) → room_id r = td_room_id row →
               room_active r = true → td_room_name row = room_name r)).
Proof.
  intros out w1 w2. subst out w1 w2. rewrite loadBasics_run.
  cbn [fst snd db faults].
  split; [done|]. split; [by intros msg ->|].
  split; [by intros msg -> ->|]. split; [by intros msg -> -> ->|]. split.
  { intros -> -> ->. eexists. split; [reflexivity|]. intros p.
    rewrite sortBy_elem, list_elem_of_In, filter_In, <- list_elem_of_In.
    by rewrite bool_decide_eq_true. }
  split.
  { intros Hf. unfold failing. rewrite Hf. cbn [tail faults].
    eexists. split; [reflexivity|]. intros p.
    rewrite sortBy_elem, list_elem_of_In, filter_In, <- list_elem_of_In.
    by rewrite bool_decide_eq_true. }
  split; [apply selectActiveRooms_elem|]. split.
  { apply Sorted_map.
    apply (Sorted_weaken (cmpLe (λ a b, room_id a - room_id b))).
    - unfold cmpLe. intros a b. lia.
    - apply sortBy_sorted. intros a b. lia. }
  intros row Hrow. unfold displayOf in Hrow.
  apply list_elem_of_In, in_map_iff in Hrow as (t & <- & _).
  unfold toDisplay. cbn [td_room_name td_room_id]. split.
  - intros Hoff.
    rewrite foldl_insert_lookup_None; [by rewrite lookup_empty|].
    intros x [Hx Hact]%selectActiveRooms_elem Hid.
    rewrite (Hoff x Hx Hid) in Hact. discriminate.
  - intros Hnd r Hr Hid Hact.
    rewrite (foldl_insert_lookup room_id _ _ (selectActiveRooms_NoDup _ Hnd)).
    destruct (List.find _ (selectActiveRooms (db w))) as [r'|] eqn:E.
    + apply find_some in E as [Hin E%bool_decide_eq_true].
      apply list_elem_of_In, selectActiveRooms_elem in Hin as [Hin _].
      cbn. f_equal. apply (NoDup_map_eq room_id (rooms (db w))); try done.
      congruence.
    + assert (Hin : r ∈ selectActiveRooms (db w))
        by (by apply selectActiveRooms_elem).
      apply list_elem_of_In in Hin. apply (find_none _ _ E) in Hin.
      by apply bool_decide_eq_false in Hin.
Qed.

End Basics.

(** ** Tasks of the day on the second admin dashboard *)

Section DayTasks2.
Import JSDate Repo AdminDashboard2.

Lemma toBaseTask_row row t :
  toBaseTask row = Some t → tr_id t = dt_id row ∧ assignees t = [].
Proof.
  unfold toBaseTask. destruct (dt_room row); [|done].
  destruct (dt_level row); [|done]. cbn. by intros [= <-].
Qed.

Lemma mapM_toBaseTask data : ∀ base,
  mapM toBaseTask data = Some base →
  Forall2 (λ row t, tr_id t = dt_id row ∧ assignees t = []) data base.
Proof.
  induction data as [|row data IH]; intros base.
  - intros [= <-]. constructor.
  - cbn [mapM]. unfold mbind at 1, option_bind at 1.
    destruct (toBaseTask row) as [t|] eqn:Et; [|done].
    unfold mbind at 1, option_bind at 1.
    destruct (mapM toBaseTask data) as [k|] eqn:Ek; [|done].
    intros [= <-]. constructor; [by apply toBaseTask_row|by apply IH].
Qed.

(** X19. When the request for the assignments of the day's tasks fails,
    [loadTasks] of the second admin dashboard sets no message: it shows
    the tasks of the date, in the order of their ids, each without any
    assignee, and a summary in which every worker has no task. *)
Theorem loadTasks_assignments_error_silent (lc : string → string → Z)
    (workers : list WorkerRow) (date : IsoDate) (st : PageState) (w : World)
    (base : list TaskRow) :
  failing w = None →
  mapM toBaseTask (selectDayTasks date (db w)) = Some base →
  base ≠ [] →
  failing {| db := db w; faults := tail (faults w) |} ≠ None →
  let out := loadTasks lc workers date st w in
  ps_message out.1.1 = None ∧ out.1.2 = false
  ∧ ps_tasks out.1.1 = base
  ∧ map tr_id base
    = map task_id
        (sortBy (λ a b, task_id a - task_id b)
                (List.filter (λ t, bool_decide (task_date t = date))
                             (tasks (db w))))
  ∧ Forall (λ t, assignees t = []) (ps_tasks out.1.1)
  ∧ Forall (λ e, task_count e = 0%nat) (ps_workerSummary out.1.1)
  ∧ db out.2 = db w.
Proof.
  intros Hf Hbase Hne Hf1 out. subst out.
  unfold loadTasks, mbind, M_bind, mret, M_ret. rewrite query_run, Hf.
  cbn [fst snd]. rewrite Hbase.
  destruct (isEmpty (map tr_id base)) eqn:Ee.
  { destruct base; [done|discriminate]. }
  rewrite query_run. cbn [fst snd db].
  destruct (failing {| db := db w; faults := tail (faults w) |}) as [msg|];
    [|by destruct Hf1].
  cbn [fst snd ps_message ps_tasks ps_workerSummary db].
  pose proof (mapM_toBaseTask _ _ Hbase) as Hrows.
  assert (Hnone : Forall (λ t, assignees t = []) base).
  { clear -Hrows. induction Hrows as [|? ? ? ? [_ H]]; constructor; done. }
  split; [done|]. split; [done|]. split; [done|]. split.
  { unfold selectDayTasks in Hrows.
    set (l := sortBy _ _) in *. clearbody l. clear -Hrows.
    revert base Hrows. induction l as [|t l IH]; intros base Hrows.
    - by inversion Hrows.
    - inversion Hrows as [|? y ? k [Hid _] Hrest]; subst.
      cbn [map]. f_equal; [done|]. by apply IH. }
  split; [done|]. split; [|done].
  apply Forall_forall. intros e He.
  destruct (buildWorkerSummary_spec lc workers base) as (_ & Hcount & _).
  destruct (Hcount e He) as [-> _].
  assert (Hflat : assigneesWithRoom base = []).
  { clear -Hnone. unfold assigneesWithRoom.
    induction Hnone as [|t l Ht _ IH]; [done|].
    cbn. rewrite Ht. cbn. exact IH. }
  by rewrite Hflat.
Qed.

Lemma loadTasks_assignments_error_silent_witness :
  let w := {| db := exampleWeek; faults := [None; Some "timeout"] |} in
  let st := {| ps_tasks := []; ps_workerSummary := []; ps_weeklySummary := [];
               ps_message := Some "Assignments generated!" |} in
  ps_message (loadTasks codeUnitCompare [] (isoDate 2024 6 3) st w).1.1 = None.
Proof.
  intros w st.
  refine (proj1 (loadTasks_assignments_error_silent codeUnitCompare []
                   (isoDate 2024 6 3) st w
                   (default [] (mapM toBaseTask
                                  (selectDayTasks (isoDate 2024 6 3) exampleWeek)))
                   eq_refl _ _ _)).
  - vm_compute. reflexivity.
  - vm_compute. discriminate.
  - vm_compute. discriminate.
Defined.

End DayTasks2.

(** ** The first load of the second admin dashboard *)

Section FirstLoad.
Import JSDate Repo AdminDashboard2.

(** Entries that the inner loop of [buildWorkerSummary] creates or counts
    up keep a property of the names it is given. *)
Lemma foldl_addPair_named pairs : ∀ m,
  Forall (λ p, ws_full_name p.2 = ws_user_id p.2 ∧ (1 <= task_count p.2)%nat) m →
  Forall (λ p : string * AssignmentSummary, as_user_name p.2 = as_user_id p.2)
         pairs →
  Forall (λ p, ws_full_name p.2 = ws_user_id p.2 ∧ (1 <= task_count p.2)%nat)
         (foldl addPair m pairs).
Proof.
  induction pairs as [|[room a] pairs IH]; intros m Hm Hp; [done|].
  apply Forall_cons in Hp as [Ha Hp]. cbn [foldl]. apply IH; [|done].
  unfold addPair, addAssignee. cbn [fst snd] in *.
  destruct (JSMap.get (as_user_id a) m) as [e|] eqn:E.
  - apply Forall_set; [|done]. cbn [snd ws_full_name ws_user_id task_count].
    apply get_elem in E. rewrite Forall_forall in Hm.
    destruct (Hm _ E) as [Hn Hc]. cbn [snd] in Hn, Hc. split; [done|lia].
  - apply Forall_set; [|done]. cbn [snd ws_full_name ws_user_id task_count].
    split; [done|lia].
Qed.

Lemma withAssignees_no_workers assigns t :
  Forall (λ a, as_user_name a = as_user_id a)
         (assignees (withAssignees [] assigns t)).
Proof.
  unfold withAssignees. cbn [assignees foldl].
  apply Forall_forall. intros a Ha.
  apply list_elem_of_In, in_map_iff in Ha as (x & <- & _).
  cbn [as_user_name as_user_id]. by rewrite lookup_empty.
Qed.

Lemma loadTasks_no_workers lc date st w :
  let out := loadTasks lc [] date st w in
  out.1.2 = true
  ∨ (Forall (λ t, Forall (λ a, as_user_name a = as_user_id a) (assignees t))
            (ps_tasks out.1.1)
     ∧ ps_workerSummary out.1.1 = buildWorkerSummary lc [] (ps_tasks out.1.1)
       ∨ (ps_tasks out.1.1 = [] ∧ ps_workerSummary out.1.1 = [])).
Proof.
  cbn zeta. unfold loadTasks, mbind, M_bind, mret, M_ret. rewrite query_run.
  cbn [fst snd]. destruct (failing w); cbn [fst snd ps_tasks ps_workerSummary].
  { right. right. done. }
  destruct (mapM toBaseTask _) as [base|] eqn:Eb; [|by left].
  right. left.
  assert (Hbase : Forall (λ t, Forall (λ a, as_user_name a = as_user_id a)
                                      (assignees t)) base).
  { pose proof (mapM_toBaseTask _ _ Eb) as H. clear -H.
    induction H as [|? ? ? ? [_ H']]; constructor; [|done].
    rewrite H'. constructor. }
  destruct (isEmpty _); cbn [fst snd ps_tasks ps_workerSummary]; [done|].
  rewrite query_run. cbn [fst snd].
  destruct (failing _); cbn [fst snd ps_tasks ps_workerSummary]; [done|].
  split; [|done]. apply Forall_forall. intros t Ht.
  apply list_elem_of_In, in_map_iff in Ht as (x & <- & _).
  apply withAssignees_no_workers.
Qed.

(** X20. After the first load the weekly summary is empty whatever the
    tables hold, every assignee of the day's tasks is named by its user id,
    and the summary of the day lists only users with a task, under their
    ids: [init] runs with the empty [workers] of the first render.  The
    message left is none or that of [loadTasks], and nothing is written. *)
Theorem init_without_workers (lc : string → string → Z) (tz : Z)
    (collate : option string → option string → Z) (date : IsoDate) (w : World) :
  let out := init lc tz collate date w in
  let page := out.1.1.1 in
  ps_weeklySummary page = []
  ∧ Forall (λ t, Forall (λ a, as_user_name a = as_user_id a) (assignees t))
           (ps_tasks page)
  ∧ Forall (λ e, ws_full_name e = ws_user_id e ∧ (1 <= task_count e)%nat)
           (ps_workerSummary page)
  ∧ (ps_message page = None ∨ ps_message page = Some "Error loading tasks")
  ∧ db out.2 = db w.
Proof.
  cbn zeta. unfold init, mbind, M_bind, mret, M_ret.
  destruct (loadCleaningLevels w) as [levelsRes w1] eqn:E1.
  destruct (loadWorkersAvailability collate w1) as [workersRes w2] eqn:E2.
  cbn zeta.
  set (st0 := {| ps_tasks := []; ps_workerSummary := _ |}).
  pose proof (loadTasks_no_workers lc date st0 w2) as Hno.
  pose proof (loadTasks_message lc [] date st0 w2) as Hmsg.
  pose proof (loadTasks_readOnly lc [] date st0 w2) as Hro.
  assert (Hdb : db w2 = db w).
  { assert (H1 : db w1 = db w).
    { replace w1 with (loadCleaningLevels w).2 by (by rewrite E1).
      unfold loadCleaningLevels, mbind, M_bind. rewrite query_run.
      by destruct (failing w). }
    rewrite <- H1.
    replace w2 with (loadWorkersAvailability collate w1).2 by (by rewrite E2).
    unfold loadWorkersAvailability, mbind, M_bind. rewrite query_run.
    by destruct (failing w1). }
  destruct (loadTasks lc [] date st0 w2) as [[st1 threw] w3] eqn:E3.
  cbn [fst snd] in Hno, Hmsg, Hro.
  assert (Hst0 : ps_weeklySummary st1 = []).
  { replace st1 with (loadTasks lc [] date st0 w2).1.1 by (by rewrite E3).
    unfold loadTasks, mbind, M_bind, mret, M_ret. rewrite query_run.
    cbn [fst snd]. destruct (failing w2); [done|].
    destruct (mapM toBaseTask _); [|done].
    destruct (isEmpty _); [done|]. rewrite query_run. cbn [fst snd].
    by destruct (failing _). }
  assert (Hsum : Forall (λ e, ws_full_name e = ws_user_id e
                              ∧ (1 <= task_count e)%nat)
                        (ps_workerSummary st1)
                 ∧ Forall (λ t, Forall (λ a, as_user_name a = as_user_id a)
                                       (assignees t)) (ps_tasks st1)).
  { destruct threw.
    - replace st1 with (loadTasks lc [] date st0 w2).1.1 by (by rewrite E3).
      assert (Ht : (loadTasks lc [] date st0 w2).1.2 = true) by (by rewrite E3).
      revert Ht. unfold loadTasks, mbind, M_bind, mret, M_ret.
      rewrite query_run. cbn [fst snd]. destruct (failing w2); [done|].
      destruct (mapM toBaseTask _); [|done].
      destruct (isEmpty _); [done|]. rewrite query_run. cbn [fst snd].
      by destruct (failing _).
    - destruct Hno as [Hno|[[Hnames Hs]|[Ht Hs]]]; [done| |].
      + split; [|done]. rewrite Hs, buildWorkerSummary_unfold.
        apply Forall_forall. intros e He%sortBy_elem.
        unfold JSMap.values in He.
        apply list_elem_of_In, in_map_iff in He as (p & <- & Hp).
        apply list_elem_of_In in Hp. revert p Hp. apply Forall_forall.
        apply foldl_addPair_named; [constructor|].
        clear -Hnames. unfold assigneesWithRoom.
        induction Hnames as [|t l Ht _ IH]; [constructor|].
        cbn. apply Forall_app. split; [|exact IH].
        clear -Ht. induction Ht; constructor; done.
      + rewrite Hs, Ht. split; constructor. }
  destruct Hsum as [Hsum Hnames].
  destruct threw; cbn [fst snd].
  - split; [done|]. split; [done|]. split; [done|]. split; [done|].
    by rewrite Hro.
  - rewrite loadWeeklySummary_run.
    cbn [fst snd ps_weeklySummary ps_tasks ps_workerSummary ps_message].
    split; [done|]. split; [done|]. split; [done|]. split; [done|].
    by rewrite Hro.
Qed.

End FirstLoad.

(** ** Generating from the first admin dashboard *)

Section GenerateOutcomes.
Import JSDate Repo AdminDashboard.

(** X21. [handleGenerateAssignments] leaves the tables as the procedure
    call left them.  When the call fails the tasks on the page stay and
    its message is the toast; when the call succeeds but the reload fails
    the tasks on the page also stay, though the procedure has run, and the
    toast is the reload's message; only when no request fails are the tasks
    those of the tables after the call, with the toast
    "Assignments generated". *)
Theorem handleGenerateAssignments_outcomes
    (gen : IsoDate → DB → (string + unit) * DB)
    (rooms : list Room) (levels : list CleaningLevel) (date : IsoDate)
    (shown : list TaskDisplay) (w : World) :
  let out := handleGenerateAssignments gen rooms levels date shown w in
  let called := rpc (gen date) w in
  db out.2 = db called.2
  ∧ (∀ msg, called.1 = Failure msg → out.1 = (shown, msg))
  ∧ (called.1 = Data () →
     (∀ msg, (loadTasksForDate rooms levels date called.2).1 = Failure msg →
             out.1 = (shown, msg))
     ∧ (faults called.2 = [] →
        out.1 = (displayOf rooms levels date (db called.2),
                 "Assignments generated")))
  ∧ (out.1.1 = shown
     ∨ out.1 = (displayOf rooms levels date (db called.2),
                "Assignments generated")).
Proof.
  intros out called. subst out called.
  split; [apply handleGenerateAssignments_db|].
  unfold handleGenerateAssignments, mbind, M_bind, mret, M_ret.
  destruct (rpc (gen date) w) as [[[]|msg] w1]; cbn [fst snd].
  - destruct (loadTasksForDate_data rooms levels date w1) as [Hdata Hok].
    split; [done|].
    destruct (loadTasksForDate rooms levels date w1) as [[display|msg] w2] eqn:E;
      cbn [fst snd] in *.
    + rewrite (Hdata display eq_refl). split; [|by right].
      intros _. split; [done|]. done.
    + split; [|by left]. intros _. split; [by intros msg' [= <-]|].
      intros Hf. specialize (Hok Hf). congruence.
  - split; [by intros msg' [= <-]|]. split; [done|by left].
Qed.

End GenerateOutcomes.
